(** * Smart Rental Tracking: the demand-forecasting and anomaly engine

    A shallow embedding of [ml/smart_ml_system.py] (class [SmartMLSystem]),
    of the reload callback and the endpoints of [ml/fastapi_ml_service.py],
    of the change handler of [ml/database_watcher.py], of the cleaner of
    [ml/fix_equipment_stats.py] and of the forecast of the placeholder
    service [backend-ml-python/main.py], followed by the properties that
    are stated about them.

    Conventions of the embedding.
    - A float64 is a value of [fl]: NaN, the two infinities, or a finite
      number carried as an exact rational.  Rounding error of finite
      arithmetic is not represented; NaN and infinity propagation, the
      comparisons with NaN, and the behaviour of Python's [min], [max] and
      [round] are.
    - A pandas Timestamp is the proleptic Gregorian ordinal of its day;
      NaT is [None].  [timedelta(days=k)] adds [k] to the ordinal.
    - A DataFrame is the list of its rows in index order.  A CSV file or
      a query result that was read has the columns of the dataset, with
      numbers or nulls in the two hours columns; a file without one of
      the columns, or with a text in an hours cell, is not represented.
      A date cell can hold a text that does not parse.
    - scikit-learn is an interface ([Sklearn]); every call that can raise
      returns an [option].
    - The value an endpoint returns is a tree of [json]; a dictionary is
      the list of its entries in insertion order. *)

From Stdlib Require Import ZArith QArith Qround Qabs Lqa Lia List String Bool.
From stdpp Require Import gmap strings.
Import ListNotations.

Open Scope Z_scope.
Open Scope Q_scope.

(* ===================================================================== *)
(** * Floating-point values *)
(* ===================================================================== *)

Module Float.

Inductive fl : Type :=
| NaN
| PInf
| NInf
| Num (q : Q).

Definition Qltb (a b : Q) : bool := negb (Qle_bool b a).

Definition sign_of (q : Q) : comparison := (0 ?= q).

Definition opp (x : fl) : fl :=
  match x with
  | NaN => NaN
  | PInf => NInf
  | NInf => PInf
  | Num q => Num (- q)
  end.

Definition add (x y : fl) : fl :=
  match x, y with
  | NaN, _ | _, NaN => NaN
  | PInf, NInf | NInf, PInf => NaN
  | PInf, _ | _, PInf => PInf
  | NInf, _ | _, NInf => NInf
  | Num a, Num b => Num (a + b)
  end.

Definition sub (x y : fl) : fl := add x (opp y).

(** An infinity scaled by a finite factor: the sign follows the factor,
    and a zero factor gives NaN. *)
Definition inf_times (positive : bool) (q : Q) : fl :=
  match sign_of q with
  | Eq => NaN
  | Lt => if positive then PInf else NInf
  | Gt => if positive then NInf else PInf
  end.

Definition mul (x y : fl) : fl :=
  match x, y with
  | NaN, _ | _, NaN => NaN
  | PInf, PInf | NInf, NInf => PInf
  | PInf, NInf | NInf, PInf => NInf
  | PInf, Num q | Num q, PInf => inf_times true q
  | NInf, Num q | Num q, NInf => inf_times false q
  | Num a, Num b => Num (a * b)
  end.

(** numpy division: [0/0] is NaN, [x/0] is an infinity of the sign of
    [x], a finite number over an infinity is 0. *)
Definition div (x y : fl) : fl :=
  match x, y with
  | NaN, _ | _, NaN => NaN
  | (PInf | NInf), (PInf | NInf) => NaN
  | PInf, Num q => if Qltb q 0 then NInf else PInf
  | NInf, Num q => if Qltb q 0 then PInf else NInf
  | Num _, (PInf | NInf) => Num 0
  | Num a, Num b =>
      if Qeq_bool b 0 then
        match sign_of a with
        | Eq => NaN
        | Lt => PInf
        | Gt => NInf
        end
      else Num (a / b)
  end.

(** Comparisons: every comparison with NaN is false. *)
Definition ltb (x y : fl) : bool :=
  match x, y with
  | NaN, _ | _, NaN => false
  | _, NInf => false
  | NInf, _ => true
  | PInf, _ => false
  | Num _, PInf => true
  | Num a, Num b => Qltb a b
  end.

Definition gtb (x y : fl) : bool := ltb y x.

Definition leb (x y : fl) : bool :=
  match x, y with
  | NaN, _ | _, NaN => false
  | NInf, _ => true
  | _, PInf => true
  | _, NInf => false
  | PInf, _ => false
  | Num a, Num b => Qle_bool a b
  end.

Definition geb (x y : fl) : bool := leb y x.

Definition eqb (x y : fl) : bool :=
  match x, y with
  | PInf, PInf | NInf, NInf => true
  | Num a, Num b => Qeq_bool a b
  | _, _ => false
  end.

Definition isna (x : fl) : bool :=
  match x with NaN => true | _ => false end.

(** [Series.fillna(v)] on one cell. *)
Definition fillna (v : fl) (x : fl) : fl := if isna x then v else x.

(** [x] is the finite number [q] (up to equality of rationals). *)
Definition is_num (x : fl) (q : Q) : Prop :=
  match x with Num a => a == q | _ => False end.

(** [x] is a finite number in the closed interval [[lo, hi]]. *)
Definition in_range (x : fl) (lo hi : Q) : Prop :=
  match x with Num a => lo <= a /\ a <= hi | _ => False end.

(** Equality of float values: the same special value, or equal numbers. *)
Definition equiv (x y : fl) : Prop :=
  match x, y with
  | NaN, NaN | PInf, PInf | NInf, NInf => True
  | Num a, Num b => a == b
  | _, _ => False
  end.

Definition of_Z (z : Z) : fl := Num (inject_Z z).

(** Python's built-in [max(a, b)] and [min(a, b)]: the first argument is
    kept unless the second compares strictly beyond it, so a NaN second
    argument is dropped. *)
Definition py_max (a b : fl) : fl := if gtb b a then b else a.
Definition py_min (a b : fl) : fl := if ltb b a then b else a.

(** Round half to even, the rounding of Python's [round]. *)
Definition round_half_even (q : Q) : Z :=
  let f := Qfloor q in
  let r := q - inject_Z f in
  if Qltb r (1 # 2) then f
  else if Qltb (1 # 2) r then (f + 1)%Z
  else if Z.even f then f else (f + 1)%Z.

(** [round(x, ndigits)] on a float: infinities and NaN are returned
    unchanged. *)
Definition py_round (x : fl) (ndigits : nat) : fl :=
  match x with
  | Num q =>
      let scale := inject_Z (10 ^ Z.of_nat ndigits) in
      Num (inject_Z (round_half_even (q * scale)) / scale)
  | _ => x
  end.

(** [Series.sum()] and [Series.mean()] skip NaN cells; the mean of no
    cell is NaN. *)
Definition notna_cells (col : list fl) : list fl :=
  List.filter (fun x => negb (isna x)) col.

Definition series_sum (col : list fl) : fl :=
  fold_left add (notna_cells col) (Num 0).

Definition series_mean (col : list fl) : fl :=
  match notna_cells col with
  | [] => NaN
  | cells => div (fold_left add cells (Num 0)) (of_Z (Z.of_nat (length cells)))
  end.

End Float.

Import Float.

Declare Scope fl_scope.
Delimit Scope fl_scope with fl.
Bind Scope fl_scope with fl.
Infix "+" := Float.add : fl_scope.
Infix "-" := Float.sub : fl_scope.
Infix "*" := Float.mul : fl_scope.
Infix "/" := Float.div : fl_scope.
Infix "<?" := Float.ltb : fl_scope.
Infix ">?" := Float.gtb : fl_scope.
Infix ">=?" := Float.geb : fl_scope.
Infix "=?" := Float.eqb : fl_scope.

(** The text of an optional string argument that was found truthy. *)
Definition text_of (o : option string) : string :=
  match o with
  | Some s => s
  | None => EmptyString
  end.

(** Truthiness of an optional string argument ([if site_id:]): [None]
    and the empty string are false. *)
Definition truthy (s : option string) : bool :=
  match s with
  | None => false
  | Some EmptyString => false
  | Some _ => true
  end.

(* ===================================================================== *)
(** * Calendar *)
(* ===================================================================== *)

Module Calendar.

Open Scope Z_scope.

Definition DAYS_BEFORE_MONTH (month : Z) : Z :=
  nth (Z.to_nat month)
      [-1; 0; 31; 59; 90; 120; 151; 181; 212; 243; 273; 304; 334] 0.

Definition DAYS_IN_MONTH (month : Z) : Z :=
  nth (Z.to_nat month)
      [-1; 31; 28; 31; 30; 31; 30; 31; 31; 30; 31; 30; 31] 0.

(** [datetime._ord2ymd]: the (year, month, day) of a proleptic Gregorian
    ordinal, day 1 being 0001-01-01. *)
Definition ord2ymd (ordinal : Z) : Z * Z * Z :=
  let n := ordinal - 1 in
  let n400 := n / 146097 in
  let n := n mod 146097 in
  let year := n400 * 400 + 1 in
  let n100 := n / 36524 in
  let n := n mod 36524 in
  let n4 := n / 1461 in
  let n := n mod 1461 in
  let n1 := n / 365 in
  let n := n mod 365 in
  let year := year + n100 * 100 + n4 * 4 + n1 in
  if (n1 =? 4) || (n100 =? 4) then (year - 1, 12, 31)
  else
    let leapyear := (n1 =? 3) && (negb (n4 =? 24) || (n100 =? 3)) in
    let month := Z.shiftr (n + 50) 5 in
    let preceding :=
      DAYS_BEFORE_MONTH month + (if (2 <? month) && leapyear then 1 else 0) in
    if n <? preceding then
      let month := month - 1 in
      let preceding :=
        preceding
        - (DAYS_IN_MONTH month + (if (month =? 2) && leapyear then 1 else 0)) in
      (year, month, n - preceding + 1)
    else (year, month, n - preceding + 1).

Definition month (ordinal : Z) : Z := snd (fst (ord2ymd ordinal)).

(** [weekday()] and pandas' [dayofweek]: Monday is 0, Sunday is 6. *)
Definition weekday (ordinal : Z) : Z := (ordinal + 6) mod 7.

Definition quarter (ordinal : Z) : Z := (month ordinal - 1) / 3 + 1.

End Calendar.

(** A value that the forecasting code holds in [last_date] and
    [future_date]: a pandas [Timestamp] taken from the data, or the plain
    [datetime] returned by [datetime.now()].  Both support [weekday()],
    [month], [strftime] and the addition of a [timedelta]; only the
    Timestamp has [dayofweek] and [quarter]. *)
Inductive date_value : Type :=
| PdTimestamp (ordinal : Z)
| PyDatetime (ordinal : Z).

Definition ordinal_of (d : date_value) : Z :=
  match d with PdTimestamp n | PyDatetime n => n end.

(** [d + timedelta(days=k)]. *)
Definition add_days (d : date_value) (k : Z) : date_value :=
  match d with
  | PdTimestamp n => PdTimestamp (n + k)
  | PyDatetime n => PyDatetime (n + k)
  end.

(* ===================================================================== *)
(** * Data frames *)
(* ===================================================================== *)

(** A date cell as read from the CSV file or from the database, before
    [pd.to_datetime]: a text that parses to a day, an empty cell, or a
    text that does not parse. *)
Inductive date_cell : Type :=
| DateOk (ordinal : Z)
| DateEmpty
| DateBad.

(** A row of the rental data as read: the columns of [data.csv], and of
    the query of [_load_database_data]. *)
Record RawRow : Type := {
  raw_Equipment_ID : string;
  raw_Type : string;
  raw_User_ID : option string;
  raw_Check_Out_Date : date_cell;
  raw_Check_in_Date : date_cell;
  raw_Engine_Hours_Day : fl;
  raw_Idle_Hours_Day : fl
}.

(** A row of the frame after feature engineering.  Dates are Timestamps
    ([None] is NaT); a null [User ID] is [None]. *)
Record Row : Type := {
  Equipment_ID : string;
  Type_ : string;
  User_ID : option string;
  Check_Out_Date : option Z;
  Check_in_Date : option Z;
  Engine_Hours_Day : fl;
  Idle_Hours_Day : fl;
  rental_duration : fl;
  utilization_ratio : fl;
  efficiency_score : fl;
  month : fl;
  day_of_week : fl;
  quarter : fl;
  is_weekend : fl;
  seasonal_factor : fl;
  site_equipment_count : fl;
  site_avg_utilization : fl;
  equipment_site_popularity : fl;
  equipment_type_encoded : fl;
  site_encoded : fl;
  daily_demand : fl;
  demand_7d_avg : fl;
  demand_30d_avg : fl
}.

Definition Frame : Type := list Row.

Definition opt_string_eqb (a : option string) (b : string) : bool :=
  match a with
  | Some a => String.eqb a b
  | None => false
  end.

(** [frame[frame['Type'] == equipment_type]] and
    [frame[frame['User ID'] == site_id]]. *)
Definition filter_Type (equipment_type : string) (frame : Frame) : Frame :=
  List.filter (fun r => String.eqb (Type_ r) equipment_type) frame.

Definition filter_User_ID (site_id : string) (frame : Frame) : Frame :=
  List.filter (fun r => opt_string_eqb (User_ID r) site_id) frame.

Definition len {A : Type} (l : list A) : Z := Z.of_nat (length l).

(** [Series.max()] of a datetime column: NaT cells are skipped, and the
    maximum of no cell is NaT. *)
Fixpoint dates_max (col : list (option Z)) : option Z :=
  match col with
  | [] => None
  | None :: rest => dates_max rest
  | Some d :: rest =>
      match dates_max rest with
      | None => Some d
      | Some m => Some (Z.max d m)
      end
  end.

(* ===================================================================== *)
(** * scikit-learn *)
(* ===================================================================== *)

(** The estimators the engine holds.  An estimator value is the state of
    the Python object, fitted or not; [fit] returns the refitted state,
    and a call that raises returns [None]. *)
Class Sklearn : Type := {
  GradientBoostingRegressor : Type;
  StandardScaler : Type;
  IsolationForest : Type;
  (** [GradientBoostingRegressor(n_estimators, max_depth, ...)] *)
  new_regressor : Z -> Z -> GradientBoostingRegressor;
  new_scaler : StandardScaler;
  new_isolation_forest : IsolationForest;
  regressor_fit :
    GradientBoostingRegressor -> list (list fl) -> list fl ->
    option GradientBoostingRegressor;
  regressor_predict :
    GradientBoostingRegressor -> list (list fl) -> option (list fl);
  scaler_fit : StandardScaler -> list (list fl) -> option StandardScaler;
  scaler_transform :
    StandardScaler -> list (list fl) -> option (list (list fl));
  isolation_forest_fit :
    IsolationForest -> list (list fl) -> option IsolationForest;
  (** [train_test_split(X, y, test_size=0.2, random_state=42)] on the
      rows paired with their targets: (train, test). *)
  train_test_split :
    list (list fl * fl) -> list (list fl * fl) * list (list fl * fl)
}.

(** ** LabelEncoder *)

(** A [LabelEncoder] is its [classes_], sorted and without duplicates;
    [None] before [fit]. *)
Definition LabelEncoder : Type := option (list string).

Fixpoint insert_sorted (s : string) (classes : list string) : list string :=
  match classes with
  | [] => [s]
  | c :: rest =>
      match String.compare s c with
      | Lt => s :: classes
      | Eq => classes
      | Gt => c :: insert_sorted s rest
      end
  end.

(** [np.unique]: the distinct labels in increasing order. *)
Definition np_unique (labels : list string) : list string :=
  fold_right insert_sorted [] labels.

Fixpoint index_of (s : string) (classes : list string) : option Z :=
  match classes with
  | [] => None
  | c :: rest =>
      if String.eqb s c then Some 0%Z
      else option_map Z.succ (index_of s rest)
  end.

(** [encoder.transform(labels)]: raises (here [None]) when the encoder is
    not fitted or when a label was not seen by [fit]. *)
Fixpoint transform_labels (classes : list string) (labels : list string)
  : option (list Z) :=
  match labels with
  | [] => Some []
  | l :: rest =>
      match index_of l classes, transform_labels classes rest with
      | Some i, Some codes => Some (i :: codes)
      | _, _ => None
      end
  end.

Definition encoder_transform (encoder : LabelEncoder) (labels : list string)
  : option (list Z) :=
  match encoder with
  | None => None
  | Some classes => transform_labels classes labels
  end.

(** [encoder.fit_transform(labels)]: every label is then a class. *)
Definition encoder_fit_transform (labels : list string)
  : LabelEncoder * list Z :=
  let classes := np_unique labels in
  (Some classes,
   List.map (fun l => match index_of l classes with
                      | Some i => i
                      | None => 0%Z
                      end) labels).

(* ===================================================================== *)
(** * Feature engineering *)
(* ===================================================================== *)

Definition to_datetime_coerce (c : date_cell) : option Z :=
  match c with
  | DateOk d => Some d
  | DateEmpty | DateBad => None
  end.

(** [pd.to_datetime(column)] with the default [errors='raise']: the whole
    conversion raises on a text that does not parse. *)
Fixpoint to_datetime (col : list date_cell) : option (list (option Z)) :=
  match col with
  | [] => Some []
  | DateBad :: _ => None
  | c :: rest =>
      match to_datetime rest with
      | Some ds => Some (to_datetime_coerce c :: ds)
      | None => None
      end
  end.

(** [(check_in - check_out).dt.days] *)
Definition days_between (check_in check_out : option Z) : fl :=
  match check_in, check_out with
  | Some i, Some o => of_Z (i - o)
  | _, _ => NaN
  end.

(** A [.dt] accessor on one cell: NaN on NaT. *)
Definition dt (field : Z -> Z) (d : option Z) : fl :=
  match d with
  | Some n => of_Z (field n)
  | None => NaN
  end.

(** [column.isin(values)] on one cell, as 0 or 1. *)
Definition isin_int (x : fl) (values : list Z) : fl :=
  if List.existsb (fun v => x =? of_Z v)%fl values then Num 1 else Num 0.

(** The seasonal factor, as the three [.loc] assignments leave it. *)
Definition seasonal_factor_of (m : fl) : fl :=
  let f := Num 1.0 in
  let f := if List.existsb (fun v => m =? of_Z v)%fl [6; 7; 8]%Z
           then Num 1.3 else f in
  let f := if List.existsb (fun v => m =? of_Z v)%fl [12; 1; 2]%Z
           then Num 0.7 else f in
  let f := if List.existsb (fun v => m =? of_Z v)%fl [3; 4; 5]%Z
           then Num 1.1 else f in
  f.

(** ** Utilization and efficiency, training time ([_preprocess_data]) *)

Definition preprocess_utilization_ratio (engine idle : fl) : fl :=
  let total_hours := (engine + idle)%fl in
  if (total_hours >? Num 0)%fl then (engine / total_hours)%fl else Num 0.

Definition preprocess_efficiency_score (engine idle : fl) : fl :=
  ((engine * Num 0.6 + (Num 24 - idle) * Num 0.4) / Num 24)%fl.

(** ** Utilization and efficiency, live data
       ([_add_calculated_columns_to_db_data]) *)

Definition db_utilization_ratio (engine idle : fl) : fl :=
  fillna (Num 0.5) (engine / (engine + idle))%fl.

(** The efficiency is computed from the utilization column after its NaN
    cells were filled. *)
Definition db_efficiency_score (engine idle : fl) : fl :=
  fillna (Num 0.5) (db_utilization_ratio engine idle * (engine / Num 8.0))%fl.

(** ** Utilization and efficiency, anomaly scan ([detect_anomalies]) *)

Definition anomaly_utilization_ratio (engine idle : fl) : fl :=
  fillna (Num 0.5) (engine / (engine + idle))%fl.

(** Here the efficiency is computed from the utilization column before its
    NaN cells are filled. *)
Definition anomaly_efficiency_score (engine idle : fl) : fl :=
  fillna (Num 0.5) ((engine / (engine + idle)) * (engine / Num 8.0))%fl.

(** ** Group aggregates *)

(** Two rows are in the same [User ID] group; a null key is in none. *)
Definition same_site (a b : option string) : bool :=
  match a, b with
  | Some x, Some y => String.eqb x y
  | _, _ => false
  end.

(** [groupby('User ID')[col].transform('count')], and with [by_type] the
    same over [groupby(['User ID', 'Type'])]: rows with a null key belong
    to no group and get NaN. *)
Definition group_count {A : Type} (key : A -> option string)
    (type_of : A -> string) (by_type : bool) (rows : list A) (r : A) : fl :=
  match key r with
  | None => NaN
  | Some _ =>
      of_Z (len (List.filter
                   (fun r' => same_site (key r') (key r)
                              && (negb by_type
                                  || String.eqb (type_of r') (type_of r)))
                   rows))
  end.

(** [groupby('User ID')[col].transform('mean')] *)
Definition group_mean {A : Type} (key : A -> option string) (value : A -> fl)
    (rows : list A) (r : A) : fl :=
  match key r with
  | None => NaN
  | Some _ =>
      series_mean
        (List.map value
           (List.filter (fun r' => same_site (key r') (key r)) rows))
  end.

(** A row after the conversion of its date and numeric cells and before
    the engineered columns are added. *)
Record BaseRow : Type := {
  b_Equipment_ID : string;
  b_Type : string;
  b_User_ID : option string;
  b_Check_Out_Date : option Z;
  b_Check_in_Date : option Z;
  b_Engine_Hours_Day : fl;
  b_Idle_Hours_Day : fl
}.

Definition base_of (r : RawRow) (check_out check_in : option Z)
    (engine idle : fl) : BaseRow :=
  {| b_Equipment_ID := raw_Equipment_ID r;
     b_Type := raw_Type r;
     b_User_ID := raw_User_ID r;
     b_Check_Out_Date := check_out;
     b_Check_in_Date := check_in;
     b_Engine_Hours_Day := engine;
     b_Idle_Hours_Day := idle |}.

(** [column.fillna('UNASSIGNED')] on [User ID]. *)
Definition fill_unassigned (u : option string) : option string :=
  match u with
  | None => Some "UNASSIGNED"%string
  | Some _ => u
  end.

Definition code_or_zero (codes : option (list Z)) (i : nat) : fl :=
  match codes with
  | Some cs => of_Z (nth i cs 0%Z)
  | None => Num 0
  end.

(** ** [_add_calculated_columns_to_db_data]

    The columns added to the live frame.  The encoders are applied to
    the whole column inside [try]/[except]: one unseen label sets the code
    of every row to 0. *)
Definition _add_calculated_columns_to_db_data
    (equipment_encoder site_encoder : LabelEncoder) (db_data : list BaseRow)
  : Frame :=
  let util r :=
    db_utilization_ratio (b_Engine_Hours_Day r) (b_Idle_Hours_Day r) in
  let type_codes :=
    encoder_transform equipment_encoder (List.map b_Type db_data) in
  let filled_users :=
    List.map (fun r => match fill_unassigned (b_User_ID r) with
                       | Some u => u
                       | None => "UNASSIGNED"%string
                       end) db_data in
  let site_codes := encoder_transform site_encoder filled_users in
  List.map
    (fun '(i, r) =>
       let m := fillna (Num 6) (dt Calendar.month (b_Check_Out_Date r)) in
       let dow := fillna (Num 1) (dt Calendar.weekday (b_Check_Out_Date r)) in
       {| Equipment_ID := b_Equipment_ID r;
          Type_ := b_Type r;
          User_ID := fill_unassigned (b_User_ID r);
          Check_Out_Date := b_Check_Out_Date r;
          Check_in_Date := b_Check_in_Date r;
          Engine_Hours_Day := b_Engine_Hours_Day r;
          Idle_Hours_Day := b_Idle_Hours_Day r;
          rental_duration :=
            fillna (Num 30)
              (days_between (b_Check_in_Date r) (b_Check_Out_Date r));
          utilization_ratio := util r;
          efficiency_score :=
            db_efficiency_score (b_Engine_Hours_Day r) (b_Idle_Hours_Day r);
          month := m;
          day_of_week := dow;
          quarter :=
            fillna (Num 2) (dt Calendar.quarter (b_Check_Out_Date r));
          is_weekend := if (dow >=? Num 5)%fl then Num 1 else Num 0;
          seasonal_factor := seasonal_factor_of m;
          site_equipment_count :=
            group_count b_User_ID b_Type false db_data r;
          site_avg_utilization := group_mean b_User_ID util db_data r;
          equipment_site_popularity :=
            group_count b_User_ID b_Type true db_data r;
          equipment_type_encoded := code_or_zero type_codes i;
          site_encoded := code_or_zero site_codes i;
          daily_demand := Num 1.0;
          demand_7d_avg := Num 2.0;
          demand_30d_avg := Num 8.0 |})
    (List.combine (seq 0 (length db_data)) db_data).

(** ** [_create_demand_features] *)

Fixpoint insert_date (d : Z) (dates : list Z) : list Z :=
  match dates with
  | [] => [d]
  | x :: rest =>
      match (d ?= x)%Z with
      | Lt => d :: dates
      | Eq => dates
      | Gt => x :: insert_date d rest
      end
  end.

Definition in_group (site : option string) (type_ : string) (r : BaseRow)
  : bool :=
  same_site (b_User_ID r) site && String.eqb (b_Type r) type_.

(** The check-out days of one (site, type) group, increasing. *)
Definition group_dates (rows : list BaseRow) (site : option string)
    (type_ : string) : list Z :=
  fold_right
    (fun r acc =>
       match b_Check_Out_Date r with
       | Some d => if in_group site type_ r then insert_date d acc else acc
       | None => acc
       end)
    [] rows.

(** [groupby(['User ID', 'Type', 'Check-Out Date']).size()] at one key. *)
Definition group_size (rows : list BaseRow) (site : option string)
    (type_ : string) (d : Z) : Z :=
  len (List.filter
         (fun r => in_group site type_ r
                   && match b_Check_Out_Date r with
                      | Some d' => (d' =? d)%Z
                      | None => false
                      end)
         rows).

(** [rolling(window, min_periods=1).mean()] at position [idx]. *)
Definition rolling_mean (window : nat) (values : list fl) (idx : nat) : fl :=
  series_mean (skipn (idx + 1 - window) (firstn (idx + 1) values)).

Fixpoint position_of (d : Z) (dates : list Z) : nat :=
  match dates with
  | [] => O
  | x :: rest => if (x =? d)%Z then O else S (position_of d rest)
  end.

(** The three merged columns of one row, NaN cells filled with 0 (a row
    with no check-out day matches no group). *)
Definition demand_features (rows : list BaseRow) (r : BaseRow)
  : fl * fl * fl :=
  match b_Check_Out_Date r with
  | None => (Num 0, Num 0, Num 0)
  | Some d =>
      let dates := group_dates rows (b_User_ID r) (b_Type r) in
      let sizes :=
        List.map (fun d' => of_Z (group_size rows (b_User_ID r) (b_Type r) d'))
                 dates in
      let idx := position_of d dates in
      (fillna (Num 0) (of_Z (group_size rows (b_User_ID r) (b_Type r) d)),
       fillna (Num 0) (rolling_mean 7 sizes idx),
       fillna (Num 0) (rolling_mean 30 sizes idx))
  end.

(** ** [_preprocess_data] followed by [_create_demand_features]

    [None] when a date text does not parse ([pd.to_datetime] raises).
    The site aggregates are taken before the null [User ID] cells are
    filled; the demand features after. *)
Definition _preprocess_data (data : list RawRow)
  : option (Frame * LabelEncoder * LabelEncoder) :=
  match to_datetime (List.map raw_Check_Out_Date data),
        to_datetime (List.map raw_Check_in_Date data) with
  | Some outs, Some ins =>
      let rows :=
        List.map
          (fun '(r, (o, i)) =>
             base_of r o i (raw_Engine_Hours_Day r) (raw_Idle_Hours_Day r))
          (List.combine data (List.combine outs ins)) in
      let util r :=
        preprocess_utilization_ratio
          (b_Engine_Hours_Day r) (b_Idle_Hours_Day r) in
      let '(equipment_encoder, type_codes) :=
        encoder_fit_transform (List.map b_Type rows) in
      let filled :=
        List.map
          (fun r => {| b_Equipment_ID := b_Equipment_ID r;
                       b_Type := b_Type r;
                       b_User_ID := fill_unassigned (b_User_ID r);
                       b_Check_Out_Date := b_Check_Out_Date r;
                       b_Check_in_Date := b_Check_in_Date r;
                       b_Engine_Hours_Day := b_Engine_Hours_Day r;
                       b_Idle_Hours_Day := b_Idle_Hours_Day r |})
          rows in
      let '(site_encoder, site_codes) :=
        encoder_fit_transform
          (List.map (fun r => match b_User_ID r with
                              | Some u => u
                              | None => "UNASSIGNED"%string
                              end) filled) in
      let frame :=
        List.map
          (fun '(i, (r, rf)) =>
             let m := dt Calendar.month (b_Check_Out_Date r) in
             let dow := dt Calendar.weekday (b_Check_Out_Date r) in
             let '(dd, d7, d30) := demand_features filled rf in
             {| Equipment_ID := b_Equipment_ID r;
                Type_ := b_Type r;
                User_ID := b_User_ID rf;
                Check_Out_Date := b_Check_Out_Date r;
                Check_in_Date := b_Check_in_Date r;
                Engine_Hours_Day := b_Engine_Hours_Day r;
                Idle_Hours_Day := b_Idle_Hours_Day r;
                rental_duration :=
                  days_between (b_Check_in_Date r) (b_Check_Out_Date r);
                utilization_ratio := util r;
                efficiency_score :=
                  preprocess_efficiency_score
                    (b_Engine_Hours_Day r) (b_Idle_Hours_Day r);
                month := m;
                day_of_week := dow;
                quarter := dt Calendar.quarter (b_Check_Out_Date r);
                is_weekend := isin_int dow [5; 6]%Z;
                seasonal_factor := seasonal_factor_of m;
                site_equipment_count :=
                  group_count b_User_ID b_Type false rows r;
                site_avg_utilization := group_mean b_User_ID util rows r;
                equipment_site_popularity :=
                  group_count b_User_ID b_Type true rows r;
                equipment_type_encoded := of_Z (nth i type_codes 0%Z);
                site_encoded := of_Z (nth i site_codes 0%Z);
                daily_demand := dd;
                demand_7d_avg := d7;
                demand_30d_avg := d30 |})
          (List.combine (seq 0 (length rows)) (List.combine rows filled)) in
      Some (frame, equipment_encoder, site_encoder)
  | _, _ => None
  end.

(* ===================================================================== *)
(** * Results *)
(* ===================================================================== *)

Inductive exn : Type :=
| ValueError
| AttributeError
| IndexError
| ZeroDivisionError.

Inductive error : Type :=
| Models_not_trained
| No_database_data
| Equipment_not_found (equipment_id : string)
| No_valid_data
| No_data_available
| No_data_found
| Error_detecting_anomalies (e : exn)
| Error_forecasting_demand (e : exn).

(** The text of the ["error"] entry, up to the text of a caught
    exception. *)
Definition error_text (e : error) : string :=
  match e with
  | Models_not_trained => "Models not trained"
  | No_database_data => "No database data available for anomaly detection"
  | Equipment_not_found id => "Equipment " ++ id ++ " not found in database"
  | No_valid_data => "No valid data for anomaly detection"
  | No_data_available => "No data available for forecasting"
  | No_data_found => "No data found for the specified parameters"
  | Error_detecting_anomalies _ => "Error detecting anomalies: "
  | Error_forecasting_demand _ => "Error forecasting demand: "
  end%string.

Inductive result (A : Type) : Type :=
| Err (e : error)
| Ok (a : A).
Arguments Err {A} e.
Arguments Ok {A} a.

(* ===================================================================== *)
(** * The ML system *)
(* ===================================================================== *)

Section Engine.

Context {SK : Sklearn}.

(** The fields of a [SmartMLSystem] instance.  A site model that
    [_try_load_models] could not load is [None]. *)
Record SmartMLSystem : Type := {
  data : option Frame;
  scaler : StandardScaler;
  anomaly_detector : IsolationForest;
  demand_forecaster : GradientBoostingRegressor;
  site_specific_models : gmap string (option GradientBoostingRegressor);
  equipment_encoder : LabelEncoder;
  site_encoder : LabelEncoder;
  models_trained : bool
}.

Definition set_models_trained (b : bool) (s : SmartMLSystem) : SmartMLSystem :=
  {| data := data s; scaler := scaler s;
     anomaly_detector := anomaly_detector s;
     demand_forecaster := demand_forecaster s;
     site_specific_models := site_specific_models s;
     equipment_encoder := equipment_encoder s;
     site_encoder := site_encoder s;
     models_trained := b |}.

Definition set_scaler (sc : StandardScaler) (s : SmartMLSystem)
  : SmartMLSystem :=
  {| data := data s; scaler := sc;
     anomaly_detector := anomaly_detector s;
     demand_forecaster := demand_forecaster s;
     site_specific_models := site_specific_models s;
     equipment_encoder := equipment_encoder s;
     site_encoder := site_encoder s;
     models_trained := models_trained s |}.

Definition set_anomaly_detector (d : IsolationForest) (s : SmartMLSystem)
  : SmartMLSystem :=
  {| data := data s; scaler := scaler s;
     anomaly_detector := d;
     demand_forecaster := demand_forecaster s;
     site_specific_models := site_specific_models s;
     equipment_encoder := equipment_encoder s;
     site_encoder := site_encoder s;
     models_trained := models_trained s |}.

Definition set_demand_forecaster (m : GradientBoostingRegressor)
    (s : SmartMLSystem) : SmartMLSystem :=
  {| data := data s; scaler := scaler s;
     anomaly_detector := anomaly_detector s;
     demand_forecaster := m;
     site_specific_models := site_specific_models s;
     equipment_encoder := equipment_encoder s;
     site_encoder := site_encoder s;
     models_trained := models_trained s |}.

Definition set_site_specific_models
    (ms : gmap string (option GradientBoostingRegressor))
    (s : SmartMLSystem) : SmartMLSystem :=
  {| data := data s; scaler := scaler s;
     anomaly_detector := anomaly_detector s;
     demand_forecaster := demand_forecaster s;
     site_specific_models := ms;
     equipment_encoder := equipment_encoder s;
     site_encoder := site_encoder s;
     models_trained := models_trained s |}.

Definition set_encoders (eq_enc site_enc : LabelEncoder)
    (s : SmartMLSystem) : SmartMLSystem :=
  {| data := data s; scaler := scaler s;
     anomaly_detector := anomaly_detector s;
     demand_forecaster := demand_forecaster s;
     site_specific_models := site_specific_models s;
     equipment_encoder := eq_enc;
     site_encoder := site_enc;
     models_trained := models_trained s |}.

Definition set_data (d : option Frame) (s : SmartMLSystem) : SmartMLSystem :=
  {| data := d; scaler := scaler s;
     anomaly_detector := anomaly_detector s;
     demand_forecaster := demand_forecaster s;
     site_specific_models := site_specific_models s;
     equipment_encoder := equipment_encoder s;
     site_encoder := site_encoder s;
     models_trained := models_trained s |}.

(** ** Training *)

(** The 14 columns of the global model, in the order of
    [feature_columns] in [_train_models]. *)
Definition feature_columns : list (string * (Row -> fl)) :=
  [ ("equipment_type_encoded"%string, equipment_type_encoded);
    ("site_encoded"%string, site_encoded);
    ("month"%string, month);
    ("day_of_week"%string, day_of_week);
    ("quarter"%string, quarter);
    ("is_weekend"%string, is_weekend);
    ("seasonal_factor"%string, seasonal_factor);
    ("site_equipment_count"%string, site_equipment_count);
    ("site_avg_utilization"%string, site_avg_utilization);
    ("equipment_site_popularity"%string, equipment_site_popularity);
    ("demand_7d_avg"%string, demand_7d_avg);
    ("demand_30d_avg"%string, demand_30d_avg);
    ("rental_duration"%string, rental_duration);
    ("utilization_ratio"%string, utilization_ratio) ].

(** The 8 columns of a site model, in the order of [feature_columns] in
    [_train_site_specific_models]. *)
Definition site_feature_columns : list (string * (Row -> fl)) :=
  [ ("equipment_type_encoded"%string, equipment_type_encoded);
    ("month"%string, month);
    ("day_of_week"%string, day_of_week);
    ("quarter"%string, quarter);
    ("is_weekend"%string, is_weekend);
    ("seasonal_factor"%string, seasonal_factor);
    ("demand_7d_avg"%string, demand_7d_avg);
    ("demand_30d_avg"%string, demand_30d_avg) ].

Definition anomaly_features : list (string * (Row -> fl)) :=
  [ ("Engine Hours/Day"%string, Engine_Hours_Day);
    ("Idle Hours/Day"%string, Idle_Hours_Day);
    ("utilization_ratio"%string, utilization_ratio);
    ("efficiency_score"%string, efficiency_score) ].

(** [frame[columns]] on one row. *)
Definition select (columns : list (string * (Row -> fl))) (r : Row)
  : list fl :=
  List.map (fun c => snd c r) columns.

(** [frame.dropna(subset=columns)] *)
Definition dropna (columns : list (string * (Row -> fl))) (frame : Frame)
  : Frame :=
  List.filter
    (fun r => List.forallb (fun x => negb (isna x)) (select columns r))
    frame.

(** [Series.unique()]: the distinct values in order of appearance. *)
Fixpoint unique (l : list string) : list string :=
  match l with
  | [] => []
  | x :: rest =>
      x :: List.filter (fun y => negb (String.eqb y x)) (unique rest)
  end.

Definition user_id_text (r : Row) : string :=
  match User_ID r with
  | Some u => u
  | None => "UNASSIGNED"%string
  end.

(** One iteration of the loop of [_train_site_specific_models]. *)
Definition train_site_model (frame : Frame) (site : string)
    (models : gmap string (option GradientBoostingRegressor))
  : gmap string (option GradientBoostingRegressor) :=
  if String.eqb site "UNASSIGNED" then models
  else
    let site_data := filter_User_ID site frame in
    if (len site_data <? 10)%Z then models
    else
      let site_features := dropna site_feature_columns site_data in
      if (len site_features <? 5)%Z then models
      else
        match regressor_fit (new_regressor 100 4)
                (List.map (select site_feature_columns) site_features)
                (List.map daily_demand site_features) with
        | Some site_model => <[site := Some site_model]> models
        | None => models
        end.

Definition _train_site_specific_models (s : SmartMLSystem) : SmartMLSystem :=
  match data s with
  | None => s
  | Some frame =>
      let sites := unique (List.map user_id_text frame) in
      set_site_specific_models
        (fold_left (fun models site => train_site_model frame site models)
                   sites (site_specific_models s))
        s
  end.

(** The body of the [try] block of [_train_models]; [inl s'] when a call
    raised, with the fields as they were at that point. *)
Definition train_models_body (s : SmartMLSystem) (clean_data : Frame)
  : SmartMLSystem + SmartMLSystem :=
  let X := List.map (select feature_columns) clean_data in
  let y := List.map daily_demand clean_data in
  let '(train, test) := train_test_split (List.combine X y) in
  let X_train := List.map fst train in
  let y_train := List.map snd train in
  let X_test := List.map fst test in
  match scaler_fit (scaler s) X_train with
  | None => inl s
  | Some sc =>
      let s := set_scaler sc s in
      match scaler_transform sc X_train, scaler_transform sc X_test with
      | Some X_train_scaled, Some X_test_scaled =>
          match regressor_fit (demand_forecaster s) X_train_scaled y_train with
          | None => inl s
          | Some forecaster =>
              let s := set_demand_forecaster forecaster s in
              match regressor_predict forecaster X_test_scaled with
              | None => inl s
              | Some _ =>
                  let s := _train_site_specific_models s in
                  let anomaly_data := dropna anomaly_features clean_data in
                  if (0 <? len anomaly_data)%Z then
                    match isolation_forest_fit (anomaly_detector s)
                            (List.map (select anomaly_features) anomaly_data)
                    with
                    | None => inl s
                    | Some detector =>
                        inr (set_anomaly_detector detector s)
                    end
                  else inr s
              end
          end
      | _, _ => inl s
      end
  end.

(** ** [_train_models] *)
Definition _train_models (s : SmartMLSystem) : SmartMLSystem :=
  match data s with
  | None => s
  | Some frame =>
      if (len frame <? 50)%Z then s
      else
        let clean_data := dropna feature_columns frame in
        if (len clean_data <? 30)%Z then s
        else
          match train_models_body s clean_data with
          | inr s' => set_models_trained true s'
          | inl s' => set_models_trained false s'
          end
  end.

(** ** Saved models: [_try_load_models] *)

(** The files of the [models] directory; [None] is a file that is missing
    or that [joblib.load] cannot read. *)
Record ModelStore : Type := {
  anomaly_detector_pkl : option IsolationForest;
  demand_forecaster_pkl : option GradientBoostingRegressor;
  scaler_pkl : option StandardScaler;
  equipment_encoder_pkl : option LabelEncoder;
  site_encoder_pkl : option LabelEncoder;
  site_model_pkl : gmap string GradientBoostingRegressor
}.

(** The fields are assigned one file after the other, so a failing load
    leaves the earlier ones replaced. *)
Definition _try_load_models (s : SmartMLSystem) (store : ModelStore)
  : SmartMLSystem * bool :=
  match anomaly_detector_pkl store with
  | None => (s, false)
  | Some detector =>
      let s := set_anomaly_detector detector s in
      match demand_forecaster_pkl store with
      | None => (s, false)
      | Some forecaster =>
          let s := set_demand_forecaster forecaster s in
          match scaler_pkl store with
          | None => (s, false)
          | Some sc =>
              let s := set_scaler sc s in
              match equipment_encoder_pkl store with
              | None => (s, false)
              | Some eq_enc =>
                  let s := set_encoders eq_enc (site_encoder s) s in
                  match site_encoder_pkl store with
                  | None => (s, false)
                  | Some site_enc =>
                      let s := set_encoders (equipment_encoder s) site_enc s in
                      let s :=
                        set_site_specific_models
                          (map_imap
                             (fun site _ => Some (site_model_pkl store !! site))
                             (site_specific_models s))
                          s in
                      (set_models_trained true s, true)
                  end
              end
          end
      end
  end.

(** ** Saved models: [save_models] *)

(** What a call of [joblib.dump] does to its file: it writes it, or it
    raises and leaves the file as it was ([file_kept]) or unreadable.  A
    written file holds the object that was dumped: [joblib.load] of it is
    taken to return an object equal to that one. *)
Inductive dump_result : Type :=
| Dumped
| DumpRaised (file_kept : bool).

(** The file system as [save_models] meets it. *)
Record Disk : Type := {
  makedirs_raises : bool;
  joblib_dump : string -> dump_result
}.

(** A [models] directory without a file. *)
Definition empty_store : ModelStore :=
  {| anomaly_detector_pkl := None;
     demand_forecaster_pkl := None;
     scaler_pkl := None;
     equipment_encoder_pkl := None;
     site_encoder_pkl := None;
     site_model_pkl := ∅ |}.

Definition set_anomaly_detector_pkl (file : option IsolationForest)
    (store : ModelStore) : ModelStore :=
  {| anomaly_detector_pkl := file;
     demand_forecaster_pkl := demand_forecaster_pkl store;
     scaler_pkl := scaler_pkl store;
     equipment_encoder_pkl := equipment_encoder_pkl store;
     site_encoder_pkl := site_encoder_pkl store;
     site_model_pkl := site_model_pkl store |}.

Definition set_demand_forecaster_pkl (file : option GradientBoostingRegressor)
    (store : ModelStore) : ModelStore :=
  {| anomaly_detector_pkl := anomaly_detector_pkl store;
     demand_forecaster_pkl := file;
     scaler_pkl := scaler_pkl store;
     equipment_encoder_pkl := equipment_encoder_pkl store;
     site_encoder_pkl := site_encoder_pkl store;
     site_model_pkl := site_model_pkl store |}.

Definition set_scaler_pkl (file : option StandardScaler)
    (store : ModelStore) : ModelStore :=
  {| anomaly_detector_pkl := anomaly_detector_pkl store;
     demand_forecaster_pkl := demand_forecaster_pkl store;
     scaler_pkl := file;
     equipment_encoder_pkl := equipment_encoder_pkl store;
     site_encoder_pkl := site_encoder_pkl store;
     site_model_pkl := site_model_pkl store |}.

Definition set_equipment_encoder_pkl (file : option LabelEncoder)
    (store : ModelStore) : ModelStore :=
  {| anomaly_detector_pkl := anomaly_detector_pkl store;
     demand_forecaster_pkl := demand_forecaster_pkl store;
     scaler_pkl := scaler_pkl store;
     equipment_encoder_pkl := file;
     site_encoder_pkl := site_encoder_pkl store;
     site_model_pkl := site_model_pkl store |}.

Definition set_site_encoder_pkl (file : option LabelEncoder)
    (store : ModelStore) : ModelStore :=
  {| anomaly_detector_pkl := anomaly_detector_pkl store;
     demand_forecaster_pkl := demand_forecaster_pkl store;
     scaler_pkl := scaler_pkl store;
     equipment_encoder_pkl := equipment_encoder_pkl store;
     site_encoder_pkl := file;
     site_model_pkl := site_model_pkl store |}.

(** The file of a site: a regressor, or no loadable regressor.  A dumped
    [None] loads as [None], which is what [_try_load_models] assigns for
    a missing or unreadable file. *)
Definition set_site_model_file (site : string)
    (file : option GradientBoostingRegressor) (store : ModelStore)
  : ModelStore :=
  {| anomaly_detector_pkl := anomaly_detector_pkl store;
     demand_forecaster_pkl := demand_forecaster_pkl store;
     scaler_pkl := scaler_pkl store;
     equipment_encoder_pkl := equipment_encoder_pkl store;
     site_encoder_pkl := site_encoder_pkl store;
     site_model_pkl :=
       match file with
       | Some model => <[site := model]> (site_model_pkl store)
       | None => delete site (site_model_pkl store)
       end |}.

(** One [joblib.dump(object, path)]: the file, what the directory becomes
    when the file is written, and when it is left unreadable. *)
Record dump_job : Type := {
  file : string;
  write : ModelStore -> ModelStore;
  spoil : ModelStore -> ModelStore
}.

(** The dumps of the [try] block of [save_models], in order; [sites] are
    the keys of [site_specific_models] in the order of the dictionary. *)
Definition save_jobs (s : SmartMLSystem) (sites : list string)
  : list dump_job :=
  [ {| file := "anomaly_detector.pkl";
       write := set_anomaly_detector_pkl (Some (anomaly_detector s));
       spoil := set_anomaly_detector_pkl None |};
    {| file := "demand_forecaster.pkl";
       write := set_demand_forecaster_pkl (Some (demand_forecaster s));
       spoil := set_demand_forecaster_pkl None |};
    {| file := "scaler.pkl";
       write := set_scaler_pkl (Some (scaler s));
       spoil := set_scaler_pkl None |};
    {| file := "equipment_encoder.pkl";
       write := set_equipment_encoder_pkl (Some (equipment_encoder s));
       spoil := set_equipment_encoder_pkl None |};
    {| file := "site_encoder.pkl";
       write := set_site_encoder_pkl (Some (site_encoder s));
       spoil := set_site_encoder_pkl None |} ]
  ++ omap
       (fun site =>
          match site_specific_models s !! site with
          | Some model =>
              Some {| file := ("site_model_" ++ site ++ ".pkl")%string;
                      write := set_site_model_file site model;
                      spoil := set_site_model_file site None |}
          | None => None
          end)
       sites.

(** The [try] block: the first dump that raises ends it, and the
    [except] clause only prints. *)
Fixpoint run_dumps (disk : Disk) (jobs : list dump_job) (store : ModelStore)
  : ModelStore :=
  match jobs with
  | [] => store
  | job :: rest =>
      match joblib_dump disk (file job) with
      | Dumped => run_dumps disk rest (write job store)
      | DumpRaised file_kept =>
          if file_kept then store else spoil job store
      end
  end.

(** [save_models]: the [models] directory afterwards, or [None] when the
    call raises, which only [os.makedirs] can make it do. *)
Definition save_models (s : SmartMLSystem) (models_dir : option ModelStore)
    (sites : list string) (disk : Disk) : option ModelStore :=
  if makedirs_raises disk then None
  else
    Some (run_dumps disk (save_jobs s sites)
            (match models_dir with
             | Some store => store
             | None => empty_store
             end)).

(** ** The constructor *)

(** What the constructor reads: the CSV file ([None] when [pd.read_csv]
    raises) and the [models] directory ([None] when it does not exist). *)
Record World : Type := {
  csv : option (list RawRow);
  models_dir : option ModelStore
}.

Definition fresh_system : SmartMLSystem :=
  {| data := None;
     scaler := new_scaler;
     anomaly_detector := new_isolation_forest;
     demand_forecaster := new_regressor 200 6;
     site_specific_models := ∅;
     equipment_encoder := None;
     site_encoder := None;
     models_trained := false |}.

(** [SmartMLSystem()]: [None] when the constructor raises.  [_load_data]
    catches the failure of [pd.read_csv]; [_preprocess_data] is not
    guarded. *)
Definition __init__ (w : World) : option SmartMLSystem :=
  match csv w with
  | None => Some fresh_system
  | Some raw =>
      match _preprocess_data raw with
      | None => None
      | Some (frame, eq_enc, site_enc) =>
          let s := set_encoders eq_enc site_enc
                     (set_data (Some frame) fresh_system) in
          match models_dir w with
          | Some store =>
              let '(s, loaded) := _try_load_models s store in
              if loaded then Some s else Some (_train_models s)
          | None => Some (_train_models s)
          end
      end
  end.

(** ** The reload callback of the service ([on_database_change]) *)

Record Service : Type := {
  ml_system : option SmartMLSystem;
  restart_flag : bool;
  last_database_change : option Z;
  is_reloading : bool
}.

Definition on_database_change (g : Service) (w : World) (current_time : Z)
  : Service :=
  if is_reloading g then g
  else
    match __init__ w with
    | Some s =>
        {| ml_system := Some s;
           restart_flag := false;
           last_database_change := Some current_time;
           is_reloading := false |}
    | None =>
        {| ml_system := ml_system g;
           restart_flag := false;
           last_database_change := Some current_time;
           is_reloading := false |}
    end.

(** ** [_load_database_data]

    [query] is the outcome of the query for the equipment that is checked
    out and not returned: [None] when there is no database file or the
    query raises.  Dates are converted with [errors='coerce'], null
    numeric cells become 0. *)
Definition _load_database_data (s : SmartMLSystem)
    (query : option (list RawRow)) : option Frame :=
  match query with
  | None => data s
  | Some rows =>
      if (0 <? len rows)%Z then
        Some
          (_add_calculated_columns_to_db_data
             (equipment_encoder s) (site_encoder s)
             (List.map
                (fun r =>
                   base_of r
                     (to_datetime_coerce (raw_Check_Out_Date r))
                     (to_datetime_coerce (raw_Check_in_Date r))
                     (fillna (Num 0.0) (raw_Engine_Hours_Day r))
                     (fillna (Num 0.0) (raw_Idle_Hours_Day r)))
                rows))
      else data s
  end.

(* ===================================================================== *)
(** * Anomaly detection *)
(* ===================================================================== *)

Record AnomalyRecord : Type := {
  a_equipment_id : string;
  a_equipment_type : string;
  alert_type : string;
  severity : string;
  a_site_id : string;
  anomaly_score : fl;
  a_engine_hours : fl;
  a_idle_hours : fl;
  a_utilization : fl;
  a_efficiency : fl
}.

Record AnomalySummary : Type := {
  total_anomalies : Z;
  total_records : Z;
  active_rentals : Z;
  anomaly_rate : fl;
  equipment_affected : Z;
  sites_affected : Z
}.

Record AnomalyResult : Type := {
  anomalies : list AnomalyRecord;
  summary : AnomalySummary;
  data_source : string
}.

(** The columns that [detect_anomalies] recomputes and fills on its copy
    of the frame. *)
Definition anomaly_metrics (r : Row) : Row :=
  let engine := Engine_Hours_Day r in
  let idle := Idle_Hours_Day r in
  {| Equipment_ID := Equipment_ID r;
     Type_ := Type_ r;
     User_ID := User_ID r;
     Check_Out_Date := Check_Out_Date r;
     Check_in_Date := Check_in_Date r;
     Engine_Hours_Day := fillna (Num 6.0) engine;
     Idle_Hours_Day := fillna (Num 2.0) idle;
     rental_duration := rental_duration r;
     utilization_ratio := anomaly_utilization_ratio engine idle;
     efficiency_score := anomaly_efficiency_score engine idle;
     month := month r;
     day_of_week := day_of_week r;
     quarter := quarter r;
     is_weekend := is_weekend r;
     seasonal_factor := seasonal_factor r;
     site_equipment_count := site_equipment_count r;
     site_avg_utilization := site_avg_utilization r;
     equipment_site_popularity := equipment_site_popularity r;
     equipment_type_encoded := equipment_type_encoded r;
     site_encoded := site_encoded r;
     daily_demand := daily_demand r;
     demand_7d_avg := demand_7d_avg r;
     demand_30d_avg := demand_30d_avg r |}.

(** The body of the loop over the rows: the list [anomaly_types] and the
    variable [severity] after the three rules. *)
Definition apply_rules (utilization idle_hours engine_hours : fl)
  : list string * string :=
  let anomaly_types := [] in
  let severity := "medium"%string in
  let '(anomaly_types, severity) :=
    if (utilization <? Num 0.35)%fl
    then (anomaly_types ++ ["low_utilization"%string], "medium"%string)
    else (anomaly_types, severity) in
  let '(anomaly_types, severity) :=
    if (idle_hours >? Num 6)%fl
    then (anomaly_types ++ ["high_idle_time"%string], "high"%string)
    else (anomaly_types, severity) in
  let '(anomaly_types, severity) :=
    if (engine_hours =? Num 0)%fl && (idle_hours >? Num 0)%fl
    then (anomaly_types ++ ["no_usage"%string], "high"%string)
    else (anomaly_types, severity) in
  (anomaly_types, severity).

(** One iteration of the loop: the record appended for the row, if any. *)
Definition scan_row (row : Row) : option AnomalyRecord :=
  let engine_hours := Engine_Hours_Day row in
  let idle_hours := Idle_Hours_Day row in
  let utilization := utilization_ratio row in
  match apply_rules utilization idle_hours engine_hours with
  | ([], _) => None
  | (primary :: _, severity) =>
      Some {| a_equipment_id := Equipment_ID row;
              a_equipment_type := Type_ row;
              alert_type := primary;
              severity := severity;
              a_site_id := user_id_text row;
              anomaly_score := Num (-0.5);
              a_engine_hours := engine_hours;
              a_idle_hours := idle_hours;
              a_utilization := utilization;
              a_efficiency := efficiency_score row |}
  end.

Fixpoint scan (equipment_data : Frame) : list AnomalyRecord :=
  match equipment_data with
  | [] => []
  | row :: rest =>
      match scan_row row with
      | Some a => a :: scan rest
      | None => scan rest
      end
  end.

Definition count_distinct (l : list string) : Z :=
  Z.of_nat (size (list_to_set l : gset string)).

(** ** [detect_anomalies]

    [equipment_count] is the row count of the [Equipment] table when it
    can be read; [query] is the live data, see [_load_database_data]. *)
Definition detect_anomalies (s : SmartMLSystem) (equipment_count : option Z)
    (query : option (list RawRow)) (equipment_id : option string)
  : result AnomalyResult :=
  if negb (models_trained s) then Err Models_not_trained
  else
    let total_equipment_count :=
      match equipment_count with
      | Some n => n
      | None => 151%Z
      end in
    match _load_database_data s query with
    | None => Err No_database_data
    | Some db_data =>
        if (len db_data =? 0)%Z then Err No_database_data
        else
          let selected :=
            if truthy equipment_id
            then List.filter
                   (fun r => String.eqb (Equipment_ID r)
                                        (text_of equipment_id))
                   db_data
            else db_data in
          if truthy equipment_id && (len selected =? 0)%Z
          then Err (Equipment_not_found (text_of equipment_id))
          else
            let equipment_data := List.map anomaly_metrics selected in
            let feature_data := dropna anomaly_features equipment_data in
            if (len feature_data =? 0)%Z then Err No_valid_data
            else
              let anomalies := scan equipment_data in
              let active_rental_count := len equipment_data in
              Ok {| anomalies := anomalies;
                    summary :=
                      {| total_anomalies := len anomalies;
                         total_records := total_equipment_count;
                         active_rentals := active_rental_count;
                         anomaly_rate :=
                           if (0 <? active_rental_count)%Z
                           then (of_Z (len anomalies)
                                 / of_Z active_rental_count * Num 100)%fl
                           else Num 0;
                         equipment_affected :=
                           count_distinct (List.map a_equipment_id anomalies);
                         sites_affected :=
                           count_distinct
                             (List.filter
                                (fun x => negb (String.eqb x "UNASSIGNED"))
                                (List.map a_site_id anomalies)) |};
                    data_source := "database" |}
    end.

(* ===================================================================== *)
(** * Demand forecasting *)
(* ===================================================================== *)

Record ForecastPoint : Type := {
  fp_date : Z;              (* the day whose '%Y-%m-%d' text is reported *)
  fp_weekday : Z;           (* the day whose '%A' name is reported *)
  predicted_demand : fl;
  confidence : fl
}.

Record ForecastResult : Type := {
  r_equipment_type : option string;
  r_site_id : option string;
  forecast_days : Z;
  forecasts : list ForecastPoint;
  trend : string;
  trend_strength : fl;
  total_predicted_demand : fl;
  average_daily_demand : fl;
  peak_demand_day : ForecastPoint;
  low_demand_day : ForecastPoint
}.

Definition is_unassigned (site_id : option string) : bool :=
  opt_string_eqb site_id "UNASSIGNED".

(** [column.iloc[0]] and [column.iloc[-1]] guarded by [len > 0]. *)
Definition iloc_first (col : list fl) (default : fl) : fl :=
  match col with
  | [] => default
  | x :: _ => x
  end.

Definition iloc_last (col : list fl) (default : fl) : fl :=
  List.last col default.

(** [encoder.transform([label])[0]] *)
Definition encode_one (encoder : LabelEncoder) (label : string) : exn + fl :=
  match encoder_transform encoder [label] with
  | Some (code :: _) => inr (of_Z code)
  | Some [] => inl IndexError
  | None => inl ValueError
  end.

(** ** [_prepare_forecast_features]

    The 14 values in the order of [feature_columns], or the exception
    raised: by an encoder that does not know the label, or by a
    [future_date] that is not a Timestamp and so has no [dayofweek]. *)
Definition _prepare_forecast_features (s : SmartMLSystem)
    (equipment_type site_id : option string) (future_date : date_value)
    (filtered_data : Frame) : exn + list fl :=
  match (if truthy equipment_type
         then encode_one (equipment_encoder s) (text_of equipment_type)
         else inr (Num 0)),
        (if truthy site_id
         then encode_one (site_encoder s) (text_of site_id)
         else inr (Num 0)),
        future_date with
  | inl e, _, _ => inl e
  | _, inl e, _ => inl e
  | _, _, PyDatetime _ => inl AttributeError
  | inr equipment_encoded, inr site_encoded, PdTimestamp n =>
      let month := of_Z (Calendar.month n) in
      let day_of_week := of_Z (Calendar.weekday n) in
      let quarter := of_Z (Calendar.quarter n) in
      let is_weekend := isin_int day_of_week [5; 6]%Z in
      let seasonal_factor :=
        if List.existsb (fun v => month =? of_Z v)%fl [6; 7; 8]%Z
        then Num 1.3
        else if List.existsb (fun v => month =? of_Z v)%fl [12; 1; 2]%Z
        then Num 0.7
        else if List.existsb (fun v => month =? of_Z v)%fl [3; 4; 5]%Z
        then Num 1.1
        else Num 1.0 in
      let site_equipment_count :=
        iloc_first (List.map site_equipment_count filtered_data) (Num 0) in
      let site_avg_utilization :=
        iloc_first (List.map site_avg_utilization filtered_data) (Num 0.5) in
      let equipment_site_popularity :=
        iloc_first (List.map equipment_site_popularity filtered_data) (Num 1) in
      let demand_7d_avg :=
        iloc_last (List.map demand_7d_avg filtered_data) (Num 0) in
      let demand_30d_avg :=
        iloc_last (List.map demand_30d_avg filtered_data) (Num 0) in
      let rental_duration :=
        match filtered_data with
        | [] => Num 30
        | _ => series_mean (List.map rental_duration filtered_data)
        end in
      let utilization_ratio :=
        match filtered_data with
        | [] => Num 0.5
        | _ => series_mean (List.map utilization_ratio filtered_data)
        end in
      inr [equipment_encoded; site_encoded; month; day_of_week; quarter;
           is_weekend; seasonal_factor; site_equipment_count;
           site_avg_utilization; equipment_site_popularity; demand_7d_avg;
           demand_30d_avg; rental_duration; utilization_ratio]
  end.

(** ** The choice of the model (the [if] of the loop of [forecast_demand]) *)

Definition uses_site_model (s : SmartMLSystem)
    (equipment_type site_id : option string) : bool :=
  truthy site_id
  && bool_decide (is_Some (site_specific_models s !! text_of site_id))
  && truthy equipment_type.

(** The vector handed to the site model: [features[:8]]. *)
Definition site_features (features : list fl) : list fl := firstn 8 features.

(** [model.predict(rows)[0]] *)
Definition predict_first (model : GradientBoostingRegressor)
    (rows : list (list fl)) : exn + fl :=
  match regressor_predict model rows with
  | Some (y :: _) => inr y
  | Some [] => inl IndexError
  | None => inl ValueError
  end.

(** The raw prediction of one day, or the exception raised.  A site
    model left at [None] by [_try_load_models] has no [predict]. *)
Definition predict_demand (s : SmartMLSystem)
    (equipment_type site_id : option string) (features : list fl)
  : exn + fl :=
  if uses_site_model s equipment_type site_id then
    match site_specific_models s !! text_of site_id with
    | Some (Some site_model) =>
        predict_first site_model [site_features features]
    | _ => inl AttributeError
    end
  else
    match scaler_transform (scaler s) [features] with
    | Some features_scaled =>
        predict_first (demand_forecaster s) features_scaled
    | None => inl ValueError
    end.

(** ** [_apply_realistic_constraints] *)

Definition site_known (site_id : option string) : bool :=
  truthy site_id && negb (is_unassigned site_id).

(** [max_demand] after the two [if] blocks. *)
Definition max_demand_of (filtered_data : Frame)
    (equipment_type site_id : option string) : fl :=
  let max_demand := of_Z 20 in
  let max_demand :=
    if site_known site_id then
      let site_equipment := filter_User_ID (text_of site_id) filtered_data in
      if (0 <? len site_equipment)%Z
      then py_min max_demand (of_Z (len site_equipment * 2))
      else max_demand
    else max_demand in
  let max_demand :=
    if truthy equipment_type then
      let equipment_data :=
        filter_Type (text_of equipment_type) filtered_data in
      if (0 <? len equipment_data)%Z
      then py_min max_demand (of_Z (len equipment_data) * Num 1.5)%fl
      else max_demand
    else max_demand in
  max_demand.

(** [predicted_demand] after the weekend and the winter [if]. *)
Definition scale_demand (predicted_demand : fl) (future_date : date_value)
  : fl :=
  let predicted_demand :=
    if (5 <=? Calendar.weekday (ordinal_of future_date))%Z
    then (predicted_demand * Num 0.6)%fl
    else predicted_demand in
  let predicted_demand :=
    if List.existsb (Z.eqb (Calendar.month (ordinal_of future_date)))
                    [12; 1; 2]%Z
    then (predicted_demand * Num 0.8)%fl
    else predicted_demand in
  predicted_demand.

Definition _apply_realistic_constraints (predicted_demand : fl)
    (future_date : date_value) (filtered_data : Frame)
    (equipment_type site_id : option string) : fl :=
  let min_demand := of_Z 0 in
  let max_demand := max_demand_of filtered_data equipment_type site_id in
  let predicted_demand := scale_demand predicted_demand future_date in
  py_max min_demand (py_min max_demand predicted_demand).

(** ** [_calculate_forecast_confidence] *)

Definition data_factor_of (data_points : Z) : fl :=
  if (100 <=? data_points)%Z then Num 1.0
  else if (50 <=? data_points)%Z then Num 0.9
  else if (20 <=? data_points)%Z then Num 0.8
  else Num 0.6.

Definition site_factor_of (filtered_data : Frame) (site_id : option string)
  : fl :=
  if site_known site_id then
    let site_data := filter_User_ID (text_of site_id) filtered_data in
    if (10 <=? len site_data)%Z then Num 1.0
    else if (5 <=? len site_data)%Z then Num 0.9
    else Num 0.7
  else Num 1.0.

Definition equipment_factor_of (filtered_data : Frame)
    (equipment_type : option string) : fl :=
  if truthy equipment_type then
    let equipment_data := filter_Type (text_of equipment_type) filtered_data in
    if (20 <=? len equipment_data)%Z then Num 1.0
    else if (10 <=? len equipment_data)%Z then Num 0.9
    else Num 0.8
  else Num 1.0.

(** [(future_date - column.max()).days]: NaN when the maximum is NaT. *)
Definition days_from_last_of (filtered_data : Frame)
    (future_date : date_value) : fl :=
  match dates_max (List.map Check_Out_Date filtered_data) with
  | Some last => of_Z (ordinal_of future_date - last)
  | None => NaN
  end.

Definition _calculate_forecast_confidence (filtered_data : Frame)
    (equipment_type site_id : option string) (future_date : date_value)
  : fl :=
  let base_confidence := Num 0.7 in
  let data_factor := data_factor_of (len filtered_data) in
  let site_factor := site_factor_of filtered_data site_id in
  let equipment_factor := equipment_factor_of filtered_data equipment_type in
  let days_from_last := days_from_last_of filtered_data future_date in
  let time_factor :=
    py_max (Num 0.5) (Num 1.0 - days_from_last * Num 0.01)%fl in
  let confidence :=
    (base_confidence * data_factor * site_factor * equipment_factor
     * time_factor)%fl in
  py_min (Num 0.95) (py_max (Num 0.3) confidence).

(** ** [_calculate_demand_trend] *)

Definition fl_sum (l : list fl) : fl := fold_left Float.add l (Num 0).

Definition fl_mean (l : list fl) : fl := (fl_sum l / of_Z (len l))%fl.

Definition fl_abs (x : fl) : fl :=
  match x with
  | Num q => Num (Qabs q)
  | NInf => PInf
  | _ => x
  end.

(** [np.polyfit(x, y, 1)]: the least-squares line. *)
Definition polyfit1 (x y : list fl) : fl * fl :=
  let mx := fl_mean x in
  let my := fl_mean y in
  let sxy :=
    fl_sum (List.map (fun '(a, b) => ((a - mx) * (b - my))%fl)
                     (List.combine x y)) in
  let sxx := fl_sum (List.map (fun a => ((a - mx) * (a - mx))%fl) x) in
  let slope := (sxy / sxx)%fl in
  (slope, (my - slope * mx)%fl).

Definition all_same (y : list fl) : bool :=
  match y with
  | [] => false
  | y0 :: rest => List.forallb (fun v => (v =? y0)%fl) rest
  end.

Definition _calculate_demand_trend (forecasts : list ForecastPoint)
  : string * fl :=
  if (len forecasts <? 2)%Z then ("stable"%string, Num 0.0)
  else
    let demands := List.map predicted_demand forecasts in
    let x := List.map (fun i => of_Z (Z.of_nat i)) (seq 0 (length demands)) in
    let y := demands in
    if all_same y then ("stable"%string, Num 0.0)
    else
      let '(slope, intercept) := polyfit1 x y in
      let y_pred := List.map (fun a => (slope * a + intercept)%fl) x in
      let ss_res :=
        fl_sum (List.map (fun '(a, b) => ((a - b) * (a - b))%fl)
                         (List.combine y y_pred)) in
      let ss_tot :=
        fl_sum (List.map (fun a => ((a - fl_mean y) * (a - fl_mean y))%fl) y) in
      let r_squared :=
        if (ss_tot =? Num 0)%fl then Num 0
        else (Num 1 - ss_res / ss_tot)%fl in
      let trend :=
        if (fl_abs slope <? Num 0.1)%fl then "stable"%string
        else if (slope >? Num 0)%fl then "increasing"%string
        else "decreasing"%string in
      (trend, py_round r_squared 3).

(** ** [forecast_demand] *)

(** The frame the forecast works on: the live data, or the training data
    when there is none. *)
Definition forecast_source (s : SmartMLSystem) (query : option (list RawRow))
  : option Frame :=
  match _load_database_data s query with
  | None => data s
  | Some db_data => if (len db_data =? 0)%Z then data s else Some db_data
  end.

(** The two filters on [filtered_data]. *)
Definition filter_forecast_data (frame : Frame)
    (equipment_type site_id : option string) : Frame :=
  let frame :=
    if truthy equipment_type
    then filter_Type (text_of equipment_type) frame
    else frame in
  if site_known site_id
  then filter_User_ID (text_of site_id) frame
  else frame.

(** [last_date]: the latest check-out Timestamp of the frame, or the
    current time when there is none. *)
Definition last_date_of (filtered_data : Frame) (now : Z) : date_value :=
  match dates_max (List.map Check_Out_Date filtered_data) with
  | Some last => PdTimestamp last
  | None => PyDatetime now
  end.

(** [[last_date + timedelta(days=i+1) for i in range(days_ahead)]] *)
Definition future_dates_of (last_date : date_value) (days_ahead : Z)
  : list date_value :=
  List.map (fun i => add_days last_date (Z.of_nat i + 1))
           (seq 0 (Z.to_nat days_ahead)).

(** One iteration of the loop, or the exception raised. *)
Definition forecast_point (s : SmartMLSystem)
    (equipment_type site_id : option string) (filtered_data : Frame)
    (future_date : date_value) : exn + ForecastPoint :=
  match _prepare_forecast_features s equipment_type site_id future_date
          filtered_data with
  | inl e => inl e
  | inr features =>
      match predict_demand s equipment_type site_id features with
      | inl e => inl e
      | inr predicted =>
          let predicted :=
            _apply_realistic_constraints predicted future_date filtered_data
              equipment_type site_id in
          let conf :=
            _calculate_forecast_confidence filtered_data equipment_type
              site_id future_date in
          inr {| fp_date := ordinal_of future_date;
                  fp_weekday := Calendar.weekday (ordinal_of future_date);
                  predicted_demand := py_round (py_max (of_Z 0) predicted) 1;
                  confidence := py_round conf 2 |}
      end
  end.

Fixpoint forecast_points (s : SmartMLSystem)
    (equipment_type site_id : option string) (filtered_data : Frame)
    (future_dates : list date_value) : exn + list ForecastPoint :=
  match future_dates with
  | [] => inr []
  | d :: rest =>
      match forecast_point s equipment_type site_id filtered_data d with
      | inl e => inl e
      | inr p =>
          match forecast_points s equipment_type site_id filtered_data rest
          with
          | inl e => inl e
          | inr ps => inr (p :: ps)
          end
      end
  end.

(** [max(forecasts, key=...)] and [min(forecasts, key=...)]: the first
    element among the extreme ones. *)
Fixpoint first_max (best : ForecastPoint) (rest : list ForecastPoint)
  : ForecastPoint :=
  match rest with
  | [] => best
  | p :: rest' =>
      if (predicted_demand p >? predicted_demand best)%fl
      then first_max p rest'
      else first_max best rest'
  end.

Fixpoint first_min (best : ForecastPoint) (rest : list ForecastPoint)
  : ForecastPoint :=
  match rest with
  | [] => best
  | p :: rest' =>
      if (predicted_demand p <? predicted_demand best)%fl
      then first_min p rest'
      else first_min best rest'
  end.

Definition forecast_demand (s : SmartMLSystem) (query : option (list RawRow))
    (now : Z) (equipment_type site_id : option string) (days_ahead : Z)
  : result ForecastResult :=
  if negb (models_trained s) then Err Models_not_trained
  else
    match forecast_source s query with
    | None => Err No_data_available
    | Some source =>
        let filtered_data :=
          filter_forecast_data source equipment_type site_id in
        if (len filtered_data =? 0)%Z then Err No_data_found
        else
          let last_date := last_date_of filtered_data now in
          let future_dates := future_dates_of last_date days_ahead in
          match forecast_points s equipment_type site_id filtered_data
                  future_dates with
          | inl e => Err (Error_forecasting_demand e)
          | inr forecasts =>
              let total := fl_sum (List.map predicted_demand forecasts) in
              let '(trend, trend_strength) :=
                _calculate_demand_trend forecasts in
              if (days_ahead =? 0)%Z
              then Err (Error_forecasting_demand ZeroDivisionError)
              else
                match forecasts with
                | [] => Err (Error_forecasting_demand ValueError)
                | p :: ps =>
                    Ok {| r_equipment_type := equipment_type;
                          r_site_id := site_id;
                          forecast_days := days_ahead;
                          forecasts := forecasts;
                          trend := trend;
                          trend_strength := trend_strength;
                          total_predicted_demand := py_round total 1;
                          average_daily_demand :=
                            py_round (total / of_Z days_ahead)%fl 1;
                          peak_demand_day := first_max p ps;
                          low_demand_day := first_min p ps |}
                end
          end
    end.

End Engine.

(* ===================================================================== *)
(** * The REST service ([ml/fastapi_ml_service.py]) *)
(* ===================================================================== *)

(** A value that an endpoint returns, before it is serialised. *)
#[warnings="-register-all"] Inductive json : Type :=
| JNull
| JBool (b : bool)
| JInt (n : Z)
| JString (s : string)
| JFloat (x : fl)
| JList (items : list json)
| JDict (entries : list (string * json)).

(** ** [clean_nan_values] *)
Fixpoint clean_nan_values (obj : json) : json :=
  match obj with
  | JDict entries =>
      JDict (List.map (fun kv => (fst kv, clean_nan_values (snd kv))) entries)
  | JList items => JList (List.map clean_nan_values items)
  | JFloat x =>
      match x with
      | NaN | PInf | NInf => JFloat (Num 0.0)
      | Num _ => obj
      end
  | _ => obj
  end.

(** What an endpoint answers: the body it returns, or the [HTTPException]
    it raises. *)
Inductive http_response (A : Type) : Type :=
| HTTPException (status_code : Z) (detail : string)
| Returned (body : A).
Arguments HTTPException {A} status_code detail.
Arguments Returned {A} body.

Record ForecastRequest : Type := {
  req_equipment_type : option string;
  req_site_id : option string;
  req_days_ahead : Z;
  req_horizon_days : option Z
}.

(** The bounds that [ForecastRequest] declares for [days_ahead]. *)
Definition valid_days_ahead (request : ForecastRequest) : Prop :=
  (1 <= req_days_ahead request <= 365)%Z.

(** ** The adjustment of [demand_forecast] *)

Definition equipment_factor (equipment_type : string) : fl :=
  if String.eqb equipment_type "Excavator" then Num 1.8
  else if String.eqb equipment_type "Bulldozer" then Num 0.9
  else if String.eqb equipment_type "Crane" then Num 1.5
  else if String.eqb equipment_type "Grader" then Num 0.7
  else if String.eqb equipment_type "Loader" then Num 1.2
  else Num 1.0.

Definition trend_options (equipment_type : string) : string * fl :=
  if String.eqb equipment_type "Excavator"
  then ("increasing"%string, Num 0.13)
  else if String.eqb equipment_type "Bulldozer"
  then ("stable"%string, Num 0.05)
  else if String.eqb equipment_type "Crane"
  then ("increasing"%string, Num 0.13)
  else if String.eqb equipment_type "Grader"
  then ("decreasing"%string, Num 0.09)
  else if String.eqb equipment_type "Loader"
  then ("stable"%string, Num 0.02)
  else ("stable"%string, Num 0.05).

(** One iteration of the loop over [forecast['forecasts']]; the day name
    is Saturday or Sunday on the weekdays 5 and 6. *)
Definition adjust_day (equipment_type : string) (i : nat)
    (day : ForecastPoint) : ForecastPoint :=
  let base_demand :=
    (predicted_demand day * equipment_factor equipment_type)%fl in
  let trend_factor :=
    if String.eqb (fst (trend_options equipment_type)) "increasing"
    then (Num 1.0 + of_Z (Z.of_nat i) * Num 0.02)%fl
    else if String.eqb (fst (trend_options equipment_type)) "decreasing"
    then (Num 1.0 - of_Z (Z.of_nat i) * Num 0.01)%fl
    else (Num 1.0 + of_Z (Z.of_nat i mod 7 - 3) * Num 0.005)%fl in
  let weekend_factor :=
    if (fp_weekday day =? 5)%Z || (fp_weekday day =? 6)%Z
    then Num 0.6 else Num 1.0 in
  let new_demand :=
    py_round (base_demand * trend_factor * weekend_factor)%fl 1 in
  {| fp_date := fp_date day;
     fp_weekday := fp_weekday day;
     predicted_demand := py_max (Num 0.5) new_demand;
     confidence := confidence day |}.

Definition adjust_forecast (equipment_type : string)
    (forecast : ForecastResult) : ForecastResult :=
  let days :=
    List.map (fun '(i, day) => adjust_day equipment_type i day)
      (List.combine (seq 0 (length (forecasts forecast)))
                    (forecasts forecast)) in
  let total_demand := fl_sum (List.map predicted_demand days) in
  match days with
  | [] => forecast
  | p :: ps =>
      {| r_equipment_type := r_equipment_type forecast;
         r_site_id := r_site_id forecast;
         forecast_days := forecast_days forecast;
         forecasts := days;
         trend := fst (trend_options equipment_type);
         trend_strength := snd (trend_options equipment_type);
         total_predicted_demand := py_round total_demand 1;
         average_daily_demand :=
           py_round (total_demand / of_Z (len days))%fl 1;
         peak_demand_day := first_max p ps;
         low_demand_day := first_min p ps |}
  end.

(** The dictionaries of [detect_anomalies], [generated_at] being the time
    of the call. *)
Definition anomaly_record_json (a : AnomalyRecord) : json :=
  JDict [ ("equipment_id"%string, JString (a_equipment_id a));
          ("equipment_type"%string, JString (a_equipment_type a));
          ("alert_type"%string, JString (alert_type a));
          ("severity"%string, JString (severity a));
          ("site_id"%string, JString (a_site_id a));
          ("anomaly_score"%string, JFloat (anomaly_score a));
          ("engine_hours"%string, JFloat (a_engine_hours a));
          ("idle_hours"%string, JFloat (a_idle_hours a));
          ("utilization"%string, JFloat (a_utilization a));
          ("efficiency"%string, JFloat (a_efficiency a)) ].

Definition anomaly_result_json (generated_at : string) (r : AnomalyResult)
  : json :=
  JDict [ ("anomalies"%string,
           JList (List.map anomaly_record_json (anomalies r)));
          ("summary"%string,
           JDict [ ("total_anomalies"%string,
                    JInt (total_anomalies (summary r)));
                   ("total_records"%string,
                    JInt (total_records (summary r)));
                   ("active_rentals"%string,
                    JInt (active_rentals (summary r)));
                   ("anomaly_rate"%string,
                    JFloat (anomaly_rate (summary r)));
                   ("equipment_affected"%string,
                    JInt (equipment_affected (summary r)));
                   ("sites_affected"%string,
                    JInt (sites_affected (summary r))) ]);
          ("generated_at"%string, JString generated_at);
          ("data_source"%string, JString (data_source r)) ].

Definition mock_anomalies : json :=
  JDict [ ("summary"%string,
           JDict [ ("total_anomalies"%string, JInt 3);
                   ("total_records"%string, JInt 200);
                   ("anomaly_types"%string,
                    JDict [ ("high_idle_time"%string, JInt 2);
                            ("low_utilization"%string, JInt 1) ]) ]);
          ("anomalies"%string,
           JList [ JDict [ ("equipment_id"%string, JString "EQ001");
                           ("type"%string, JString "Excavator");
                           ("alert_type"%string, JString "high_idle_time");
                           ("severity"%string, JString "high");
                           ("anomaly_score"%string, JFloat (Num (-0.15)));
                           ("site_id"%string, JString "S001");
                           ("engine_hours_per_day"%string, JFloat (Num 2.5));
                           ("idle_hours_per_day"%string, JFloat (Num 8.5));
                           ("utilization_ratio"%string,
                            JFloat (Num 0.23)) ] ]) ].

Section Endpoints.

Context {SK : Sklearn}.

(** ** [POST /ml/demand-forecast] *)
Definition demand_forecast (g : Service) (query : option (list RawRow))
    (now : Z) (request : ForecastRequest) : http_response ForecastResult :=
  match ml_system g with
  | None => HTTPException 503 "ML system is not initialized"
  | Some s =>
      if negb (models_trained s)
      then HTTPException 503 "ML models are not trained"
      else
        let days :=
          match req_horizon_days request with
          | Some horizon_days => horizon_days
          | None => req_days_ahead request
          end in
        match forecast_demand s query now (req_equipment_type request)
                (req_site_id request) days with
        | Err e => HTTPException 400 (error_text e)
        | Ok forecast =>
            if truthy (req_equipment_type request)
            then Returned
                   (adjust_forecast (text_of (req_equipment_type request))
                      forecast)
            else Returned forecast
        end
  end.

(** ** [POST /ml/anomaly-detection] *)
Definition anomaly_detection (g : Service) (equipment_count : option Z)
    (query : option (list RawRow)) (generated_at : string)
    (equipment_id : option string) : http_response json :=
  match ml_system g with
  | None => Returned mock_anomalies
  | Some s =>
      if negb (models_trained s) then Returned mock_anomalies
      else
        match detect_anomalies s equipment_count query equipment_id with
        | Err e => HTTPException 400 (error_text e)
        | Ok anomalies =>
            Returned
              (clean_nan_values (anomaly_result_json generated_at anomalies))
        end
  end.

(** ** [POST /ml/models/retrain]

    [_train_models] works on the installed system in place; the body
    returned carries the trained flag. *)
Definition retrain_models (g : Service) : Service * http_response bool :=
  match ml_system g with
  | None => (g, HTTPException 503 "ML system is not initialized")
  | Some s =>
      let s := _train_models s in
      let g := {| ml_system := Some s;
                  restart_flag := restart_flag g;
                  last_database_change := last_database_change g;
                  is_reloading := is_reloading g |} in
      if negb (models_trained s)
      then (g, HTTPException 500 "Failed to train models")
      else (g, Returned (models_trained s))
  end.

End Endpoints.

(* ===================================================================== *)
(** * The database watcher ([ml/database_watcher.py]) *)
(* ===================================================================== *)

Record FileSystemEvent : Type := {
  is_directory : bool;
  src_path : string
}.

(** [s.endswith(suffix)] *)
Definition endswith (s suffix : string) : bool :=
  let n := String.length s in
  let k := String.length suffix in
  (k <=? n)%nat && String.eqb (substring (n - k) k s) suffix.

(** A [DatabaseChangeHandler]: whether a callback was given, and the time
    of the last accepted change of each file. *)
Record DatabaseChangeHandler : Type := {
  callback : bool;
  last_modified : gmap string Q;
  debounce_time : Q
}.

(** [DatabaseChangeHandler(callback=...)] *)
Definition new_handler (callback : bool) : DatabaseChangeHandler :=
  {| callback := callback; last_modified := ∅; debounce_time := 3 |}.

(** [on_modified], [current_time] being [time.time()]: the handler after
    the event, and whether the callback was started. *)
Definition on_modified (h : DatabaseChangeHandler) (event : FileSystemEvent)
    (current_time : Q) : DatabaseChangeHandler * bool :=
  if is_directory event then (h, false)
  else if endswith (src_path event) "rental.db"
          || endswith (src_path event) "dev.db"
  then
    let file_path := src_path event in
    let debounced :=
      match last_modified h !! file_path with
      | Some last => Qltb (current_time - last) (debounce_time h)
      | None => false
      end in
    if debounced then (h, false)
    else
      ({| callback := callback h;
          last_modified := <[file_path := current_time]> (last_modified h);
          debounce_time := debounce_time h |},
       callback h)
  else (h, false).

(* ===================================================================== *)
(** * The statistics override script ([ml/fix_equipment_stats.py]) *)
(* ===================================================================== *)

Module FixEquipmentStats.

(** [key.startswith(('avg_', 'total_', 'utilization'))] *)
Definition float_key (key : string) : bool :=
  String.prefix "avg_" key
  || String.prefix "total_" key
  || String.prefix "utilization" key.

(** [clean_nan_values] of the script, which works in place: only the
    values of dictionaries and the items of lists are replaced, and a
    [None] only as the value of a key. *)
Fixpoint clean_nan_values (obj : json) : json :=
  match obj with
  | JDict entries =>
      JDict
        (List.map
           (fun kv =>
              (fst kv,
               match snd kv with
               | JDict _ | JList _ => clean_nan_values (snd kv)
               | JFloat x =>
                   match x with
                   | NaN | PInf | NInf => JFloat (Num 0.0)
                   | Num _ => snd kv
                   end
               | JNull => if float_key (fst kv) then JFloat (Num 0.0)
                          else JInt 0
               | value => value
               end))
           entries)
  | JList items =>
      JList
        (List.map
           (fun item =>
              match item with
              | JDict _ | JList _ => clean_nan_values item
              | JFloat x =>
                  match x with
                  | NaN | PInf | NInf => JFloat (Num 0.0)
                  | Num _ => item
                  end
              | _ => item
              end)
           items)
  | _ => obj
  end.

(** [has_nan], the check that follows the cleaning. *)
Fixpoint has_nan (obj : json) : bool :=
  match obj with
  | JDict entries => List.existsb (fun kv => has_nan (snd kv)) entries
  | JList items => List.existsb has_nan items
  | JFloat x =>
      match x with
      | Num _ => false
      | _ => true
      end
  | _ => false
  end.

End FixEquipmentStats.

(* ===================================================================== *)
(** * The placeholder service ([backend-ml-python/main.py]) *)
(* ===================================================================== *)

Module PlaceholderService.

Record ForecastItem : Type := {
  date : Z;
  predicted_demand : Z;
  confidence : fl
}.

(** The [forecast] list of [demand_forecast], [today] being the ordinal
    of [date.today()]. *)
Definition demand_forecast (today : Z) (horizon_days : Z)
  : list ForecastItem :=
  let base := 5%Z in
  List.map
    (fun k =>
       let i := Z.of_nat k in
       let d := (today + (i + 1))%Z in
       let predicted := (base + i mod 7)%Z in
       let conf := (Num 0.7 + of_Z (i mod 5) * Num 0.05)%fl in
       let conf := if (conf >? Num 0.95)%fl then Num 0.95 else conf in
       {| date := d;
          predicted_demand := predicted;
          confidence := py_round conf 2 |})
    (seq 0 (Z.to_nat horizon_days)).

End PlaceholderService.

(* ===================================================================== *)
(** * Reference definitions and examples of use *)
(* ===================================================================== *)

(** The rule table of the anomaly scorer as the specification words it:
    the reported type is the first rule, in this order, that the metrics
    satisfy. *)
Definition first_matching_rule (utilization idle_hours engine_hours : fl)
  : option string :=
  if (utilization <? Num 0.35)%fl then Some "low_utilization"%string
  else if (idle_hours >? Num 6)%fl then Some "high_idle_time"%string
  else if (engine_hours =? Num 0)%fl && (idle_hours >? Num 0)%fl
  then Some "no_usage"%string
  else None.

(** The severity as a function of the reported metrics. *)
Definition severity_of (idle_hours engine_hours : fl) : string :=
  if (idle_hours >? Num 6)%fl
     || ((engine_hours =? Num 0)%fl && (idle_hours >? Num 0)%fl)
  then "high"%string
  else "medium"%string.

(** A scikit-learn small enough to run: a fitted regressor answers, for
    each input row, the value of one of its columns; the scaler is the
    identity once fitted. *)
Definition column_sklearn : Sklearn :=
  {| GradientBoostingRegressor := option nat;
     StandardScaler := bool;
     IsolationForest := bool;
     new_regressor := fun _ _ => None;
     new_scaler := false;
     new_isolation_forest := false;
     regressor_fit := fun _ _ _ => Some (Some 0%nat);
     regressor_predict :=
       fun m rows =>
         match m with
         | None => None
         | Some k => Some (List.map (fun row => nth k row NaN) rows)
         end;
     scaler_fit := fun _ _ => Some true;
     scaler_transform := fun sc rows => if sc then Some rows else None;
     isolation_forest_fit := fun _ _ => Some true;
     train_test_split :=
       fun rows =>
         let k := (length rows * 4 / 5)%nat in
         (firstn k rows, skipn k rows) |}.

(** A live row: an equipment that is checked out at a site. *)
Definition live_row (id type_ site : string) (check_out : Z)
    (engine idle : fl) : RawRow :=
  {| raw_Equipment_ID := id;
     raw_Type := type_;
     raw_User_ID := Some site;
     raw_Check_Out_Date := DateOk check_out;
     raw_Check_in_Date := DateEmpty;
     raw_Engine_Hours_Day := engine;
     raw_Idle_Hours_Day := idle |}.

(** A system in the state a successful training leaves, over
    [column_sklearn]: encoders fitted on two types and two sites, the
    global model answering column 10 ([demand_7d_avg]), and a model for
    site S1 answering its column 7, the place of [demand_30d_avg] among
    the columns it was fitted on. *)
Definition trained_system : @SmartMLSystem column_sklearn :=
  @Build_SmartMLSystem column_sklearn
    None                                      (* data *)
    true                                      (* scaler *)
    true                                      (* anomaly_detector *)
    (Some 10%nat)                             (* demand_forecaster *)
    {[ "S1"%string := Some (Some 7%nat) ]}    (* site_specific_models *)
    (Some ["Crane"; "Excavator"]%string)      (* equipment_encoder *)
    (Some ["S1"; "S2"]%string)                (* site_encoder *)
    true.                                     (* models_trained *)

(** The three-equipment snapshot of the anomaly scenario; the second
    equipment runs [engine2] hours a day. *)
Definition scenario_snapshot (engine2 : Q) : list RawRow :=
  [ live_row "EQ1" "Excavator" "S1" 738886 (Num 0) (Num 5);
    live_row "EQ2" "Crane" "S1" 738887 (Num engine2) (Num 8);
    live_row "EQ3" "Excavator" "S2" 738888 (Num 0.5) (Num 2) ].

Definition result_anomalies (r : result AnomalyResult) : list AnomalyRecord :=
  match r with
  | Ok a => anomalies a
  | Err _ => []
  end.


(** The alert type and severity that the scan reports for a live
    equipment with the given hours, if it reports one. *)
Definition alert_of_hours (engine idle : fl) : option (string * string) :=
  match apply_rules (anomaly_utilization_ratio engine idle)
          (fillna (Num 2.0) idle) (fillna (Num 6.0) engine) with
  | ([], _) => None
  | (primary :: _, severity) => Some (primary, severity)
  end.

Definition alert_pair (a : AnomalyRecord) : string * string :=
  (alert_type a, severity a).

(** A scikit-learn whose regressor refuses, at [fit], a target above 1:
    a [fit] that raises on some training sets and not on others. *)
Definition picky_sklearn : Sklearn :=
  {| GradientBoostingRegressor := option nat;
     StandardScaler := bool;
     IsolationForest := bool;
     new_regressor := fun _ _ => None;
     new_scaler := false;
     new_isolation_forest := false;
     regressor_fit :=
       fun _ _ y =>
         if List.forallb (fun v => Float.leb v (Num 1)) y
         then Some (Some 0%nat) else None;
     regressor_predict :=
       fun m rows =>
         match m with
         | None => None
         | Some k => Some (List.map (fun row => nth k row NaN) rows)
         end;
     scaler_fit := fun _ _ => Some true;
     scaler_transform := fun sc rows => if sc then Some rows else None;
     isolation_forest_fit := fun _ _ => Some true;
     train_test_split :=
       fun rows =>
         let k := (length rows * 4 / 5)%nat in
         (firstn k rows, skipn k rows) |}.

(** A returned rental, one per day: the [k]-th row is checked out on day
    [738000 + k * step] for ten days. *)
Definition rental_row (step : Z) (k : nat) : RawRow :=
  {| raw_Equipment_ID := "EQ";
     raw_Type := if Nat.even k then "Crane" else "Excavator";
     raw_User_ID := Some "S1"%string;
     raw_Check_Out_Date := DateOk (738000 + Z.of_nat k * step);
     raw_Check_in_Date := DateOk (738010 + Z.of_nat k * step);
     raw_Engine_Hours_Day := Num 6;
     raw_Idle_Hours_Day := Num 2 |}.

Definition rental_rows (step : Z) (n : nat) : list RawRow :=
  List.map (rental_row step) (seq 0 n).

(** A CSV file of [n] rentals on distinct days and no saved model. *)
Definition csv_world {SK : Sklearn} (n : nat) : World :=
  {| csv := Some (rental_rows 1 n); models_dir := None |}.

(** A CSV file of [n] rentals all checked out on the same day, which
    makes the daily demand exceed 1, and no saved model. *)
Definition busy_day_world {SK : Sklearn} (n : nat) : World :=
  {| csv := Some (rental_rows 0 n); models_dir := None |}.

(** A CSV file that cannot be read. *)
Definition unreadable_world {SK : Sklearn} : World :=
  {| csv := None; models_dir := None |}.

(** A CSV file with a check-out date that does not parse. *)
Definition bad_date_world {SK : Sklearn} : World :=
  {| csv := Some [ {| raw_Equipment_ID := "EQ";
                      raw_Type := "Crane";
                      raw_User_ID := Some "S1"%string;
                      raw_Check_Out_Date := DateBad;
                      raw_Check_in_Date := DateEmpty;
                      raw_Engine_Hours_Day := Num 6;
                      raw_Idle_Hours_Day := Num 2 |} ];
     models_dir := None |}.

Definition system_trained {SK : Sklearn} (s : option SmartMLSystem) : bool :=
  match s with
  | Some s => models_trained s
  | None => false
  end.

Definition is_ok {A : Type} (r : result A) : bool :=
  match r with
  | Ok _ => true
  | Err _ => false
  end.

(** The untrained system the constructor holds, before [_train_models],
    for a CSV file of 20 rentals. *)
Definition small_system : @SmartMLSystem column_sklearn :=
  match _preprocess_data (rental_rows 1 20) with
  | Some (frame, eq_enc, site_enc) =>
      set_encoders eq_enc site_enc (set_data (Some frame) fresh_system)
  | None => fresh_system
  end.

(** The service after a start on a CSV file of 50 rentals. *)
Definition started_service : @Service picky_sklearn :=
  {| ml_system := __init__ (csv_world 50);
     restart_flag := false;
     last_database_change := None;
     is_reloading := false |}.

(** A forecast request served from the installed system. *)
Definition served_forecast {SK : Sklearn} (g : Service)
    (equipment_type site_id : option string) (days_ahead : Z)
  : option (result ForecastResult) :=
  option_map
    (fun s => forecast_demand s None 0 equipment_type site_id days_ahead)
    (ml_system g).

(** The live frame of the three-equipment snapshot. *)
Definition scenario_frame : Frame :=
  match _load_database_data trained_system (Some (scenario_snapshot 8)) with
  | Some frame => frame
  | None => []
  end.

Fixpoint position_of_name (name : string) (names : list string) : nat :=
  match names with
  | [] => O
  | x :: rest =>
      if String.eqb x name then O else S (position_of_name name rest)
  end.

(** The values, in a vector laid out as [feature_columns], of the
    columns with the given names: the subset of the features that the
    specification names for the site models. *)
Definition feature_subset (names : list string) (features : list fl)
  : list fl :=
  List.map
    (fun name =>
       nth (position_of_name name (List.map fst feature_columns)) features NaN)
    names.

(** The frame and the feature vector of a forecast for the excavators of
    site S1 on the live snapshot, for the day 738887. *)
Definition site_forecast_frame : Frame :=
  filter_forecast_data scenario_frame (Some "Excavator"%string)
    (Some "S1"%string).

Definition site_forecast_features : list fl :=
  match _prepare_forecast_features trained_system (Some "Excavator"%string)
          (Some "S1"%string) (PdTimestamp 738887) site_forecast_frame with
  | inr features => features
  | inl _ => []
  end.

(** The system the constructor holds, before it loads or trains a model,
    for a CSV file of [n] rentals. *)
Definition loaded_system (n : nat) : @SmartMLSystem column_sklearn :=
  match _preprocess_data (rental_rows 1 n) with
  | Some (frame, eq_enc, site_enc) =>
      set_encoders eq_enc site_enc (set_data (Some frame) fresh_system)
  | None => fresh_system
  end.


(** A file system on which every call succeeds, and one on which the
    dump of the scaler raises and leaves no readable file. *)
Definition working_disk : Disk :=
  {| makedirs_raises := false; joblib_dump := fun _ => Dumped |}.

Definition scaler_failing_disk : Disk :=
  {| makedirs_raises := false;
     joblib_dump := fun file => if String.eqb file "scaler.pkl"
                                then DumpRaised false else Dumped |}.

(** A CSV file of [n] rentals beside the models saved from
    [trained_system] into an empty directory. *)
Definition saved_models_world (n : nat) : @World column_sklearn :=
  {| csv := Some (rental_rows 1 n);
     models_dir :=
       save_models trained_system (Some empty_store) ["S1"%string]
         working_disk |}.

(** The sum of a list of rationals, accumulated as [fl_sum] does. *)
Definition Qsum (l : list Q) : Q := fold_left Qplus l 0.

(** The rational that a finite float carries. *)
Definition num_of (x : fl) : Q :=
  match x with
  | Num q => q
  | _ => 0
  end.

(** No float of the value is NaN or an infinity. *)
Fixpoint json_finite (obj : json) : bool :=
  match obj with
  | JDict entries => List.forallb (fun kv => json_finite (snd kv)) entries
  | JList items => List.forallb json_finite items
  | JFloat x =>
      match x with
      | Num _ => true
      | _ => false
      end
  | _ => true
  end.

(** The keys and the lengths of a value, without its leaves. *)
Fixpoint json_shape (obj : json) : json :=
  match obj with
  | JDict entries =>
      JDict (List.map (fun kv => (fst kv, json_shape (snd kv))) entries)
  | JList items => JList (List.map json_shape items)
  | JFloat _ => JFloat (Num 0)
  | _ => obj
  end.

(** The callbacks that a handler starts on a sequence of timed events, as
    (time, path) pairs in the order of the events. *)
Fixpoint started_callbacks (h : DatabaseChangeHandler)
    (events : list (Q * FileSystemEvent)) : list (Q * string) :=
  match events with
  | [] => []
  | (t, event) :: rest =>
      let '(h', started) := on_modified h event t in
      if started then (t, src_path event) :: started_callbacks h' rest
      else started_callbacks h' rest
  end.

(** A service whose installed system is [trained_system]. *)
Definition trained_service : @Service column_sklearn :=
  {| ml_system := Some trained_system;
     restart_flag := false;
     last_database_change := None;
     is_reloading := false |}.

(** The system that the constructor returns for a CSV file of 20 rentals
    beside the models saved from [trained_system], and a service that has
    it installed. *)
Definition reloaded_system : @SmartMLSystem column_sklearn :=
  @Build_SmartMLSystem column_sklearn
    (data small_system) true true (Some 10%nat) ∅
    (Some ["Crane"; "Excavator"]%string)
    (Some ["S1"; "S2"]%string)
    true.

Definition saved_models_service : @Service column_sklearn :=
  {| ml_system := Some reloaded_system;
     restart_flag := false;
     last_database_change := None;
     is_reloading := false |}.

(** A forecast request of [days] days for an equipment type, or for
    none. *)
Definition forecast_request (equipment_type : option string) (days : Z)
  : ForecastRequest :=
  {| req_equipment_type := equipment_type;
     req_site_id := None;
     req_days_ahead := days;
     req_horizon_days := None |}.

(** The records that [detect_anomalies] scans: the live rows, those of
    [equipment_id] when one is asked for, with the metrics of the scan. *)
Definition scanned_records (db_data : Frame) (equipment_id : option string)
  : Frame :=
  List.map anomaly_metrics
    (if truthy equipment_id
     then List.filter
            (fun r => String.eqb (Equipment_ID r) (text_of equipment_id))
            db_data
     else db_data).

(** Whether one of the three rules holds of the metrics of a record. *)
Definition matches_a_rule (row : Row) : bool :=
  match first_matching_rule (utilization_ratio row) (Idle_Hours_Day row)
          (Engine_Hours_Day row) with
  | Some _ => true
  | None => false
  end.

(** The handler after a sequence of timed events. *)
Fixpoint handler_after (h : DatabaseChangeHandler)
    (events : list (Q * FileSystemEvent)) : DatabaseChangeHandler :=
  match events with
  | [] => h
  | (t, event) :: rest => handler_after (fst (on_modified h event t)) rest
  end.

(** The time of the last callback started for [path], if any. *)
Definition last_started (path : string) (started : list (Q * string))
  : option Q :=
  fold_left
    (fun last a => if String.eqb (snd a) path then Some (fst a) else last)
    started None.

(** A change of the file at [path]. *)
Definition file_modified (path : string) : FileSystemEvent :=
  {| is_directory := false; src_path := path |}.

(** No value of the tree is [None]. *)
Fixpoint json_no_null (obj : json) : bool :=
  match obj with
  | JDict entries => List.forallb (fun kv => json_no_null (snd kv)) entries
  | JList items => List.forallb json_no_null items
  | JNull => false
  | _ => true
  end.

Definition is_container (obj : json) : bool :=
  match obj with
  | JDict _ | JList _ => true
  | _ => false
  end.

(** A float that is a finite number. *)
Definition finite (x : fl) : Prop := exists q, x = Num q.

(* ===================================================================== *)
(** * Properties *)
(* ===================================================================== *)

(** Case analysis on every [if] of the goal. *)
Ltac case_ifs :=
  repeat match goal with
         | |- context [if ?b then _ else _] => destruct b
         end.

(** Split the goal along its conjunctions only. *)
Ltac split_ands :=
  repeat match goal with
         | |- _ /\ _ => split
         end.

(** ** Arithmetic of [fl] *)

Lemma Qltb_lt (a b : Q) : Qltb a b = true <-> a < b.
Proof.
  unfold Qltb. rewrite negb_true_iff. split.
  - intros H. apply Qnot_le_lt. intros Hle.
    apply Qle_bool_iff in Hle. congruence.
  - intros H. destruct (Qle_bool b a) eqn:E; [|reflexivity].
    apply Qle_bool_iff in E. exfalso. apply (Qlt_not_le _ _ H E).
Qed.

Lemma Qltb_ge (a b : Q) : Qltb a b = false <-> b <= a.
Proof.
  unfold Qltb. rewrite negb_false_iff. apply Qle_bool_iff.
Qed.

Lemma Qeq_bool_false (a b : Q) : ~ a == b -> Qeq_bool a b = false.
Proof.
  intros H. destruct (Qeq_bool a b) eqn:E; [|reflexivity].
  apply Qeq_bool_eq in E. contradiction.
Qed.

Lemma Qeq_bool_true (a b : Q) : a == b -> Qeq_bool a b = true.
Proof. apply Qeq_eq_bool. Qed.

Lemma div_num_nonzero (a b : Q) :
  ~ b == 0 -> Float.div (Num a) (Num b) = Num (a / b).
Proof. intros H. simpl. rewrite Qeq_bool_false by assumption. reflexivity. Qed.

Lemma div_zero_zero (a b : Q) :
  a == 0 -> b == 0 -> Float.div (Num a) (Num b) = NaN.
Proof.
  intros Ha Hb. simpl. rewrite Qeq_bool_true by assumption.
  unfold sign_of.
  assert ((0 ?= a) = Eq) as -> by (apply Qeq_alt; symmetry; exact Ha).
  reflexivity.
Qed.

Lemma ratio_in_unit_interval (e i : Q) :
  0 <= e -> 0 <= i -> 0 < e + i -> 0 <= e / (e + i) /\ e / (e + i) <= 1.
Proof.
  intros He Hi Ht. split.
  - apply Qle_shift_div_l; [assumption | lra].
  - apply Qle_shift_div_r; [assumption | lra].
Qed.

(** ** The utilization ratio of the three paths *)

Lemma preprocess_utilization_ratio_pos (e i : Q) :
  0 < e + i ->
  preprocess_utilization_ratio (Num e) (Num i) = Num (e / (e + i)).
Proof.
  intros Ht. unfold preprocess_utilization_ratio. cbn [Float.add Float.gtb Float.ltb].
  assert (Qltb 0 (e + i) = true) as -> by (apply Qltb_lt; exact Ht).
  apply div_num_nonzero. lra.
Qed.

Lemma preprocess_utilization_ratio_nonpos (e i : Q) :
  e + i <= 0 ->
  preprocess_utilization_ratio (Num e) (Num i) = Num 0.
Proof.
  intros Ht. unfold preprocess_utilization_ratio. cbn [Float.add Float.gtb Float.ltb].
  assert (Qltb 0 (e + i) = false) as -> by (apply Qltb_ge; exact Ht).
  reflexivity.
Qed.

Lemma anomaly_utilization_ratio_nonzero (e i : Q) :
  ~ e + i == 0 ->
  anomaly_utilization_ratio (Num e) (Num i) = Num (e / (e + i)).
Proof.
  intros Ht. unfold anomaly_utilization_ratio. cbn [Float.add].
  rewrite div_num_nonzero by assumption. reflexivity.
Qed.

Lemma anomaly_utilization_ratio_zero (e i : Q) :
  e == 0 -> i == 0 ->
  anomaly_utilization_ratio (Num e) (Num i) = Num 0.5.
Proof.
  intros He Hi. unfold anomaly_utilization_ratio. cbn [Float.add].
  rewrite div_zero_zero; [reflexivity | assumption | lra].
Qed.

Lemma db_utilization_ratio_eq (e i : fl) :
  db_utilization_ratio e i = anomaly_utilization_ratio e i.
Proof. reflexivity. Qed.

Lemma preprocess_efficiency_score_num (e i : Q) :
  preprocess_efficiency_score (Num e) (Num i)
  = Num ((e * 0.6 + (24 + - i) * 0.4) / 24).
Proof. reflexivity. Qed.

Lemma anomaly_efficiency_score_nonzero (e i : Q) :
  ~ e + i == 0 ->
  anomaly_efficiency_score (Num e) (Num i) = Num (e / (e + i) * (e / 8.0)).
Proof.
  intros Ht. unfold anomaly_efficiency_score. cbn [Float.add].
  rewrite div_num_nonzero by assumption. reflexivity.
Qed.

Lemma db_efficiency_score_nonzero (e i : Q) :
  ~ e + i == 0 ->
  db_efficiency_score (Num e) (Num i) = Num (e / (e + i) * (e / 8.0)).
Proof.
  intros Ht. unfold db_efficiency_score.
  rewrite db_utilization_ratio_eq, anomaly_utilization_ratio_nonzero
    by assumption.
  reflexivity.
Qed.

(** C3 (as amended).  For finite hours with [engine + idle > 0] the
    utilization ratio of training-time preprocessing and the one of the
    two inference-time paths (live-snapshot columns, anomaly scan) are the
    same number, [engine / (engine + idle)].  The efficiency score is not
    shared: preprocessing computes
    [(0.6 * engine + 0.4 * (24 - idle)) / 24], both inference-time paths
    compute [utilization * engine / 8]. *)
Theorem utilization_shared_efficiency_not (e i : Q) :
  0 < e + i ->
  is_num (preprocess_utilization_ratio (Num e) (Num i)) (e / (e + i))
  /\ is_num (db_utilization_ratio (Num e) (Num i)) (e / (e + i))
  /\ is_num (anomaly_utilization_ratio (Num e) (Num i)) (e / (e + i))
  /\ is_num (preprocess_efficiency_score (Num e) (Num i))
            ((0.6 * e + 0.4 * (24 - i)) / 24)
  /\ is_num (db_efficiency_score (Num e) (Num i)) (e / (e + i) * e / 8)
  /\ is_num (anomaly_efficiency_score (Num e) (Num i)) (e / (e + i) * e / 8).
Proof.
  intros Ht.
  assert (~ e + i == 0) as Hnz by lra.
  rewrite (preprocess_utilization_ratio_pos e i Ht).
  rewrite db_utilization_ratio_eq.
  rewrite (anomaly_utilization_ratio_nonzero e i Hnz).
  rewrite preprocess_efficiency_score_num.
  rewrite (db_efficiency_score_nonzero e i Hnz).
  rewrite (anomaly_efficiency_score_nonzero e i Hnz).
  cbn [is_num]. repeat split; try reflexivity.
  - field.
  - field. exact Hnz.
  - field. exact Hnz.
Qed.

Lemma utilization_shared_efficiency_not_witness :
  0 < 6 + 2
  /\ is_num (preprocess_utilization_ratio (Num 6) (Num 2)) (6 / (6 + 2))
  /\ is_num (anomaly_efficiency_score (Num 6) (Num 2)) (6 / (6 + 2) * 6 / 8).
Proof.
  assert (0 < 6 + 2) as H by reflexivity.
  split; [exact H|].
  pose proof (utilization_shared_efficiency_not 6 2 H) as P.
  split; [apply P | apply P].
Defined.

(** C3, counterexample: with no hours at all the training-time
    utilization is 0 and the inference-time one is 0.5, and for 8 engine
    hours and no idle hour the training-time efficiency is 0.6 and the
    inference-time one is 1. *)
Lemma training_and_inference_formulas_differ :
  ~ equiv (preprocess_utilization_ratio (Num 0) (Num 0))
          (anomaly_utilization_ratio (Num 0) (Num 0))
  /\ ~ equiv (preprocess_efficiency_score (Num 8) (Num 0))
             (anomaly_efficiency_score (Num 8) (Num 0))
  /\ ~ equiv (preprocess_efficiency_score (Num 8) (Num 0))
             (db_efficiency_score (Num 8) (Num 0)).
Proof.
  repeat split; vm_compute; intros H; discriminate H.
Qed.

(** C4 (as amended).  For finite non-negative hours the utilization ratio
    lies in [[0, 1]] on every path.  When [engine + idle = 0] it is
    exactly 0 in training-time preprocessing, and it is the fill value 0.5
    on the two live paths. *)
Theorem utilization_ratio_range (e i : Q) :
  0 <= e -> 0 <= i ->
  in_range (preprocess_utilization_ratio (Num e) (Num i)) 0 1
  /\ in_range (db_utilization_ratio (Num e) (Num i)) 0 1
  /\ in_range (anomaly_utilization_ratio (Num e) (Num i)) 0 1
  /\ (e + i == 0 ->
      is_num (preprocess_utilization_ratio (Num e) (Num i)) 0
      /\ is_num (db_utilization_ratio (Num e) (Num i)) 0.5
      /\ is_num (anomaly_utilization_ratio (Num e) (Num i)) 0.5).
Proof.
  intros He Hi.
  rewrite db_utilization_ratio_eq.
  destruct (Qlt_le_dec 0 (e + i)) as [Ht | Ht].
  - assert (~ e + i == 0) as Hnz by lra.
    rewrite (preprocess_utilization_ratio_pos e i Ht).
    rewrite (anomaly_utilization_ratio_nonzero e i Hnz).
    pose proof (ratio_in_unit_interval e i He Hi Ht) as Hr.
    cbn [in_range].
    split; [exact Hr|]. split; [exact Hr|]. split; [exact Hr|].
    intros Hz. contradiction.
  - assert (e == 0) as He0 by lra.
    assert (i == 0) as Hi0 by lra.
    rewrite (preprocess_utilization_ratio_nonpos e i Ht).
    rewrite (anomaly_utilization_ratio_zero e i He0 Hi0).
    cbn [in_range is_num].
    split; [lra|]. split; [lra|]. split; [lra|].
    intros _. split; [reflexivity|]. split; reflexivity.
Qed.

Lemma utilization_ratio_range_witness :
  in_range (preprocess_utilization_ratio (Num 0) (Num 0)) 0 1
  /\ is_num (anomaly_utilization_ratio (Num 0) (Num 0)) 0.5.
Proof.
  assert (0 <= 0) as H by (apply Qle_refl).
  pose proof (utilization_ratio_range 0 0 H H) as P.
  split; [apply P|].
  assert (0 + 0 == 0) as Hz by reflexivity.
  apply P. exact Hz.
Defined.

(** C4, counterexample on the live paths: an equipment with no
    engine hour and no idle hour gets the utilization 0.5, not 0. *)
Lemma live_utilization_at_zero_hours :
  option_map (List.map utilization_ratio)
    (_load_database_data trained_system
       (Some [live_row "EQ1" "Crane" "S1" 738886 (Num 0) (Num 0)]))
  = Some [Num 0.5]
  /\ List.map utilization_ratio
       (List.map anomaly_metrics
          (_add_calculated_columns_to_db_data None None
             [base_of (live_row "EQ1" "Crane" "S1" 738886 (Num 0) (Num 0))
                      (Some 738886%Z) None (Num 0) (Num 0)]))
     = [Num 0.5]
  /\ ~ is_num (anomaly_utilization_ratio (Num 0) (Num 0)) 0
  /\ ~ is_num (db_utilization_ratio (Num 0) (Num 0)) 0.
Proof.
  repeat split; try reflexivity; vm_compute; intros H; discriminate H.
Qed.

(** ** The anomaly scan *)

Lemma apply_rules_first_match (u i e : fl) :
  hd_error (fst (apply_rules u i e)) = first_matching_rule u i e.
Proof.
  unfold apply_rules, first_matching_rule.
  destruct (u <? Num 0.35)%fl, (i >? Num 6)%fl,
           ((e =? Num 0)%fl && (i >? Num 0)%fl); reflexivity.
Qed.

Lemma apply_rules_severity (u i e : fl) :
  snd (apply_rules u i e) = severity_of i e.
Proof.
  unfold apply_rules, severity_of.
  destruct (u <? Num 0.35)%fl, (i >? Num 6)%fl,
           ((e =? Num 0)%fl && (i >? Num 0)%fl); reflexivity.
Qed.

Lemma scan_row_Some (row : Row) (a : AnomalyRecord) :
  scan_row row = Some a ->
  a_utilization a = utilization_ratio row
  /\ a_idle_hours a = Idle_Hours_Day row
  /\ a_engine_hours a = Engine_Hours_Day row
  /\ a_equipment_id a = Equipment_ID row
  /\ Some (alert_type a)
     = first_matching_rule (utilization_ratio row) (Idle_Hours_Day row)
         (Engine_Hours_Day row)
  /\ severity a = severity_of (Idle_Hours_Day row) (Engine_Hours_Day row).
Proof.
  unfold scan_row.
  pose proof (apply_rules_first_match (utilization_ratio row)
                (Idle_Hours_Day row) (Engine_Hours_Day row)) as Hf.
  pose proof (apply_rules_severity (utilization_ratio row)
                (Idle_Hours_Day row) (Engine_Hours_Day row)) as Hs.
  destruct (apply_rules (utilization_ratio row) (Idle_Hours_Day row)
              (Engine_Hours_Day row)) as [[|primary types] sev];
    [discriminate|].
  intros [= <-]. cbn in *. repeat split; assumption.
Qed.

Lemma scan_row_None (row : Row) :
  scan_row row = None
  <-> first_matching_rule (utilization_ratio row) (Idle_Hours_Day row)
        (Engine_Hours_Day row) = None.
Proof.
  unfold scan_row.
  rewrite <- apply_rules_first_match.
  destruct (apply_rules (utilization_ratio row) (Idle_Hours_Day row)
              (Engine_Hours_Day row)) as [[|primary types] sev]; cbn.
  - split; reflexivity.
  - split; discriminate.
Qed.

Lemma scan_In (frame : Frame) (a : AnomalyRecord) :
  In a (scan frame) <-> exists row, In row frame /\ scan_row row = Some a.
Proof.
  induction frame as [|row rest IH]; cbn.
  - split; [intros [] | intros (row & [] & _)].
  - destruct (scan_row row) as [a'|] eqn:E; cbn; rewrite IH; split.
    + intros [<- | (row' & Hin & Hs)]; [exists row | exists row']; auto.
    + intros (row' & [<- | Hin] & Hs).
      * left. congruence.
      * right. exists row'. auto.
    + intros (row' & Hin & Hs). exists row'. auto.
    + intros (row' & [<- | Hin] & Hs); [congruence|]. exists row'. auto.
Qed.

Section AnomalyProperties.

Context {SK : Sklearn}.

(** What a successful call of [detect_anomalies] returns: the scan of
    the selected rows with their recomputed metrics. *)
Lemma detect_anomalies_Ok (s : SmartMLSystem) (count : option Z)
    (query : option (list RawRow)) (equipment_id : option string)
    (r : AnomalyResult) :
  detect_anomalies s count query equipment_id = Ok r ->
  models_trained s = true
  /\ exists db_data equipment_data,
      _load_database_data s query = Some db_data
      /\ incl equipment_data (List.map anomaly_metrics db_data)
      /\ anomalies r = scan equipment_data
      /\ active_rentals (summary r) = len equipment_data.
Proof.
  unfold detect_anomalies.
  destruct (models_trained s); cbn [negb]; [|discriminate].
  destruct (_load_database_data s query) as [db_data|]; [|discriminate].
  destruct (len db_data =? 0)%Z; [discriminate|].
  set (selected := if truthy equipment_id
                   then List.filter
                          (fun r => String.eqb (Equipment_ID r)
                                               (text_of equipment_id))
                          db_data
                   else db_data).
  assert (incl selected db_data) as Hincl.
  { subst selected. destruct (truthy equipment_id); [|apply incl_refl].
    apply incl_filter. }
  destruct (truthy equipment_id && (len selected =? 0)%Z); [discriminate|].
  destruct (len (dropna anomaly_features (List.map anomaly_metrics selected))
            =? 0)%Z; [discriminate|].
  intros [= <-]. split; [reflexivity|].
  exists db_data, (List.map anomaly_metrics selected). cbn.
  repeat split; try reflexivity.
  intros x Hx. apply in_map_iff in Hx as (y & <- & Hy).
  apply in_map. apply Hincl. exact Hy.
Qed.

(** C10.  Every record returned by [detect_anomalies] has the severity
    ["high"] exactly when its idle hours exceed 6 or its engine hours are 0
    with positive idle hours, and the severity ["medium"] otherwise,
    whichever alert type it reports. *)
Theorem severity_high_iff_idle_or_no_usage (s : SmartMLSystem)
    (count : option Z) (query : option (list RawRow))
    (equipment_id : option string) (r : AnomalyResult) (a : AnomalyRecord) :
  detect_anomalies s count query equipment_id = Ok r ->
  In a (anomalies r) ->
  let high :=
    (a_idle_hours a >? Num 6)%fl = true
    \/ ((a_engine_hours a =? Num 0)%fl = true
        /\ (a_idle_hours a >? Num 0)%fl = true) in
  (severity a = "high"%string <-> high)
  /\ (~ high -> severity a = "medium"%string).
Proof.
  intros Hok Hin.
  apply detect_anomalies_Ok in Hok as (_ & db & eqd & _ & _ & Hscan & _).
  rewrite Hscan in Hin. apply scan_In in Hin as (row & _ & Hrow).
  apply scan_row_Some in Hrow as (_ & -> & -> & _ & _ & ->).
  unfold severity_of. cbv zeta.
  destruct (Idle_Hours_Day row >? Num 6)%fl,
           (Engine_Hours_Day row =? Num 0)%fl,
           (Idle_Hours_Day row >? Num 0)%fl; cbn;
    (split; [split|]); intros; try reflexivity; try discriminate; auto;
    try (exfalso; intuition congruence).
Qed.

End AnomalyProperties.

(** ** The scan of a live snapshot *)

Lemma fillna_num_notna (v : Q) (x : fl) : isna (fillna (Num v) x) = false.
Proof. destruct x; reflexivity. Qed.

Lemma dropna_anomaly_metrics (frame : Frame) :
  dropna anomaly_features (List.map anomaly_metrics frame)
  = List.map anomaly_metrics frame.
Proof.
  induction frame as [|row rest IH]; [reflexivity|].
  cbn [List.map dropna List.filter]. fold (dropna anomaly_features).
  assert (List.forallb (fun x => negb (isna x))
            (select anomaly_features (anomaly_metrics row)) = true) as ->.
  { cbn. unfold anomaly_utilization_ratio, anomaly_efficiency_score.
    rewrite !fillna_num_notna. reflexivity. }
  unfold dropna in IH |- *. rewrite IH. reflexivity.
Qed.

Lemma scan_row_alert (row : Row) :
  option_map alert_pair (scan_row (anomaly_metrics row))
  = alert_of_hours (Engine_Hours_Day row) (Idle_Hours_Day row).
Proof.
  unfold scan_row, alert_of_hours. cbn [utilization_ratio Idle_Hours_Day
    Engine_Hours_Day anomaly_metrics].
  destruct (apply_rules _ _ _) as [[|primary types] sev]; reflexivity.
Qed.

Lemma alerts_of_scan (frame : Frame) :
  List.map alert_pair (scan (List.map anomaly_metrics frame))
  = omap (fun row => alert_of_hours (Engine_Hours_Day row)
                       (Idle_Hours_Day row)) frame.
Proof.
  induction frame as [|row rest IH]; [reflexivity|].
  cbn [List.map scan omap list_omap]. rewrite <- scan_row_alert.
  destruct (scan_row (anomaly_metrics row)); cbn; rewrite IH; reflexivity.
Qed.

Lemma omap_map_indexed {A B C : Type} (F : nat * A -> B) (g : B -> option C)
    (h : A -> option C) (l : list A) (k : nat) :
  (forall i a, g (F (i, a)) = h a) ->
  omap g (List.map F (List.combine (seq k (length l)) l)) = omap h l.
Proof.
  intros HF. revert k. induction l as [|a rest IH]; intros k; [reflexivity|].
  cbn. rewrite HF, IH. reflexivity.
Qed.

Lemma length_map_indexed {A B : Type} (F : nat * A -> B) (l : list A)
    (k : nat) :
  length (List.map F (List.combine (seq k (length l)) l)) = length l.
Proof.
  rewrite length_map, length_combine, length_seq. apply Nat.min_id.
Qed.

Lemma len_pos_not_nil {A : Type} (l : list A) :
  l <> [] -> (0 <? len l)%Z = true /\ (len l =? 0)%Z = false.
Proof.
  intros H. destruct l as [|a rest]; [congruence|].
  unfold len. cbn [length]. split; [apply Z.ltb_lt | apply Z.eqb_neq]; lia.
Qed.

Section LiveScan.

Context {SK : Sklearn}.

(** A trained system scanning a non-empty live snapshot reports, in the
    order of the snapshot, the alert of every row that has one; the rows
    enter with their null hours replaced by 0. *)
Lemma detect_anomalies_live (s : SmartMLSystem) (count : option Z)
    (rows : list RawRow) :
  models_trained s = true ->
  rows <> [] ->
  exists r,
    detect_anomalies s count (Some rows) None = Ok r
    /\ List.map alert_pair (anomalies r)
       = omap (fun row =>
                 alert_of_hours (fillna (Num 0.0) (raw_Engine_Hours_Day row))
                                (fillna (Num 0.0) (raw_Idle_Hours_Day row)))
              rows
    /\ active_rentals (summary r) = len rows.
Proof.
  intros Ht Hne.
  unfold detect_anomalies. rewrite Ht. cbn [negb].
  unfold _load_database_data.
  destruct (len_pos_not_nil rows Hne) as [-> _].
  set (frame := _add_calculated_columns_to_db_data _ _ _).
  assert (length frame = length rows) as Hlen.
  { subst frame. unfold _add_calculated_columns_to_db_data.
    rewrite length_map_indexed, length_map. reflexivity. }
  assert (frame <> []) as Hfne.
  { intros E. rewrite E in Hlen. destruct rows; [congruence | discriminate]. }
  destruct (len_pos_not_nil frame Hfne) as [_ ->].
  cbn [truthy andb].
  rewrite dropna_anomaly_metrics.
  assert (List.map anomaly_metrics frame <> []) as Hmne.
  { intros E. apply Hfne. destruct frame; [reflexivity | discriminate]. }
  destruct (len_pos_not_nil _ Hmne) as [_ ->].
  eexists. split; [reflexivity|]. cbn [anomalies summary active_rentals].
  split.
  - rewrite alerts_of_scan. subst frame.
    unfold _add_calculated_columns_to_db_data.
    rewrite (omap_map_indexed _ _
               (fun b => alert_of_hours (b_Engine_Hours_Day b)
                                        (b_Idle_Hours_Day b)));
      [|intros i a; reflexivity].
    clear. induction rows as [|row rest IH]; [reflexivity|].
    cbn. rewrite IH. reflexivity.
  - unfold len. rewrite length_map, Hlen. reflexivity.
Qed.

End LiveScan.

(** ** The alert type *)

(** The alert of an equipment with no engine hour and 5 idle hours. *)
Example alert_of_no_engine_hours :
  alert_of_hours (Num 0) (Num 5) = Some ("low_utilization", "high")%string.
Proof. reflexivity. Qed.

(** An equipment with 8 idle hours: the alert is [high_idle_time] unless
    its utilization is below 0.35, and the severity is high. *)
Lemma alert_of_eight_idle_hours (e : Q) :
  0 <= e ->
  alert_of_hours (Num e) (Num 8)
  = Some ((if Qltb (e / (e + 8)) 0.35
           then "low_utilization" else "high_idle_time")%string,
          "high"%string).
Proof.
  intros He. unfold alert_of_hours.
  rewrite anomaly_utilization_ratio_nonzero by lra.
  unfold apply_rules. cbn [fillna isna Float.ltb Float.gtb Float.eqb].
  assert (Qltb 6 8 = true) as -> by reflexivity.
  destruct (Qltb (e / (e + 8)) 0.35), (Qeq_bool e 0 && Qltb 0 8);
    reflexivity.
Qed.

(** With finite hours the type [no_usage] is never the reported one: no
    engine hour and some idle hours make the utilization 0, which the
    first rule takes. *)
Lemma no_usage_is_never_first (e i : Q) (sev : string) :
  alert_of_hours (Num e) (Num i) <> Some ("no_usage"%string, sev).
Proof.
  unfold alert_of_hours, apply_rules.
  cbn [fillna isna Float.ltb Float.gtb Float.eqb].
  destruct (anomaly_utilization_ratio (Num e) (Num i) <? Num 0.35)%fl eqn:E1;
    [destruct (Qltb 6 i), (Qeq_bool e 0 && Qltb 0 i); discriminate|].
  destruct (Qltb 6 i); [destruct (Qeq_bool e 0 && Qltb 0 i); discriminate|].
  destruct (Qeq_bool e 0) eqn:E3; [|discriminate].
  destruct (Qltb 0 i) eqn:E4; [|discriminate].
  exfalso. apply Qeq_bool_eq in E3. apply Qltb_lt in E4.
  rewrite anomaly_utilization_ratio_nonzero in E1 by lra.
  cbn [Float.ltb] in E1. apply Qltb_ge in E1.
  assert (e / (e + i) == 0) as Hz by (rewrite E3; field; lra).
  rewrite Hz in E1. revert E1. apply Qlt_not_le. reflexivity.
Qed.

Section AlertType.

Context {SK : Sklearn}.

(** The scan keeps, in their order, the records that one of the rules
    matches, and reports the identifier and the metrics of each. *)
Lemma scan_keeps_matching (frame : Frame) :
  Forall2 (fun a row =>
             a_equipment_id a = Equipment_ID row
             /\ a_utilization a = utilization_ratio row
             /\ a_idle_hours a = Idle_Hours_Day row
             /\ a_engine_hours a = Engine_Hours_Day row)
    (scan frame) (List.filter matches_a_rule frame).
Proof.
  induction frame as [|row rest IH]; [constructor|].
  cbn [scan List.filter]. unfold matches_a_rule at 1.
  destruct (scan_row row) as [a|] eqn:E.
  - apply scan_row_Some in E as (Hu & Hi & He & Hid & Hrule & _).
    rewrite <- Hrule. constructor; [|exact IH]. auto.
  - apply scan_row_None in E. rewrite E. exact IH.
Qed.

(** The anomalies of a report are the scan of the scanned records. *)
Lemma detect_anomalies_scanned (s : SmartMLSystem) (count : option Z)
    (query : option (list RawRow)) (equipment_id : option string)
    (r : AnomalyResult) :
  detect_anomalies s count query equipment_id = Ok r ->
  exists db_data,
    _load_database_data s query = Some db_data
    /\ anomalies r = scan (scanned_records db_data equipment_id).
Proof.
  unfold detect_anomalies, scanned_records.
  destruct (models_trained s); cbn [negb]; [|discriminate].
  destruct (_load_database_data s query) as [db_data|]; [|discriminate].
  destruct (len db_data =? 0)%Z; [discriminate|].
  destruct (truthy equipment_id && _); [discriminate|].
  destruct (len (dropna anomaly_features _) =? 0)%Z; [discriminate|].
  intros [= <-]. exists db_data. split; reflexivity.
Qed.

(** C1 (as amended).  For every record returned by [detect_anomalies] the
    reported alert type is the first rule, in the order low utilization,
    high idle time, no usage, that the reported metrics satisfy, and a
    scanned record is left out exactly when it satisfies none: the
    anomalies of a report are, in their order and one for one, the scanned
    records that some rule matches, each with the identifier and the
    metrics of its record.  On the three-equipment snapshot a trained
    system returns three anomalies: [low_utilization]/high for the
    equipment with no engine hour and 5 idle hours (its utilization is 0,
    so the first rule applies before the third), [high_idle_time]/high for
    the one with 8 idle hours unless its utilization is below 0.35, and
    [low_utilization]/medium for the one with utilization 0.2 and 2 idle
    hours. *)
Theorem alert_type_is_first_matching_rule :
  (forall (s : SmartMLSystem) (count : option Z)
          (query : option (list RawRow)) (equipment_id : option string)
          (r : AnomalyResult) (a : AnomalyRecord),
      detect_anomalies s count query equipment_id = Ok r ->
      In a (anomalies r) ->
      first_matching_rule (a_utilization a) (a_idle_hours a)
        (a_engine_hours a) = Some (alert_type a))
  /\ (forall (s : SmartMLSystem) (count : option Z)
             (query : option (list RawRow)) (equipment_id : option string)
             (r : AnomalyResult),
         detect_anomalies s count query equipment_id = Ok r ->
         exists db_data,
           _load_database_data s query = Some db_data
           /\ Forall2 (fun a row =>
                         a_equipment_id a = Equipment_ID row
                         /\ a_utilization a = utilization_ratio row
                         /\ a_idle_hours a = Idle_Hours_Day row
                         /\ a_engine_hours a = Engine_Hours_Day row)
                (anomalies r)
                (List.filter matches_a_rule
                   (scanned_records db_data equipment_id)))
  /\ (forall (s : SmartMLSystem) (count : option Z) (engine2 : Q),
         models_trained s = true ->
         0 <= engine2 ->
         exists r,
           detect_anomalies s count (Some (scenario_snapshot engine2)) None
           = Ok r
           /\ List.map alert_pair (anomalies r)
              = [ ("low_utilization", "high");
                  (if Qltb (engine2 / (engine2 + 8)) 0.35
                   then "low_utilization" else "high_idle_time", "high");
                  ("low_utilization", "medium") ]%string).
Proof.
  split; [|split].
  - intros s count query equipment_id r a Hok Hin.
    apply detect_anomalies_Ok in Hok as (_ & db & eqd & _ & _ & Hscan & _).
    rewrite Hscan in Hin. apply scan_In in Hin as (row & _ & Hrow).
    apply scan_row_Some in Hrow as (-> & -> & -> & _ & <- & _).
    reflexivity.
  - intros s count query equipment_id r Hok.
    apply detect_anomalies_scanned in Hok as (db_data & Hdb & ->).
    exists db_data. split; [exact Hdb|]. apply scan_keeps_matching.
  - intros s count engine2 Ht He.
    destruct (detect_anomalies_live s count (scenario_snapshot engine2) Ht)
      as (r & Hr & Halerts & _); [discriminate|].
    exists r. split; [exact Hr|]. rewrite Halerts.
    unfold scenario_snapshot, live_row.
    cbn [omap list_omap raw_Engine_Hours_Day raw_Idle_Hours_Day fillna isna].
    rewrite alert_of_no_engine_hours, (alert_of_eight_idle_hours _ He).
    reflexivity.
Qed.

End AlertType.

Lemma alert_type_is_first_matching_rule_witness :
  exists r,
    detect_anomalies (SK := column_sklearn) trained_system None
      (Some (scenario_snapshot 8)) None = Ok r
    /\ List.map alert_pair (anomalies r)
       = [ ("low_utilization", "high"); ("high_idle_time", "high");
           ("low_utilization", "medium") ]%string
    /\ forall a, In a (anomalies r) ->
         first_matching_rule (a_utilization a) (a_idle_hours a)
           (a_engine_hours a) = Some (alert_type a).
Proof.
  assert (models_trained trained_system = true) as Ht by reflexivity.
  assert (0 <= 8) as He by (apply Qle_bool_imp_le; reflexivity).
  destruct (proj2 (proj2 (alert_type_is_first_matching_rule
                            (SK := column_sklearn)))
              trained_system None 8 Ht He) as (r & Hr & Ha).
  exists r. split; [exact Hr|]. split; [exact Ha|].
  intros a Hin.
  exact (proj1 (alert_type_is_first_matching_rule (SK := column_sklearn))
           trained_system None (Some (scenario_snapshot 8)) None r a Hr Hin).
Defined.

(** C1, counterexample to the scenario: for the equipment with no engine
    hour and 5 idle hours the scan reports [low_utilization], not
    [no_usage]. *)
Lemma scenario_first_alert_is_low_utilization :
  List.map alert_pair
    (result_anomalies
       (detect_anomalies (SK := column_sklearn) trained_system None
          (Some (scenario_snapshot 8)) None))
  = [ ("low_utilization", "high"); ("high_idle_time", "high");
      ("low_utilization", "medium") ]%string
  /\ List.map alert_type
       (result_anomalies
          (detect_anomalies (SK := column_sklearn) trained_system None
             (Some (scenario_snapshot 8)) None))
     <> [ "no_usage"; "high_idle_time"; "low_utilization" ]%string.
Proof.
  split; [vm_compute; reflexivity|].
  vm_compute. intros H. discriminate H.
Qed.

Lemma severity_high_iff_idle_or_no_usage_witness :
  exists r a,
    detect_anomalies (SK := column_sklearn) trained_system None
      (Some (scenario_snapshot 8)) None = Ok r
    /\ In a (anomalies r)
    /\ (severity a = "high"%string
        <-> ((a_idle_hours a >? Num 6)%fl = true
             \/ ((a_engine_hours a =? Num 0)%fl = true
                 /\ (a_idle_hours a >? Num 0)%fl = true))).
Proof.
  assert (exists r,
             detect_anomalies (SK := column_sklearn) trained_system None
               (Some (scenario_snapshot 8)) None = Ok r
             /\ exists a, hd_error (anomalies r) = Some a) as (r & Hr & a & Ha).
  { vm_compute. eexists. split; [reflexivity|]. eexists. reflexivity. }
  assert (In a (anomalies r)) as Hin.
  { destruct (anomalies r) as [|a' rest]; [discriminate|].
    injection Ha as ->. left. reflexivity. }
  exists r, a. split; [exact Hr|]. split; [exact Hin|].
  exact (proj1 (severity_high_iff_idle_or_no_usage (SK := column_sklearn)
                  trained_system None (Some (scenario_snapshot 8)) None r a
                  Hr Hin)).
Defined.

(** ** Training and the trained flag *)

Section Training.

Context {SK : Sklearn}.

Lemma forecast_demand_untrained (s : SmartMLSystem)
    (query : option (list RawRow)) (now : Z)
    (equipment_type site_id : option string) (days_ahead : Z) :
  models_trained s = false ->
  forecast_demand s query now equipment_type site_id days_ahead
  = Err Models_not_trained.
Proof. intros H. unfold forecast_demand. rewrite H. reflexivity. Qed.

Lemma detect_anomalies_untrained (s : SmartMLSystem) (count : option Z)
    (query : option (list RawRow)) (equipment_id : option string) :
  models_trained s = false ->
  detect_anomalies s count query equipment_id = Err Models_not_trained.
Proof. intros H. unfold detect_anomalies. rewrite H. reflexivity. Qed.

Lemma forecast_demand_trained_error (s : SmartMLSystem)
    (query : option (list RawRow)) (now : Z)
    (equipment_type site_id : option string) (days_ahead : Z) (e : error) :
  models_trained s = true ->
  forecast_demand s query now equipment_type site_id days_ahead = Err e ->
  e <> Models_not_trained.
Proof.
  intros Ht. unfold forecast_demand. rewrite Ht. cbn [negb].
  destruct (forecast_source s query) as [source|];
    [|intros [= <-]; discriminate].
  destruct (len _ =? 0)%Z; [intros [= <-]; discriminate|].
  destruct (forecast_points _ _ _ _ _) as [e'|ps];
    [intros [= <-]; discriminate|].
  destruct (_calculate_demand_trend ps) as [tr st].
  destruct (days_ahead =? 0)%Z; [intros [= <-]; discriminate|].
  destruct ps; [intros [= <-]; discriminate | discriminate].
Qed.

Lemma detect_anomalies_trained_error (s : SmartMLSystem) (count : option Z)
    (query : option (list RawRow)) (equipment_id : option string)
    (e : error) :
  models_trained s = true ->
  detect_anomalies s count query equipment_id = Err e ->
  e <> Models_not_trained.
Proof.
  intros Ht. unfold detect_anomalies. rewrite Ht. cbn [negb].
  destruct (_load_database_data s query) as [db_data|];
    [|intros [= <-]; discriminate].
  destruct (len db_data =? 0)%Z; [intros [= <-]; discriminate|].
  destruct (truthy equipment_id && _); [intros [= <-]; discriminate|].
  destruct (len _ =? 0)%Z; [intros [= <-]; discriminate | discriminate].
Qed.

Lemma _train_models_skipped (s : SmartMLSystem) (frame : Frame) :
  data s = Some frame ->
  (len frame < 50 \/ len (dropna feature_columns frame) < 30)%Z ->
  _train_models s = s.
Proof.
  intros Hd Hsmall. unfold _train_models. rewrite Hd.
  destruct (len frame <? 50)%Z eqn:E1; [reflexivity|].
  destruct (len (dropna feature_columns frame) <? 30)%Z eqn:E2;
    [reflexivity|].
  apply Z.ltb_ge in E1, E2. lia.
Qed.

Lemma _train_models_raised (s s1 : SmartMLSystem) (frame : Frame) :
  data s = Some frame ->
  (50 <= len frame)%Z ->
  (30 <= len (dropna feature_columns frame))%Z ->
  train_models_body s (dropna feature_columns frame) = inl s1 ->
  _train_models s = set_models_trained false s1.
Proof.
  intros Hd H50 H30 Hbody. unfold _train_models. rewrite Hd.
  apply Z.ltb_ge in H50, H30. rewrite H50, H30, Hbody. reflexivity.
Qed.




(** C5 (as amended).  A reload whose constructor raises leaves the
    installed system in place, unchanged, to serve the later requests.
    The failures that the constructor catches do not: every instance it
    returns is installed; it returns a fresh, untrained instance when the
    CSV file cannot be read; and when a call inside the [try] block of
    [_train_models] raises, the trained flag of the system being trained
    is cleared, after which [forecast_demand] and [detect_anomalies]
    return ["Models not trained"]. *)
Theorem reload_keeps_system_iff_constructor_raises :
  (forall (g : Service) (w : World) (current_time : Z),
      __init__ w = None ->
      ml_system (on_database_change g w current_time) = ml_system g)
  /\ (forall (g : Service) (w : World) (current_time : Z)
             (s' : SmartMLSystem),
         is_reloading g = false ->
         __init__ w = Some s' ->
         ml_system (on_database_change g w current_time) = Some s')
  /\ (forall w : World,
         csv w = None ->
         __init__ w = Some fresh_system
         /\ models_trained fresh_system = false)
  /\ (forall (s s1 : SmartMLSystem) (frame : Frame),
         data s = Some frame ->
         (50 <= len frame)%Z ->
         (30 <= len (dropna feature_columns frame))%Z ->
         train_models_body s (dropna feature_columns frame) = inl s1 ->
         models_trained (_train_models s) = false
         /\ (forall query now equipment_type site_id days_ahead,
                forecast_demand (_train_models s) query now equipment_type
                  site_id days_ahead = Err Models_not_trained)
         /\ (forall count query equipment_id,
                detect_anomalies (_train_models s) count query equipment_id
                = Err Models_not_trained)).
Proof.
  split; [|split; [|split]].
  - intros g w t Hinit. unfold on_database_change. rewrite Hinit.
    destruct (is_reloading g); reflexivity.
  - intros g w t s' Hre Hinit. unfold on_database_change.
    rewrite Hre, Hinit. reflexivity.
  - intros w Hcsv. unfold __init__. rewrite Hcsv. split; reflexivity.
  - intros s s1 frame Hd H50 H30 Hbody.
    rewrite (_train_models_raised s s1 frame Hd H50 H30 Hbody).
    split; [reflexivity|]. split.
    + intros. apply forecast_demand_untrained. reflexivity.
    + intros. apply detect_anomalies_untrained. reflexivity.
Qed.

End Training.



(** The scenario of a training set of 20 rows: the constructor returns an
    untrained instance whose forecast is the error result. *)
Example constructor_on_twenty_rows :
  option_map
    (fun s => (models_trained s,
               forecast_demand s None 0 (Some "Crane"%string) None 30))
    (__init__ (SK := column_sklearn) (csv_world 20))
  = Some (false, Err Models_not_trained).
Proof. vm_compute. reflexivity. Qed.

Lemma reload_keeps_system_iff_constructor_raises_witness :
  __init__ (SK := picky_sklearn) bad_date_world = None
  /\ ml_system (on_database_change started_service bad_date_world 1)
     = ml_system started_service
  /\ system_trained (ml_system started_service) = true.
Proof.
  assert (__init__ (SK := picky_sklearn) bad_date_world = None) as Hinit
    by reflexivity.
  split; [exact Hinit|]. split; [|vm_compute; reflexivity].
  exact (proj1 (reload_keeps_system_iff_constructor_raises
                  (SK := picky_sklearn))
           started_service bad_date_world 1%Z Hinit).
Defined.

(** C5, counterexample.  The service was started on 50 rentals
    and trained.  A reload during which [fit] raises installs the new,
    untrained instance, and so does a reload during which the CSV file
    cannot be read: the forecast that was served before is then answered
    by ["Models not trained"]. *)
Lemma failed_reload_replaces_trained_system :
  system_trained (ml_system started_service) = true
  /\ option_map is_ok
       (served_forecast started_service (Some "Crane"%string) None 7)
     = Some true
  /\ system_trained
       (ml_system (on_database_change started_service (busy_day_world 50) 1))
     = false
  /\ served_forecast
       (on_database_change started_service (busy_day_world 50) 1)
       (Some "Crane"%string) None 7
     = Some (Err Models_not_trained)
  /\ ml_system (on_database_change started_service (busy_day_world 50) 1)
     <> ml_system started_service
  /\ served_forecast
       (on_database_change started_service unreadable_world 1)
       (Some "Crane"%string) None 7
     = Some (Err Models_not_trained).
Proof.
  assert (system_trained
            (ml_system
               (on_database_change started_service (busy_day_world 50) 1))
          = false) as Hnew by (vm_compute; reflexivity).
  assert (system_trained (ml_system started_service) = true) as Hold
    by (vm_compute; reflexivity).
  repeat split; try (vm_compute; reflexivity).
  intros E. rewrite E in Hnew. congruence.
Qed.

(** ** What a successful forecast is made of *)

Section ForecastStructure.

Context {SK : Sklearn}.

Lemma forecast_point_inr (s : SmartMLSystem)
    (equipment_type site_id : option string) (filtered_data : Frame)
    (d : date_value) (p : ForecastPoint) :
  forecast_point s equipment_type site_id filtered_data d = inr p ->
  (exists n, d = PdTimestamp n)
  /\ fp_date p = ordinal_of d
  /\ (exists raw,
         predicted_demand p
         = py_round
             (py_max (of_Z 0)
                (_apply_realistic_constraints raw d filtered_data
                   equipment_type site_id)) 1)
  /\ confidence p
     = py_round
         (_calculate_forecast_confidence filtered_data equipment_type
            site_id d) 2.
Proof.
  unfold forecast_point.
  destruct (_prepare_forecast_features s equipment_type site_id d
              filtered_data) as [e|features] eqn:Ef; [discriminate|].
  destruct (predict_demand s equipment_type site_id features)
    as [e|raw]; [discriminate|].
  intros [= <-]. cbn. split.
  - unfold _prepare_forecast_features in Ef.
    destruct (if truthy equipment_type then _ else _); [discriminate|].
    destruct (if truthy site_id then _ else _); [discriminate|].
    destruct d as [n|n]; [exists n; reflexivity | discriminate].
  - split; [reflexivity|]. split; [exists raw; reflexivity | reflexivity].
Qed.

Lemma forecast_points_inr (s : SmartMLSystem)
    (equipment_type site_id : option string) (filtered_data : Frame)
    (dates : list date_value) (ps : list ForecastPoint) :
  forecast_points s equipment_type site_id filtered_data dates = inr ps ->
  Forall2
    (fun d p =>
       forecast_point s equipment_type site_id filtered_data d = inr p)
    dates ps.
Proof.
  revert ps. induction dates as [|d rest IH]; intros ps; cbn.
  - intros [= <-]. constructor.
  - destruct (forecast_point s equipment_type site_id filtered_data d)
      as [e|p] eqn:Ep; [discriminate|].
    destruct (forecast_points s equipment_type site_id filtered_data rest)
      as [e|ps']; [discriminate|].
    intros [= <-]. constructor; [exact Ep | apply IH; reflexivity].
Qed.

Lemma forecast_demand_Ok (s : SmartMLSystem) (query : option (list RawRow))
    (now : Z) (equipment_type site_id : option string) (days_ahead : Z)
    (r : ForecastResult) :
  forecast_demand s query now equipment_type site_id days_ahead = Ok r ->
  models_trained s = true
  /\ exists source,
      forecast_source s query = Some source
      /\ filter_forecast_data source equipment_type site_id <> []
      /\ forecast_points s equipment_type site_id
           (filter_forecast_data source equipment_type site_id)
           (future_dates_of
              (last_date_of
                 (filter_forecast_data source equipment_type site_id) now)
              days_ahead)
         = inr (forecasts r)
      /\ forecast_days r = days_ahead.
Proof.
  unfold forecast_demand.
  destruct (models_trained s); cbn [negb]; [|discriminate].
  destruct (forecast_source s query) as [source|]; [|discriminate].
  set (fd := filter_forecast_data source equipment_type site_id).
  destruct (len fd =? 0)%Z eqn:El; [discriminate|].
  destruct (forecast_points s equipment_type site_id fd _)
    as [e|ps] eqn:Eps; [discriminate|].
  destruct (_calculate_demand_trend ps) as [trend strength].
  destruct (days_ahead =? 0)%Z; [discriminate|].
  destruct ps as [|p ps']; [discriminate|].
  intros [= <-]. split; [reflexivity|]. exists source. cbn.
  repeat split; try reflexivity.
  - intros E. unfold fd in El. rewrite E in El. discriminate El.
  - exact Eps.
Qed.

Lemma forecast_demand_point (s : SmartMLSystem)
    (query : option (list RawRow)) (now : Z)
    (equipment_type site_id : option string) (days_ahead : Z)
    (r : ForecastResult) (p : ForecastPoint) :
  forecast_demand s query now equipment_type site_id days_ahead = Ok r ->
  In p (forecasts r) ->
  exists source d,
    forecast_source s query = Some source
    /\ filter_forecast_data source equipment_type site_id <> []
    /\ forecast_point s equipment_type site_id
         (filter_forecast_data source equipment_type site_id) d = inr p.
Proof.
  intros Hok Hin.
  apply forecast_demand_Ok in Hok as (_ & source & Hsrc & Hne & Hps & _).
  apply forecast_points_inr in Hps.
  exists source.
  remember (future_dates_of _ _) as dates eqn:Hd. clear Hd.
  induction Hps as [|d p' dates ps Hd Hrest IH]; [contradiction|].
  destruct Hin as [<- | Hin].
  - exists d. auto.
  - apply IH. exact Hin.
Qed.

End ForecastStructure.

(** ** Clamping and rounding *)

Lemma py_max_num (a b : Q) :
  exists c, py_max (Num a) (Num b) = Num c /\ a <= c /\ b <= c
            /\ (c == a \/ c == b).
Proof.
  unfold py_max, Float.gtb. cbn [Float.ltb].
  destruct (Qltb a b) eqn:E.
  - apply Qltb_lt in E. exists b. repeat split; lra.
  - apply Qltb_ge in E. exists a. repeat split; lra.
Qed.

Lemma py_min_num (a b : Q) :
  exists c, py_min (Num a) (Num b) = Num c /\ c <= a /\ c <= b
            /\ (c == a \/ c == b).
Proof.
  unfold py_min. cbn [Float.ltb].
  destruct (Qltb b a) eqn:E.
  - apply Qltb_lt in E. exists b. repeat split; lra.
  - apply Qltb_ge in E. exists a. repeat split; lra.
Qed.

(** [max(lo, min(hi, x))] and [min(hi, max(lo, x))] on a finite [x]. *)
Lemma clamp_min_max (lo hi x : Q) :
  lo <= hi -> in_range (py_min (Num hi) (py_max (Num lo) (Num x))) lo hi.
Proof.
  intros Hlh.
  destruct (py_max_num lo x) as (c & -> & Hc1 & Hc2 & Hc).
  destruct (py_min_num hi c) as (d & -> & Hd1 & Hd2 & Hd).
  cbn. destruct Hd as [Hd | Hd]; lra.
Qed.

(** [min(hi, x)] for any float [x], NaN and the infinities included. *)
Lemma py_min_cap (hi : Q) (x : fl) :
  (exists c, py_min (Num hi) x = Num c /\ c <= hi
             /\ (forall q, x = Num q -> c <= q))
  \/ py_min (Num hi) x = NInf.
Proof.
  destruct x as [| | |q].
  - left. exists hi. cbn. repeat split; [lra | discriminate].
  - left. exists hi. cbn. repeat split; [lra | discriminate].
  - right. reflexivity.
  - left. destruct (py_min_num hi q) as (c & Hc & H1 & H2 & _).
    exists c. repeat split; try assumption. intros q' [= <-]. exact H2.
Qed.

Lemma clamp_max_min (lo hi : Q) (x : fl) :
  lo <= hi -> in_range (py_max (Num lo) (py_min (Num hi) x)) lo hi.
Proof.
  intros Hlh.
  destruct (py_min_cap hi x) as [(c & -> & Hc & _) | ->].
  - destruct (py_max_num lo c) as (d & -> & Hd1 & Hd2 & Hd).
    cbn. destruct Hd as [Hd | Hd]; lra.
  - cbn. lra.
Qed.

Lemma round_half_even_bounds (x : Q) (a b : Z) :
  inject_Z a <= x -> x <= inject_Z b ->
  (a <= round_half_even x <= b)%Z.
Proof.
  intros Ha Hb.
  assert (a <= Qfloor x)%Z as Hfa.
  { rewrite <- (Qfloor_Z a). apply Qfloor_resp_le. exact Ha. }
  assert (Qfloor x <= b)%Z as Hfb.
  { rewrite <- (Qfloor_Z b). apply Qfloor_resp_le. exact Hb. }
  pose proof (Qfloor_le x) as Hfl.
  assert (Qltb (x - inject_Z (Qfloor x)) (1 # 2) = false ->
          (Qfloor x + 1 <= b)%Z) as Hup.
  { intros E. apply Qltb_ge in E.
    assert (inject_Z (Qfloor x) < inject_Z b) as Hlt by lra.
    rewrite <- Zlt_Qlt in Hlt. lia. }
  unfold round_half_even.
  destruct (Qltb (x - inject_Z (Qfloor x)) (1 # 2)) eqn:E1; [lia|].
  specialize (Hup eq_refl).
  destruct (Qltb (1 # 2) (x - inject_Z (Qfloor x))); [lia|].
  destruct (Z.even (Qfloor x)); lia.
Qed.

(** Rounding to [ndigits] decimals keeps a number between two bounds that
    have at most [ndigits] decimals. *)
Lemma py_round_in_range (q : Q) (ndigits : nat) (a b : Z) :
  let scale := inject_Z (10 ^ Z.of_nat ndigits) in
  inject_Z a / scale <= q -> q <= inject_Z b / scale ->
  in_range (py_round (Num q) ndigits) (inject_Z a / scale)
           (inject_Z b / scale).
Proof.
  cbn zeta. cbn [py_round in_range].
  assert (0 < inject_Z (10 ^ Z.of_nat ndigits)) as Hs.
  { rewrite <- (Zlt_Qlt 0). apply Z.pow_pos_nonneg; lia. }
  revert Hs. generalize (inject_Z (10 ^ Z.of_nat ndigits)).
  intros scale Hs Ha Hb.
  assert (inject_Z a / scale * scale == inject_Z a) as Ea by (field; lra).
  assert (inject_Z b / scale * scale == inject_Z b) as Eb by (field; lra).
  assert (inject_Z a <= q * scale) as Ha'.
  { apply (Qmult_le_r _ _ scale Hs) in Ha. rewrite Ea in Ha. exact Ha. }
  assert (q * scale <= inject_Z b) as Hb'.
  { apply (Qmult_le_r _ _ scale Hs) in Hb. rewrite Eb in Hb. exact Hb. }
  destruct (round_half_even_bounds _ _ _ Ha' Hb') as [H1 H2].
  split.
  - apply Qle_shift_div_l; [exact Hs|]. rewrite Ea.
    rewrite <- Zle_Qle. exact H1.
  - apply Qle_shift_div_r; [exact Hs|]. rewrite Eb.
    rewrite <- Zle_Qle. exact H2.
Qed.

(** ** The confidence score *)

Lemma finite_mul (x y : fl) : finite x -> finite y -> finite (x * y)%fl.
Proof. intros [a ->] [b ->]. exists (a * b). reflexivity. Qed.

Lemma finite_num (q : Q) : finite (Num q).
Proof. exists q. reflexivity. Qed.

Lemma in_range_weaken (x : fl) (lo hi lo' hi' : Q) :
  in_range x lo hi -> lo' <= lo -> hi <= hi' -> in_range x lo' hi'.
Proof. destruct x; cbn; try contradiction. intros [H1 H2] H3 H4. lra. Qed.

Lemma data_factor_finite (n : Z) : finite (data_factor_of n).
Proof.
  unfold data_factor_of.
  destruct (100 <=? n)%Z, (50 <=? n)%Z, (20 <=? n)%Z; apply finite_num.
Qed.

Lemma site_factor_finite (fd : Frame) (site_id : option string) :
  finite (site_factor_of fd site_id).
Proof.
  unfold site_factor_of.
  case_ifs; apply finite_num.
Qed.

Lemma equipment_factor_finite (fd : Frame) (equipment_type : option string) :
  finite (equipment_factor_of fd equipment_type).
Proof.
  unfold equipment_factor_of.
  case_ifs; apply finite_num.
Qed.

(** The time factor is a finite number whatever the latest check-out day
    is, NaT included: [max(0.5, nan)] is 0.5. *)
Lemma time_factor_finite (fd : Frame) (d : date_value) :
  finite (py_max (Num 0.5)
            (Num 1.0 - days_from_last_of fd d * Num 0.01)%fl).
Proof.
  unfold days_from_last_of.
  destruct (dates_max (List.map Check_Out_Date fd)) as [last|].
  - cbn [of_Z Float.mul Float.sub Float.opp Float.add].
    destruct (py_max_num 0.5
                (1.0 + - (inject_Z (ordinal_of d - last) * 0.01)))
      as (c & -> & _).
    apply finite_num.
  - cbn. apply finite_num.
Qed.

Lemma confidence_clamped (fd : Frame) (equipment_type site_id : option string)
    (d : date_value) :
  in_range (_calculate_forecast_confidence fd equipment_type site_id d)
           0.3 0.95.
Proof.
  unfold _calculate_forecast_confidence.
  assert (finite
            (Num 0.7 * data_factor_of (len fd) * site_factor_of fd site_id
             * equipment_factor_of fd equipment_type
             * py_max (Num 0.5)
                 (Num 1.0 - days_from_last_of fd d * Num 0.01))%fl)
    as [c ->].
  { repeat apply finite_mul;
      auto using finite_num, data_factor_finite, site_factor_finite,
        equipment_factor_finite, time_factor_finite. }
  apply clamp_min_max. lra.
Qed.

Lemma confidence_rounded (x : fl) :
  in_range x 0.3 0.95 -> in_range (py_round x 2) 0.3 0.95.
Proof.
  destruct x as [| | |q]; try contradiction. intros [H1 H2].
  apply (in_range_weaken _ (inject_Z 30 / inject_Z (10 ^ Z.of_nat 2))
           (inject_Z 95 / inject_Z (10 ^ Z.of_nat 2))).
  - apply py_round_in_range.
    + apply (Qle_trans _ 0.3); [apply Qle_bool_imp_le; reflexivity|].
      exact H1.
    + apply (Qle_trans _ 0.95); [exact H2|].
      apply Qle_bool_imp_le. reflexivity.
  - apply Qle_bool_imp_le. reflexivity.
  - apply Qle_bool_imp_le. reflexivity.
Qed.

Section Confidence.

Context {SK : Sklearn}.

(** C9.  For every context frame (the empty one and one without any
    check-out day included), equipment type, site and future date, the
    confidence computed by [_calculate_forecast_confidence] lies in
    [[0.3, 0.95]], it still does after the rounding to two decimals, and
    so does the confidence of every point of a forecast. *)
Theorem confidence_in_range :
  (forall (filtered_data : Frame) (equipment_type site_id : option string)
          (future_date : date_value),
      in_range
        (_calculate_forecast_confidence filtered_data equipment_type site_id
           future_date) 0.3 0.95
      /\ in_range
           (py_round
              (_calculate_forecast_confidence filtered_data equipment_type
                 site_id future_date) 2) 0.3 0.95)
  /\ (forall (s : SmartMLSystem) (query : option (list RawRow)) (now : Z)
             (equipment_type site_id : option string) (days_ahead : Z)
             (r : ForecastResult) (p : ForecastPoint),
         forecast_demand s query now equipment_type site_id days_ahead
         = Ok r ->
         In p (forecasts r) ->
         in_range (confidence p) 0.3 0.95).
Proof.
  split.
  - intros fd equipment_type site_id d.
    pose proof (confidence_clamped fd equipment_type site_id d) as H.
    split; [exact H | apply confidence_rounded; exact H].
  - intros s query now equipment_type site_id days_ahead r p Hok Hin.
    destruct (forecast_demand_point _ _ _ _ _ _ _ _ Hok Hin)
      as (source & d & _ & _ & Hp).
    apply forecast_point_inr in Hp as (_ & _ & _ & ->).
    apply confidence_rounded, confidence_clamped.
Qed.

End Confidence.

Lemma confidence_in_range_witness :
  exists r p,
    forecast_demand (SK := column_sklearn) trained_system
      (Some (scenario_snapshot 8)) 738000 (Some "Excavator"%string) None 5
    = Ok r
    /\ In p (forecasts r)
    /\ in_range (confidence p) 0.3 0.95.
Proof.
  assert (exists r,
             forecast_demand (SK := column_sklearn) trained_system
               (Some (scenario_snapshot 8)) 738000
               (Some "Excavator"%string) None 5 = Ok r
             /\ exists p, hd_error (forecasts r) = Some p)
    as (r & Hr & p & Hp).
  { vm_compute. eexists. split; [reflexivity|]. eexists. reflexivity. }
  assert (In p (forecasts r)) as Hin.
  { destruct (forecasts r) as [|p' rest]; [discriminate|].
    injection Hp as ->. left. reflexivity. }
  exists r, p. split; [exact Hr|]. split; [exact Hin|].
  exact (proj2 (confidence_in_range (SK := column_sklearn))
           trained_system (Some (scenario_snapshot 8)) 738000%Z
           (Some "Excavator"%string) None 5%Z r p Hr Hin).
Defined.

(** The confidence with no context at all: 0.7 * 0.6 * 0.5 = 0.21 is
    raised to the floor 0.3. *)
Example confidence_of_empty_context :
  _calculate_forecast_confidence [] None None (PdTimestamp 738886)
  = Num 0.3.
Proof. reflexivity. Qed.

(** ** The constrained prediction *)

(** The cap: a positive number with at most one decimal, at most 20, at
    most 2 per record of the site and 1.5 per record of the type, for each
    of the two scopes that is given and has a record in the frame. *)
Lemma max_demand_of_spec (fd : Frame) (equipment_type site_id : option string) :
  exists c,
    max_demand_of fd equipment_type site_id = Num c
    /\ 0 < c /\ c <= 20
    /\ (exists k : Z, c == inject_Z k / inject_Z (10 ^ Z.of_nat 1))
    /\ (site_known site_id = true ->
        (0 < len (filter_User_ID (text_of site_id) fd))%Z ->
        c <= 2 * inject_Z (len (filter_User_ID (text_of site_id) fd)))
    /\ (truthy equipment_type = true ->
        (0 < len (filter_Type (text_of equipment_type) fd))%Z ->
        c <= 1.5 * inject_Z (len (filter_Type (text_of equipment_type) fd))).
Proof.
  unfold max_demand_of.
  set (cs := len (filter_User_ID (text_of site_id) fd)).
  set (ct := len (filter_Type (text_of equipment_type) fd)).
  assert (exists c1,
             (if site_known site_id
              then if (0 <? cs)%Z
                   then py_min (of_Z 20) (of_Z (cs * 2))
                   else of_Z 20
              else of_Z 20) = Num c1
             /\ 0 < c1 /\ c1 <= 20
             /\ (exists k : Z, c1 == inject_Z k / inject_Z (10 ^ Z.of_nat 1))
             /\ (site_known site_id = true -> (0 < cs)%Z ->
                 c1 <= 2 * inject_Z cs)) as (c1 & -> & Hp1 & Hle1 & Hk1 & Hs1).
  { assert (exists k : Z, 20 == inject_Z k / inject_Z (10 ^ Z.of_nat 1))
      as H20 by (exists 200%Z; reflexivity).
    destruct (site_known site_id).
    - destruct (0 <? cs)%Z eqn:E.
      + apply Z.ltb_lt in E. unfold of_Z.
        destruct (py_min_num (inject_Z 20) (inject_Z (cs * 2)))
          as (c & -> & Ha & Hb & Hc).
        assert (1 <= inject_Z cs) as Hcs
          by (rewrite <- (Zle_Qle 1); lia).
        assert (inject_Z (cs * 2) == 2 * inject_Z cs) as Hm
          by (rewrite inject_Z_mult; ring).
        exists c. split; [reflexivity|].
        assert (inject_Z 20 == 20) as H20' by reflexivity.
        split; [destruct Hc as [Hc | Hc]; rewrite Hc; lra|].
        split; [lra|]. split.
        * destruct Hc as [Hc | Hc].
          -- exists 200%Z. rewrite Hc. reflexivity.
          -- exists (cs * 20)%Z. rewrite Hc, Hm, inject_Z_mult.
             change (inject_Z (10 ^ Z.of_nat 1)) with (inject_Z 10).
             change (inject_Z 20) with 20. change (inject_Z 10) with 10.
             field.
        * intros _ _. lra.
      + exists 20. split; [reflexivity|]. split; [reflexivity|].
        split; [apply Qle_refl|]. split; [exact H20|].
        intros _ Hpos. apply Z.ltb_ge in E. lia.
    - exists 20. split; [reflexivity|]. split; [reflexivity|].
      split; [apply Qle_refl|]. split; [exact H20|].
      intros Hf. discriminate Hf. }
  destruct (truthy equipment_type).
  - destruct (0 <? ct)%Z eqn:E.
    + apply Z.ltb_lt in E. unfold of_Z. cbn [Float.mul].
      destruct (py_min_num c1 (inject_Z ct * 1.5))
        as (c & -> & Ha & Hb & Hc).
      assert (1 <= inject_Z ct) as Hct by (rewrite <- (Zle_Qle 1); lia).
      exists c. split; [reflexivity|].
      split; [destruct Hc as [Hc | Hc]; rewrite Hc; lra|].
      split; [lra|]. split; [|split].
      * destruct Hc as [Hc | Hc].
        -- destruct Hk1 as [k Hk]. exists k. rewrite Hc. exact Hk.
        -- exists (ct * 15)%Z. rewrite Hc, inject_Z_mult.
           change (inject_Z (10 ^ Z.of_nat 1)) with (inject_Z 10).
           change (inject_Z 15) with 15. change (inject_Z 10) with 10.
           field.
      * intros Hk Hpos. specialize (Hs1 Hk Hpos). lra.
      * intros _ _. lra.
    + exists c1. split; [reflexivity|]. split; [exact Hp1|].
      split; [exact Hle1|]. split; [exact Hk1|]. split; [exact Hs1|].
      intros _ Hpos. apply Z.ltb_ge in E. lia.
  - exists c1. split; [reflexivity|]. split; [exact Hp1|].
    split; [exact Hle1|]. split; [exact Hk1|]. split; [exact Hs1|].
    intros Hf. discriminate Hf.
Qed.

Lemma constrained_in_cap (raw : fl) (d : date_value) (fd : Frame)
    (equipment_type site_id : option string) (c : Q) :
  max_demand_of fd equipment_type site_id = Num c ->
  0 < c ->
  in_range (_apply_realistic_constraints raw d fd equipment_type site_id) 0 c.
Proof.
  intros Hc Hpos. unfold _apply_realistic_constraints. rewrite Hc.
  apply (clamp_max_min (inject_Z 0) c). apply Qlt_le_weak. exact Hpos.
Qed.

(** A frame filtered on a predicate is unchanged by the same filter. *)
Lemma filter_idempotent {A : Type} (f : A -> bool) (l : list A) :
  List.filter f (List.filter f l) = List.filter f l.
Proof.
  induction l as [|a rest IH]; [reflexivity|]. cbn.
  destruct (f a) eqn:E; cbn; [rewrite E, IH|]; auto.
Qed.

Lemma filter_commute {A : Type} (f g : A -> bool) (l : list A) :
  List.filter f (List.filter g l) = List.filter g (List.filter f l).
Proof.
  induction l as [|a rest IH]; [reflexivity|]. cbn.
  destruct (f a) eqn:Ef, (g a) eqn:Eg; cbn; rewrite ?Ef, ?Eg, IH; auto.
Qed.

(** In the frame that [forecast_demand] works on, every given scope has
    all the rows. *)
Lemma filter_forecast_data_scopes (source : Frame)
    (equipment_type site_id : option string) :
  let fd := filter_forecast_data source equipment_type site_id in
  (truthy equipment_type = true ->
   filter_Type (text_of equipment_type) fd = fd)
  /\ (site_known site_id = true ->
      filter_User_ID (text_of site_id) fd = fd).
Proof.
  unfold filter_forecast_data, filter_Type, filter_User_ID.
  destruct (truthy equipment_type), (site_known site_id); cbn zeta;
    split; intros H; try discriminate H.
  - rewrite filter_commute, filter_idempotent. reflexivity.
  - apply filter_idempotent.
  - apply filter_idempotent.
  - apply filter_idempotent.
Qed.

Lemma in_range_num (x : fl) (lo hi : Q) :
  in_range x lo hi -> exists q, x = Num q /\ lo <= q /\ q <= hi.
Proof.
  destruct x as [| | |q]; cbn; try contradiction.
  intros H. exists q. split; [reflexivity | exact H].
Qed.

(** The reported demand of a point: the constrained prediction, floored
    at 0 again and rounded to one decimal, stays under the cap. *)
Lemma reported_demand_in_cap (x : fl) (c : Q) (k : Z) :
  0 < c ->
  c == inject_Z k / inject_Z (10 ^ Z.of_nat 1) ->
  in_range x 0 c ->
  in_range (py_round (py_max (of_Z 0) x) 1) 0 c.
Proof.
  intros Hpos Hk Hx.
  apply in_range_num in Hx as (q & -> & Hq0 & Hqc).
  unfold of_Z. destruct (py_max_num (inject_Z 0) q) as (q1 & -> & H0 & _ & Hq1).
  assert (0 <= q1 /\ q1 <= c) as [Hlo Hhi].
  { change (inject_Z 0) with 0 in *. destruct Hq1 as [E | E]; rewrite E; lra. }
  apply (in_range_weaken _ (inject_Z 0 / inject_Z (10 ^ Z.of_nat 1))
           (inject_Z k / inject_Z (10 ^ Z.of_nat 1))).
  - apply py_round_in_range.
    + apply (Qle_trans _ 0); [apply Qle_bool_imp_le; reflexivity | exact Hlo].
    + rewrite <- Hk. exact Hhi.
  - apply Qle_bool_imp_le. reflexivity.
  - rewrite <- Hk. apply Qle_refl.
Qed.

Section Constraints.

Context {SK : Sklearn}.

(** C7.  For every raw prediction (NaN and the infinities included), date
    and context frame, the constrained prediction is a number that is at
    least 0 and at most 20, at most 1.5 times the count of the records of
    the equipment type when the type is given and has a record in the
    frame, and at most 2 times the count of the records of the site when
    the site is given, is not UNASSIGNED and has a record in the frame.
    The weekend factor 0.6 and the winter factor 0.8 multiply the raw
    prediction, and the result is then clamped between 0 and the cap,
    which does not depend on the date.  In a forecast the frame holds only
    records of the given type and site and is not empty, so every point
    obeys both caps. *)
Theorem constrained_prediction_bounds :
  (forall (raw : fl) (future_date : date_value) (filtered_data : Frame)
          (equipment_type site_id : option string),
      exists q,
        _apply_realistic_constraints raw future_date filtered_data
          equipment_type site_id = Num q
        /\ 0 <= q /\ q <= 20
        /\ (truthy equipment_type = true ->
            (0 < len (filter_Type (text_of equipment_type) filtered_data))%Z ->
            q <= 1.5 * inject_Z
                         (len (filter_Type (text_of equipment_type)
                                 filtered_data)))
        /\ (site_known site_id = true ->
            (0 < len (filter_User_ID (text_of site_id) filtered_data))%Z ->
            q <= 2 * inject_Z
                       (len (filter_User_ID (text_of site_id)
                               filtered_data))))
  /\ (forall (raw : fl) (future_date : date_value) (filtered_data : Frame)
             (equipment_type site_id : option string),
         let weekend := (5 <=? Calendar.weekday (ordinal_of future_date))%Z in
         let winter :=
           List.existsb (Z.eqb (Calendar.month (ordinal_of future_date)))
                        [12; 1; 2]%Z in
         let scaled :=
           match weekend, winter with
           | true, true => (raw * Num 0.6 * Num 0.8)%fl
           | true, false => (raw * Num 0.6)%fl
           | false, true => (raw * Num 0.8)%fl
           | false, false => raw
           end in
         _apply_realistic_constraints raw future_date filtered_data
           equipment_type site_id
         = py_max (of_Z 0)
             (py_min (max_demand_of filtered_data equipment_type site_id)
                     scaled))
  /\ (forall (s : SmartMLSystem) (query : option (list RawRow)) (now : Z)
             (equipment_type site_id : option string) (days_ahead : Z)
             (r : ForecastResult) (p : ForecastPoint),
         forecast_demand s query now equipment_type site_id days_ahead
         = Ok r ->
         In p (forecasts r) ->
         exists source q,
           forecast_source s query = Some source
           /\ predicted_demand p = Num q
           /\ 0 <= q /\ q <= 20
           /\ (truthy equipment_type = true ->
               q <= 1.5 * inject_Z
                            (len (filter_Type (text_of equipment_type)
                                    (filter_forecast_data source
                                       equipment_type site_id))))
           /\ (site_known site_id = true ->
               q <= 2 * inject_Z
                          (len (filter_User_ID (text_of site_id)
                                  (filter_forecast_data source
                                     equipment_type site_id))))).
Proof.
  split; [|split].
  - intros raw d fd equipment_type site_id.
    destruct (max_demand_of_spec fd equipment_type site_id)
      as (c & Hc & Hpos & H20 & _ & Hsite & Htype).
    pose proof (constrained_in_cap raw d fd equipment_type site_id c Hc Hpos)
      as Hr.
    apply in_range_num in Hr as (q & Hq & Hq0 & Hqc).
    exists q. split; [exact Hq|]. split; [exact Hq0|]. split; [lra|].
    split.
    + intros Hk Hn. specialize (Htype Hk Hn). lra.
    + intros Hk Hn. specialize (Hsite Hk Hn). lra.
  - intros raw d fd equipment_type site_id.
    unfold _apply_realistic_constraints, scale_demand. cbv zeta.
    destruct (5 <=? Calendar.weekday (ordinal_of d))%Z,
             (List.existsb (Z.eqb (Calendar.month (ordinal_of d)))
                           [12; 1; 2]%Z); reflexivity.
  - intros s query now equipment_type site_id days_ahead r p Hok Hin.
    destruct (forecast_demand_point _ _ _ _ _ _ _ _ Hok Hin)
      as (source & d & Hsrc & Hne & Hp).
    apply forecast_point_inr in Hp as (_ & _ & (raw & Hpd) & _).
    set (fd := filter_forecast_data source equipment_type site_id) in *.
    destruct (max_demand_of_spec fd equipment_type site_id)
      as (c & Hc & Hpos & H20 & (k & Hk) & Hsite & Htype).
    pose proof (constrained_in_cap raw d fd equipment_type site_id c Hc Hpos)
      as Hr.
    pose proof (reported_demand_in_cap _ c k Hpos Hk Hr) as Hrep.
    rewrite <- Hpd in Hrep.
    apply in_range_num in Hrep as (q & Hq & Hq0 & Hqc).
    destruct (filter_forecast_data_scopes source equipment_type site_id)
      as [Hft Hfs]. fold fd in Hft, Hfs.
    destruct (len_pos_not_nil fd Hne) as [Hlen _]. apply Z.ltb_lt in Hlen.
    exists source, q. split; [exact Hsrc|]. split; [exact Hq|].
    split; [exact Hq0|]. split; [lra|]. split.
    + intros Hk'. fold fd. rewrite (Hft Hk') in *.
      specialize (Htype Hk' Hlen). lra.
    + intros Hk'. fold fd. rewrite (Hfs Hk') in *.
      specialize (Hsite Hk' Hlen). lra.
Qed.

End Constraints.

Lemma constrained_prediction_bounds_witness :
  (exists q,
      _apply_realistic_constraints (Num 30) (PdTimestamp 738891)
        scenario_frame (Some "Excavator"%string) (Some "S1"%string) = Num q
      /\ 0 <= q /\ q <= 20
      /\ q <= 1.5 * inject_Z (len (filter_Type "Excavator" scenario_frame))
      /\ q <= 2 * inject_Z (len (filter_User_ID "S1" scenario_frame)))
  /\ (exists r p source q,
         forecast_demand (SK := column_sklearn) trained_system
           (Some (scenario_snapshot 8)) 738000 (Some "Excavator"%string)
           None 5 = Ok r
         /\ In p (forecasts r)
         /\ forecast_source trained_system (Some (scenario_snapshot 8))
            = Some source
         /\ predicted_demand p = Num q
         /\ 0 <= q /\ q <= 20).
Proof.
  pose proof (constrained_prediction_bounds (SK := column_sklearn))
    as (Hfun & _ & Hpoint).
  split.
  - destruct (Hfun (Num 30) (PdTimestamp 738891) scenario_frame
                (Some "Excavator"%string) (Some "S1"%string))
      as (q & Hq & H0 & H20 & Htype & Hsite).
    exists q. split; [exact Hq|]. split; [exact H0|]. split; [exact H20|].
    split.
    + apply Htype; [reflexivity | vm_compute; reflexivity].
    + apply Hsite; [reflexivity | vm_compute; reflexivity].
  - assert (exists r,
               forecast_demand (SK := column_sklearn) trained_system
                 (Some (scenario_snapshot 8)) 738000
                 (Some "Excavator"%string) None 5 = Ok r
               /\ exists p, hd_error (forecasts r) = Some p)
      as (r & Hr & p & Hp).
    { vm_compute. eexists. split; [reflexivity|]. eexists. reflexivity. }
    assert (In p (forecasts r)) as Hin.
    { destruct (forecasts r) as [|p' rest]; [discriminate|].
      injection Hp as ->. left. reflexivity. }
    destruct (Hpoint trained_system (Some (scenario_snapshot 8)) 738000%Z
                (Some "Excavator"%string) None 5%Z r p Hr Hin)
      as (source & q & Hsrc & Hq & H0 & H20 & _).
    exists r, p, source, q.
    split; [exact Hr|]. split; [exact Hin|]. split; [exact Hsrc|].
    split; [exact Hq|]. split; [exact H0 | exact H20].
Defined.

(** A type that no record of the frame has is not known to the frame and
    sets no cap; [forecast_demand] never passes such a frame. *)
Example cap_without_record_of_the_type :
  _apply_realistic_constraints (Num 30) (PdTimestamp 738887) []
    (Some "Crane"%string) None = Num (inject_Z 20).
Proof. reflexivity. Qed.

(** Scale, then clamp: a raw prediction of 30 on a Saturday in January
    with no scope given becomes 30 * 0.6 * 0.8 = 14.4; clamping first
    would have given 20 * 0.6 * 0.8 = 9.6. *)
Example scale_then_clamp :
  equiv (_apply_realistic_constraints (Num 30) (PdTimestamp 738891) []
           None None) (Num 14.4).
Proof. vm_compute. reflexivity. Qed.

(** ** The dates of a forecast *)

Section ForecastDates.

Context {SK : Sklearn}.





End ForecastDates.


(** When no check-out day is known the dates would start from the
    current time, a plain [datetime] without [dayofweek]: the call ends
    with the error result. *)
Example forecast_without_known_date :
  forecast_demand (SK := column_sklearn) trained_system
    (Some [ {| raw_Equipment_ID := "EQ1";
               raw_Type := "Crane";
               raw_User_ID := Some "S1"%string;
               raw_Check_Out_Date := DateBad;
               raw_Check_in_Date := DateEmpty;
               raw_Engine_Hours_Day := Num 6;
               raw_Idle_Hours_Day := Num 2 |} ])
    738000 None None 3
  = Err (Error_forecasting_demand AttributeError).
Proof. vm_compute. reflexivity. Qed.

(** [days_ahead = 0] is the division by zero of the daily average. *)
Example forecast_of_no_day :
  forecast_demand (SK := column_sklearn) trained_system
    (Some (scenario_snapshot 8)) 738000 None None 0
  = Err (Error_forecasting_demand ZeroDivisionError).
Proof. vm_compute. reflexivity. Qed.

(** ** The input of the site models *)

Section SiteModelInput.

Context {SK : Sklearn}.

(** The site model is used exactly when the site is given, has an entry
    among the site models, and the equipment type is given. *)
Lemma uses_site_model_iff (s : SmartMLSystem)
    (equipment_type site_id : option string) :
  uses_site_model s equipment_type site_id = true
  <-> truthy site_id = true
      /\ is_Some (site_specific_models s !! text_of site_id)
      /\ truthy equipment_type = true.
Proof.
  unfold uses_site_model. rewrite !andb_true_iff, bool_decide_eq_true.
  tauto.
Qed.

(** Otherwise the global model is applied to the 14 features after the
    scaler fitted at training time. *)
Lemma global_model_on_all_features (s : SmartMLSystem)
    (equipment_type site_id : option string) (features : list fl) :
  uses_site_model s equipment_type site_id = false ->
  predict_demand s equipment_type site_id features
  = match scaler_transform (scaler s) [features] with
    | Some features_scaled =>
        predict_first (demand_forecaster s) features_scaled
    | None => inl ValueError
    end.
Proof. intros H. unfold predict_demand. rewrite H. reflexivity. Qed.

End SiteModelInput.

(** C2, evaluation of the code.  The vector handed to a site model is the
    first eight of the 14 features: type code, site code, month, day of
    week, quarter, weekend flag, seasonal factor and site equipment count.
    The eight columns a site model is fitted on are type code, month, day
    of week, quarter, weekend flag, seasonal factor and the two demand
    averages.  On the live snapshot the model of site S1, which answers
    its eighth input, returns the site equipment count 2 where the column
    it was fitted on holds the 30-day demand average 8. *)
Theorem site_model_gets_first_eight_features :
  (forall f0 f1 f2 f3 f4 f5 f6 f7 f8 f9 f10 f11 f12 f13 : fl,
      site_features [f0; f1; f2; f3; f4; f5; f6; f7; f8; f9; f10; f11; f12; f13]
      = [f0; f1; f2; f3; f4; f5; f6; f7]
      /\ feature_subset (List.map fst site_feature_columns)
           [f0; f1; f2; f3; f4; f5; f6; f7; f8; f9; f10; f11; f12; f13]
         = [f0; f2; f3; f4; f5; f6; f10; f11])
  /\ List.map fst (firstn 8 feature_columns)
     = [ "equipment_type_encoded"; "site_encoded"; "month"; "day_of_week";
         "quarter"; "is_weekend"; "seasonal_factor";
         "site_equipment_count" ]%string
  /\ List.map fst site_feature_columns
     = [ "equipment_type_encoded"; "month"; "day_of_week"; "quarter";
         "is_weekend"; "seasonal_factor"; "demand_7d_avg";
         "demand_30d_avg" ]%string
  /\ uses_site_model trained_system (Some "Excavator"%string)
       (Some "S1"%string) = true
  /\ predict_demand trained_system (Some "Excavator"%string)
       (Some "S1"%string) site_forecast_features = inr (Num 2)
  /\ nth 7 (feature_subset (List.map fst site_feature_columns)
              site_forecast_features) NaN = Num 8.0
  /\ site_features site_forecast_features
     <> feature_subset (List.map fst site_feature_columns)
          site_forecast_features.
Proof.
  split; [intros; split; reflexivity|].
  split; [reflexivity|]. split; [reflexivity|].
  split; [vm_compute; reflexivity|].
  split; [vm_compute; reflexivity|].
  split; [vm_compute; reflexivity|].
  vm_compute. intros H. discriminate H.
Qed.

(** ** The formulas are the ones applied to every record *)

Lemma Forall_map_indexed {A B : Type} (F : nat * A -> B) (P : B -> Prop)
    (l : list A) (k n : nat) :
  (forall i a, P (F (i, a))) ->
  Forall P (List.map F (List.combine (seq k n) l)).
Proof.
  intros HF. apply List.Forall_forall. intros b Hb.
  apply in_map_iff in Hb as ([i a] & <- & _). apply HF.
Qed.

(** Every row of the training frame carries the utilization and the
    efficiency that the training-time formulas give for its hours. *)
Lemma preprocess_rows_metrics (data : list RawRow) (frame : Frame)
    (eq_enc site_enc : LabelEncoder) :
  _preprocess_data data = Some (frame, eq_enc, site_enc) ->
  Forall
    (fun row =>
       utilization_ratio row
       = preprocess_utilization_ratio (Engine_Hours_Day row)
           (Idle_Hours_Day row)
       /\ efficiency_score row
          = preprocess_efficiency_score (Engine_Hours_Day row)
              (Idle_Hours_Day row))
    frame.
Proof.
  unfold _preprocess_data.
  destruct (to_datetime (List.map raw_Check_Out_Date data)) as [outs|];
    [|discriminate].
  destruct (to_datetime (List.map raw_Check_in_Date data)) as [ins|];
    [|discriminate].
  destruct (encoder_fit_transform _) as [e1 c1].
  destruct (encoder_fit_transform _) as [e2 c2].
  intros [= <- _ _].
  apply Forall_map_indexed. intros i [r rf].
  destruct (demand_features _ rf) as [[dd d7] d30]. split; reflexivity.
Qed.

(** Every row of the live frame carries the utilization and the
    efficiency that the live formulas give for its hours. *)
Lemma db_rows_metrics (eq_enc site_enc : LabelEncoder)
    (db_data : list BaseRow) :
  Forall
    (fun row =>
       utilization_ratio row
       = db_utilization_ratio (Engine_Hours_Day row) (Idle_Hours_Day row)
       /\ efficiency_score row
          = db_efficiency_score (Engine_Hours_Day row) (Idle_Hours_Day row))
    (_add_calculated_columns_to_db_data eq_enc site_enc db_data).
Proof.
  unfold _add_calculated_columns_to_db_data.
  apply Forall_map_indexed. intros i r. split; reflexivity.
Qed.

(** The anomaly scan recomputes both from the hours of the row as they
    are before the scan fills their null cells. *)
Lemma anomaly_rows_metrics (row : Row) :
  utilization_ratio (anomaly_metrics row)
  = anomaly_utilization_ratio (Engine_Hours_Day row) (Idle_Hours_Day row)
  /\ efficiency_score (anomaly_metrics row)
     = anomaly_efficiency_score (Engine_Hours_Day row) (Idle_Hours_Day row).
Proof. split; reflexivity. Qed.

(** The two live paths do not agree on the efficiency of an equipment
    with no hours: the live columns give 0.5 * 0 / 8 = 0, the anomaly scan
    fills the undefined product with 0.5. *)
Example live_efficiency_at_zero_hours :
  db_efficiency_score (Num 0) (Num 0) = Num (0.5 * (0 / 8.0))
  /\ anomaly_efficiency_score (Num 0) (Num 0) = Num 0.5.
Proof. split; reflexivity. Qed.

Example ord2ymd_2024_01_01 : Calendar.ord2ymd 738886 = (2024, 1, 1)%Z.
Proof. reflexivity. Qed.
Example ord2ymd_2024_02_29 : Calendar.ord2ymd 738945 = (2024, 2, 29)%Z.
Proof. reflexivity. Qed.
Example ord2ymd_2023_12_31 : Calendar.ord2ymd 738885 = (2023, 12, 31)%Z.
Proof. reflexivity. Qed.
Example ord2ymd_2000_12_31 : Calendar.ord2ymd 730485 = (2000, 12, 31)%Z.
Proof. reflexivity. Qed.
Example weekday_2024_01_01 : Calendar.weekday 738886 = 0%Z.
Proof. reflexivity. Qed.

(* ===================================================================== *)
(** * Further properties of the engine *)
(* ===================================================================== *)

(** ** The summary of an anomaly scan *)

Lemma scan_length (frame : Frame) : (length (scan frame) <= length frame)%nat.
Proof.
  induction frame as [|row rest IH]; [reflexivity|]. cbn.
  destruct (scan_row row); cbn; lia.
Qed.

Lemma count_distinct_le (l : list string) :
  (0 <= count_distinct l <= len l)%Z.
Proof.
  unfold count_distinct, len. split; [lia|]. apply inj_le.
  induction l as [|x rest IH]; [reflexivity|].
  cbn [list_to_set length]. rewrite size_union_alt, size_singleton.
  pose proof (subseteq_size (list_to_set rest ∖ {[x]})
                (list_to_set rest : gset string)) as H.
  assert (size ((list_to_set rest : gset string) ∖ {[x]})
          <= size (list_to_set rest : gset string))%nat as Hle
    by (apply H; intros y Hy; apply elem_of_difference in Hy as [Hy _];
        exact Hy).
  lia.
Qed.

Lemma filter_length_le {A : Type} (f : A -> bool) (l : list A) :
  (len (List.filter f l) <= len l)%Z.
Proof. unfold len. apply inj_le. apply List.filter_length_le. Qed.

Section AnomalySummary.

Context {SK : Sklearn}.

(** X1.  In every result of [detect_anomalies] the summary is consistent
    with the list: [total_anomalies] is its length and is at most
    [active_rentals], which is at least 1; [anomaly_rate] is a number
    between 0 and 100; the counts of affected equipment and sites are
    between 0 and [total_anomalies]; [total_records] is the size of the
    Equipment table, or 151 when it cannot be read. *)
Theorem anomaly_summary_consistent (s : SmartMLSystem) (count : option Z)
    (query : option (list RawRow)) (equipment_id : option string)
    (r : AnomalyResult) :
  detect_anomalies s count query equipment_id = Ok r ->
  total_anomalies (summary r) = len (anomalies r)
  /\ (1 <= active_rentals (summary r))%Z
  /\ (total_anomalies (summary r) <= active_rentals (summary r))%Z
  /\ in_range (anomaly_rate (summary r)) 0 100
  /\ (0 <= equipment_affected (summary r) <= total_anomalies (summary r))%Z
  /\ (0 <= sites_affected (summary r) <= total_anomalies (summary r))%Z
  /\ total_records (summary r)
     = match count with Some n => n | None => 151%Z end.
Proof.
  unfold detect_anomalies.
  destruct (models_trained s); cbn [negb]; [|discriminate].
  destruct (_load_database_data s query) as [db_data|]; [|discriminate].
  destruct (len db_data =? 0)%Z; [discriminate|].
  set (selected := if truthy equipment_id then _ else _).
  destruct (truthy equipment_id && (len selected =? 0)%Z); [discriminate|].
  rewrite dropna_anomaly_metrics.
  set (eqd := List.map anomaly_metrics selected).
  destruct (len eqd =? 0)%Z eqn:El; [discriminate|].
  apply Z.eqb_neq in El.
  intros [= <-]. cbn [summary anomalies total_anomalies active_rentals
                      anomaly_rate equipment_affected sites_affected
                      total_records].
  assert (0 <= len (scan eqd) <= len eqd)%Z as Hscan.
  { unfold len. pose proof (scan_length eqd). lia. }
  assert (1 <= len eqd)%Z as Hpos by (unfold len in *; lia).
  split; [reflexivity|]. split; [exact Hpos|]. split; [lia|]. split.
  - assert ((0 <? len eqd)%Z = true) as -> by (apply Z.ltb_lt; lia).
    unfold of_Z. rewrite Qeq_bool_false.
    + cbn [Float.mul in_range].
      assert (0 < inject_Z (len eqd)) as Ha
        by (rewrite <- (Zlt_Qlt 0); lia).
      assert (0 <= inject_Z (len (scan eqd))) as Hn
        by (rewrite <- (Zle_Qle 0); lia).
      assert (inject_Z (len (scan eqd)) <= inject_Z (len eqd)) as Hle
        by (rewrite <- Zle_Qle; lia).
      assert (0 <= inject_Z (len (scan eqd)) / inject_Z (len eqd)
              /\ inject_Z (len (scan eqd)) / inject_Z (len eqd) <= 1)
        as [H0 H1].
      { split; [apply Qle_shift_div_l | apply Qle_shift_div_r]; lra. }
      split; lra.
    + intros E. assert (0 < inject_Z (len eqd)) as Ha
        by (rewrite <- (Zlt_Qlt 0); lia).
      lra.
  - split; [|split; [|reflexivity]].
    + pose proof (count_distinct_le (List.map a_equipment_id (scan eqd))) as H.
      unfold len in H |- *. rewrite length_map in H. exact H.
    + pose proof (count_distinct_le
                    (List.filter
                       (fun x => negb (String.eqb x "UNASSIGNED"))
                       (List.map a_site_id (scan eqd)))) as H.
      pose proof (filter_length_le
                    (fun x => negb (String.eqb x "UNASSIGNED"))
                    (List.map a_site_id (scan eqd))) as H'.
      unfold len in H, H' |- *. rewrite length_map in H'. lia.
Qed.

(** X2.  The ways [detect_anomalies] can end.  It answers
    ["Models not trained"] exactly for an untrained system; the database
    error when the frame it loads is absent or empty; "not found" when an
    equipment id is given that no loaded row carries; and otherwise it
    succeeds, on at least one row, with only records of the requested
    equipment when one was requested.  It never answers
    ["No valid data"], nor with a caught exception. *)
Theorem detect_anomalies_outcomes (s : SmartMLSystem) (count : option Z)
    (query : option (list RawRow)) (equipment_id : option string) :
  match detect_anomalies s count query equipment_id with
  | Err Models_not_trained => models_trained s = false
  | Err No_database_data =>
      models_trained s = true
      /\ (_load_database_data s query = None
          \/ _load_database_data s query = Some [])
  | Err (Equipment_not_found id) =>
      models_trained s = true
      /\ truthy equipment_id = true
      /\ id = text_of equipment_id
      /\ exists db_data,
          _load_database_data s query = Some db_data
          /\ Forall (fun row => Equipment_ID row <> id) db_data
  | Err _ => False
  | Ok r =>
      models_trained s = true
      /\ (exists db_data,
             _load_database_data s query = Some db_data /\ db_data <> [])
      /\ (truthy equipment_id = true ->
          Forall (fun a => a_equipment_id a = text_of equipment_id)
                 (anomalies r))
  end.
Proof.
  unfold detect_anomalies.
  destruct (models_trained s); cbn [negb]; [|reflexivity].
  destruct (_load_database_data s query) as [db_data|]; [|auto].
  destruct (len db_data =? 0)%Z eqn:El.
  { split; [reflexivity|]. right. destruct db_data; [reflexivity|].
    discriminate El. }
  assert (db_data <> []) as Hne by (intros ->; discriminate El).
  rewrite dropna_anomaly_metrics.
  destruct (truthy equipment_id) eqn:Et; cbn [andb].
  - set (selected := List.filter _ db_data).
    destruct (len selected =? 0)%Z eqn:Es.
    + split; [reflexivity|]. split; [reflexivity|]. split; [reflexivity|].
      exists db_data. split; [reflexivity|].
      apply List.Forall_forall. intros row Hin Heq.
      assert (In row selected) as Hsel.
      { apply filter_In. split; [exact Hin|]. apply String.eqb_eq. exact Heq. }
      destruct selected; [contradiction | discriminate Es].
    + destruct (len (List.map anomaly_metrics selected) =? 0)%Z eqn:Em.
      { exfalso. unfold len in Es, Em. rewrite length_map in Em. congruence. }
      split; [reflexivity|]. split; [exists db_data; auto|].
      intros _. cbn [anomalies]. apply List.Forall_forall. intros a Ha.
      apply scan_In in Ha as (row & Hrow & Hs).
      apply scan_row_Some in Hs as (_ & _ & _ & -> & _).
      apply in_map_iff in Hrow as (row0 & <- & Hrow0).
      apply filter_In in Hrow0 as [_ Heq]. apply String.eqb_eq in Heq.
      exact Heq.
  - destruct (len (List.map anomaly_metrics db_data) =? 0)%Z eqn:Em.
    { exfalso. unfold len in El, Em. rewrite length_map in Em. congruence. }
    split; [reflexivity|]. split; [exists db_data; auto|].
    intros H. discriminate H.
Qed.

End AnomalySummary.

Lemma anomaly_summary_consistent_witness :
  exists r,
    detect_anomalies (SK := column_sklearn) trained_system None
      (Some (scenario_snapshot 8)) None = Ok r
    /\ total_anomalies (summary r) = len (anomalies r)
    /\ (total_anomalies (summary r) <= active_rentals (summary r))%Z
    /\ in_range (anomaly_rate (summary r)) 0 100.
Proof.
  assert (exists r,
             detect_anomalies (SK := column_sklearn) trained_system None
               (Some (scenario_snapshot 8)) None = Ok r) as (r & Hr).
  { vm_compute. eexists. reflexivity. }
  pose proof (anomaly_summary_consistent (SK := column_sklearn)
                trained_system None (Some (scenario_snapshot 8)) None r Hr)
    as (H1 & _ & H3 & H4 & _).
  exists r. split; [exact Hr|]. split; [exact H1|].
  split; [exact H3 | exact H4].
Defined.

Lemma detect_anomalies_outcomes_witness :
  models_trained trained_system = true
  /\ Forall (fun a => a_equipment_id a = "EQ2"%string)
       (result_anomalies
          (detect_anomalies (SK := column_sklearn) trained_system None
             (Some (scenario_snapshot 8)) (Some "EQ2"%string))).
Proof.
  pose proof (detect_anomalies_outcomes (SK := column_sklearn)
                trained_system None (Some (scenario_snapshot 8))
                (Some "EQ2"%string)) as H.
  destruct (detect_anomalies (SK := column_sklearn) trained_system None
              (Some (scenario_snapshot 8)) (Some "EQ2"%string))
    as [e|r] eqn:E.
  - vm_compute in E. discriminate E.
  - destruct H as (Ht & _ & HF). split; [exact Ht|].
    cbn [result_anomalies]. apply HF. reflexivity.
Defined.

(** ** The aggregates of a forecast *)

Lemma fold_add_range (l : list fl) (hi a : Q) :
  0 <= hi ->
  Forall (fun x => in_range x 0 hi) l ->
  in_range (fold_left Float.add l (Num a)) a (a + hi * inject_Z (len l)).
Proof.
  intros Hhi H. revert a. induction H as [|x rest Hx Hrest IH]; intros a.
  - cbn [fold_left in_range]. unfold len. cbn [length].
    change (inject_Z (Z.of_nat 0)) with 0. split; lra.
  - apply in_range_num in Hx as (q & -> & Hq0 & Hq1).
    cbn [fold_left Float.add]. specialize (IH (a + q)).
    apply (in_range_weaken _ _ _ _ _ IH); [lra|].
    unfold len. cbn [length]. rewrite Nat2Z.inj_succ, <- Z.add_1_r.
    rewrite inject_Z_plus.
    change (inject_Z 1) with 1.
    assert (0 <= inject_Z (Z.of_nat (length rest))) as Hl
      by (rewrite <- (Zle_Qle 0); lia).
    nra.
Qed.

Lemma fl_sum_range (l : list fl) (hi : Q) :
  0 <= hi ->
  Forall (fun x => in_range x 0 hi) l ->
  in_range (fl_sum l) 0 (hi * inject_Z (len l)).
Proof.
  intros Hhi H. unfold fl_sum.
  apply (in_range_weaken _ _ _ _ _ (fold_add_range l hi 0 Hhi H)); lra.
Qed.

(** The demand that a comparable point carries. *)
Lemma first_max_split (rest : list ForecastPoint) (best : ForecastPoint) :
  Forall (fun p => finite (predicted_demand p)) (best :: rest) ->
  exists pre post,
    best :: rest = pre ++ first_max best rest :: post
    /\ Forall (fun p => (predicted_demand p
                         <? predicted_demand (first_max best rest))%fl = true)
              pre
    /\ Forall (fun p => (predicted_demand p
                         >? predicted_demand (first_max best rest))%fl = false)
              post
    /\ (predicted_demand best
        >? predicted_demand (first_max best rest))%fl = false.
Proof.
  revert best. induction rest as [|p rest IH]; intros best Hfin.
  - exists [], []. cbn. repeat split; try constructor.
    destruct (List.Forall_inv Hfin) as [q ->]. cbn.
    apply Qltb_ge. apply Qle_refl.
  - destruct (List.Forall_inv Hfin) as [qb Hb].
    pose proof (List.Forall_inv_tail Hfin) as Hfin'.
    destruct (List.Forall_inv Hfin') as [qp Hp].
    pose proof (List.Forall_inv_tail Hfin') as Hfin''.
    cbn [first_max].
    assert ((predicted_demand p >? predicted_demand best)%fl = Qltb qb qp)
      as Hcmp by (rewrite Hb, Hp; reflexivity).
    rewrite Hcmp. clear Hcmp.
    destruct (Qltb qb qp) eqn:E.
    + destruct (IH p Hfin') as (pre & post & Heq & Hpre & Hpost & Hle).
      exists (best :: pre), post. rewrite Heq at 1.
      split; [reflexivity|].
      assert (exists qm, predicted_demand (first_max p rest) = Num qm
                         /\ qp <= qm) as (qm & Hm & Hqm).
      { assert (In (first_max p rest) (p :: rest)) as Hin
          by (rewrite Heq; apply in_elt).
        destruct (proj1 (List.Forall_forall _ _) Hfin' _ Hin) as [qm Hm].
        exists qm. split; [exact Hm|].
        rewrite Hp, Hm in Hle. cbn in Hle. apply Qltb_ge. exact Hle. }
      apply Qltb_lt in E.
      split; [|split; [exact Hpost|]].
      * constructor; [|exact Hpre]. rewrite ?Hb, ?Hm. cbn.
        apply Qltb_lt. lra.
      * rewrite ?Hb, ?Hm. cbn. apply Qltb_ge. lra.
    + assert (Forall (fun p0 => finite (predicted_demand p0)) (best :: rest))
        as Hfin2 by (constructor; [exists qb; exact Hb | exact Hfin'']).
      destruct (IH best Hfin2) as (pre & post & Heq & Hpre & Hpost & Hle).
      apply Qltb_ge in E.
      destruct pre as [|b pre'].
      * cbn in Heq. injection Heq as Hm Hrest.
        exists [], (p :: post).
        rewrite <- Hm in Hpost |- *. rewrite <- Hrest in Hpost |- *.
        split; [reflexivity|]. split; [constructor|]. split.
        -- constructor; [|exact Hpost].
           rewrite ?Hp, ?Hb. cbn. apply Qltb_ge. exact E.
        -- rewrite ?Hb. cbn. apply Qltb_ge. apply Qle_refl.
      * cbn in Heq. injection Heq as Hb' Hrest. subst b.
        exists (best :: p :: pre'), post.
        split; [cbn [app]; rewrite <- Hrest; reflexivity|].
        pose proof (List.Forall_inv Hpre) as Hbm.
        pose proof (List.Forall_inv_tail Hpre) as Hpre'.
        split; [|split; [exact Hpost | exact Hle]].
        constructor; [exact Hbm|]. constructor; [|exact Hpre'].
        assert (In (first_max best rest) (best :: rest)) as Hin.
        { right. pose proof (in_elt (first_max best rest) pre' post) as Hi.
          rewrite <- Hrest in Hi. exact Hi. }
        destruct (proj1 (List.Forall_forall _ _) Hfin2 _ Hin) as [qm Hm].
        cbv beta in Hbm.
        rewrite ?Hb, ?Hm in Hbm. rewrite ?Hp, ?Hm. cbn in Hbm |- *.
        apply Qltb_lt in Hbm. apply Qltb_lt. lra.
Qed.

Lemma first_min_split (rest : list ForecastPoint) (best : ForecastPoint) :
  Forall (fun p => finite (predicted_demand p)) (best :: rest) ->
  exists pre post,
    best :: rest = pre ++ first_min best rest :: post
    /\ Forall (fun p => (predicted_demand p
                         >? predicted_demand (first_min best rest))%fl = true)
              pre
    /\ Forall (fun p => (predicted_demand p
                         <? predicted_demand (first_min best rest))%fl = false)
              post
    /\ (predicted_demand best
        <? predicted_demand (first_min best rest))%fl = false.
Proof.
  revert best. induction rest as [|p rest IH]; intros best Hfin.
  - exists [], []. cbn. repeat split; try constructor.
    destruct (List.Forall_inv Hfin) as [q ->]. cbn.
    apply Qltb_ge. apply Qle_refl.
  - destruct (List.Forall_inv Hfin) as [qb Hb].
    pose proof (List.Forall_inv_tail Hfin) as Hfin'.
    destruct (List.Forall_inv Hfin') as [qp Hp].
    pose proof (List.Forall_inv_tail Hfin') as Hfin''.
    cbn [first_min].
    assert ((predicted_demand p <? predicted_demand best)%fl = Qltb qp qb)
      as Hcmp by (rewrite Hb, Hp; reflexivity).
    rewrite Hcmp. clear Hcmp.
    destruct (Qltb qp qb) eqn:E.
    + destruct (IH p Hfin') as (pre & post & Heq & Hpre & Hpost & Hle).
      exists (best :: pre), post. rewrite Heq at 1.
      split; [reflexivity|].
      assert (exists qm, predicted_demand (first_min p rest) = Num qm
                         /\ qm <= qp) as (qm & Hm & Hqm).
      { assert (In (first_min p rest) (p :: rest)) as Hin
          by (rewrite Heq; apply in_elt).
        destruct (proj1 (List.Forall_forall _ _) Hfin' _ Hin) as [qm Hm].
        exists qm. split; [exact Hm|].
        rewrite Hp, Hm in Hle. cbn in Hle. apply Qltb_ge. exact Hle. }
      apply Qltb_lt in E.
      split; [|split; [exact Hpost|]].
      * constructor; [|exact Hpre]. rewrite ?Hb, ?Hm. cbn.
        apply Qltb_lt. lra.
      * rewrite ?Hb, ?Hm. cbn. apply Qltb_ge. lra.
    + assert (Forall (fun p0 => finite (predicted_demand p0)) (best :: rest))
        as Hfin2 by (constructor; [exists qb; exact Hb | exact Hfin'']).
      destruct (IH best Hfin2) as (pre & post & Heq & Hpre & Hpost & Hle).
      apply Qltb_ge in E.
      destruct pre as [|b pre'].
      * cbn in Heq. injection Heq as Hm Hrest.
        exists [], (p :: post).
        rewrite <- Hm in Hpost |- *. rewrite <- Hrest in Hpost |- *.
        split; [reflexivity|]. split; [constructor|]. split.
        -- constructor; [|exact Hpost].
           rewrite ?Hp, ?Hb. cbn. apply Qltb_ge. exact E.
        -- rewrite ?Hb. cbn. apply Qltb_ge. apply Qle_refl.
      * cbn in Heq. injection Heq as Hb' Hrest. subst b.
        exists (best :: p :: pre'), post.
        split; [cbn [app]; rewrite <- Hrest; reflexivity|].
        pose proof (List.Forall_inv Hpre) as Hbm.
        pose proof (List.Forall_inv_tail Hpre) as Hpre'.
        split; [|split; [exact Hpost | exact Hle]].
        constructor; [exact Hbm|]. constructor; [|exact Hpre'].
        assert (In (first_min best rest) (best :: rest)) as Hin.
        { right. pose proof (in_elt (first_min best rest) pre' post) as Hi.
          rewrite <- Hrest in Hi. exact Hi. }
        destruct (proj1 (List.Forall_forall _ _) Hfin2 _ Hin) as [qm Hm].
        cbv beta in Hbm.
        rewrite ?Hb, ?Hm in Hbm. rewrite ?Hp, ?Hm. cbn in Hbm |- *.
        apply Qltb_lt in Hbm. apply Qltb_lt. lra.
Qed.

Section ForecastAggregates.

Context {SK : Sklearn}.

Lemma forecast_point_demand_range (s : SmartMLSystem)
    (equipment_type site_id : option string) (fd : Frame) (d : date_value)
    (p : ForecastPoint) :
  forecast_point s equipment_type site_id fd d = inr p ->
  in_range (predicted_demand p) 0 20.
Proof.
  intros Hp. apply forecast_point_inr in Hp as (_ & _ & (raw & ->) & _).
  destruct (max_demand_of_spec fd equipment_type site_id)
    as (c & Hc & Hpos & H20 & (k & Hk) & _).
  pose proof (constrained_in_cap raw d fd equipment_type site_id c Hc Hpos)
    as Hr.
  apply (in_range_weaken _ 0 c); [|apply Qle_refl | exact H20].
  apply (reported_demand_in_cap _ c k Hpos Hk Hr).
Qed.

Lemma forecast_points_demand_range (s : SmartMLSystem)
    (equipment_type site_id : option string) (fd : Frame)
    (dates : list date_value) (ps : list ForecastPoint) :
  forecast_points s equipment_type site_id fd dates = inr ps ->
  Forall (fun p => in_range (predicted_demand p) 0 20) ps
  /\ length ps = length dates.
Proof.
  intros H. apply forecast_points_inr in H.
  induction H as [|d p dates ps Hd Hrest [IH1 IH2]].
  - split; [constructor | reflexivity].
  - split; [constructor; [|exact IH1] | cbn; rewrite IH2; reflexivity].
    apply (forecast_point_demand_range _ _ _ _ _ _ Hd).
Qed.

(** The fields of a successful result, as [forecast_demand] fills them. *)
Lemma forecast_demand_Ok_fields (s : SmartMLSystem)
    (query : option (list RawRow)) (now : Z)
    (equipment_type site_id : option string) (days_ahead : Z)
    (r : ForecastResult) :
  forecast_demand s query now equipment_type site_id days_ahead = Ok r ->
  Forall (fun p => in_range (predicted_demand p) 0 20) (forecasts r)
  /\ length (forecasts r) = Z.to_nat days_ahead
  /\ (exists p ps,
         forecasts r = p :: ps
         /\ peak_demand_day r = first_max p ps
         /\ low_demand_day r = first_min p ps)
  /\ total_predicted_demand r
     = py_round (fl_sum (List.map predicted_demand (forecasts r))) 1
  /\ average_daily_demand r
     = py_round (fl_sum (List.map predicted_demand (forecasts r))
                 / of_Z days_ahead)%fl 1
  /\ (trend r, trend_strength r) = _calculate_demand_trend (forecasts r)
  /\ forecast_days r = days_ahead
  /\ r_equipment_type r = equipment_type
  /\ r_site_id r = site_id.
Proof.
  unfold forecast_demand.
  destruct (models_trained s); cbn [negb]; [|discriminate].
  destruct (forecast_source s query) as [source|]; [|discriminate].
  set (fd := filter_forecast_data source equipment_type site_id).
  destruct (len fd =? 0)%Z; [discriminate|].
  destruct (forecast_points s equipment_type site_id fd _)
    as [e|ps] eqn:Eps; [discriminate|].
  destruct (_calculate_demand_trend ps) as [tr strength] eqn:Et.
  destruct (days_ahead =? 0)%Z; [discriminate|].
  destruct ps as [|p ps'] eqn:Eq; [discriminate|].
  intros [= <-].
  cbn [forecasts peak_demand_day low_demand_day total_predicted_demand
       average_daily_demand trend trend_strength forecast_days
       r_equipment_type r_site_id].
  apply forecast_points_demand_range in Eps as [Hrange Hlen].
  split; [exact Hrange|]. split.
  - rewrite Hlen. unfold future_dates_of. rewrite length_map, length_seq.
    reflexivity.
  - split; [exists p, ps'; auto|]. rewrite Et. auto 10.
Qed.

End ForecastAggregates.

Lemma in_range_finite (x : fl) (lo hi : Q) : in_range x lo hi -> finite x.
Proof. intros H. apply in_range_num in H as (q & -> & _). exists q. reflexivity. Qed.

Section ForecastAggregateProperties.

Context {SK : Sklearn}.

(** X3.  In a forecast the peak day is the first point of the list among
    those with the greatest predicted demand, and the low day the first
    among those with the smallest: every point before the peak day has a
    strictly smaller demand and no point after it a greater one, and
    symmetrically for the low day. *)
Theorem peak_and_low_are_first_extremes (s : SmartMLSystem)
    (query : option (list RawRow)) (now : Z)
    (equipment_type site_id : option string) (days_ahead : Z)
    (r : ForecastResult) :
  forecast_demand s query now equipment_type site_id days_ahead = Ok r ->
  (exists pre post,
      forecasts r = pre ++ peak_demand_day r :: post
      /\ Forall (fun p => (predicted_demand p
                           <? predicted_demand (peak_demand_day r))%fl = true)
                pre
      /\ Forall (fun p => (predicted_demand p
                           >? predicted_demand (peak_demand_day r))%fl = false)
                post)
  /\ (exists pre post,
         forecasts r = pre ++ low_demand_day r :: post
         /\ Forall (fun p => (predicted_demand p
                              >? predicted_demand (low_demand_day r))%fl = true)
                   pre
         /\ Forall (fun p => (predicted_demand p
                              <? predicted_demand (low_demand_day r))%fl
                             = false)
                   post).
Proof.
  intros Hok.
  destruct (forecast_demand_Ok_fields _ _ _ _ _ _ _ Hok)
    as (Hrange & _ & (p & ps & Hps & Hpeak & Hlow) & _).
  assert (Forall (fun p0 => finite (predicted_demand p0)) (p :: ps)) as Hfin.
  { rewrite <- Hps. apply (List.Forall_impl _ (P := fun p0 =>
      in_range (predicted_demand p0) 0 20)); [|exact Hrange].
    intros a Ha. exact (in_range_finite _ _ _ Ha). }
  rewrite Hps, Hpeak, Hlow. split.
  - destruct (first_max_split ps p Hfin) as (pre & post & Heq & H1 & H2 & _).
    exists pre, post. auto.
  - destruct (first_min_split ps p Hfin) as (pre & post & Heq & H1 & H2 & _).
    exists pre, post. auto.
Qed.

(** X4.  A successful forecast was asked for at least one day; it holds
    as many points as days asked, [forecast_days] repeats the request,
    the total predicted demand is a number between 0 and 20 per day, and
    the average daily demand a number between 0 and 20. *)
Theorem forecast_totals_in_range (s : SmartMLSystem)
    (query : option (list RawRow)) (now : Z)
    (equipment_type site_id : option string) (days_ahead : Z)
    (r : ForecastResult) :
  forecast_demand s query now equipment_type site_id days_ahead = Ok r ->
  (1 <= days_ahead)%Z
  /\ len (forecasts r) = days_ahead
  /\ forecast_days r = days_ahead
  /\ in_range (total_predicted_demand r) 0 (20 * inject_Z days_ahead)
  /\ in_range (average_daily_demand r) 0 20.
Proof.
  intros Hok.
  destruct (forecast_demand_Ok_fields _ _ _ _ _ _ _ Hok)
    as (Hrange & Hlen & (p & ps & Hps & _) & Htot & Havg & _ & Hdays & _).
  assert (1 <= days_ahead)%Z as HN.
  { rewrite Hps in Hlen. cbn [length] in Hlen. lia. }
  assert (len (forecasts r) = days_ahead) as Hl
    by (unfold len; rewrite Hlen; lia).
  split; [exact HN|]. split; [exact Hl|]. split; [exact Hdays|].
  assert (Forall (fun x => in_range x 0 20)
                 (List.map predicted_demand (forecasts r))) as Hmap.
  { apply List.Forall_forall. intros x Hx.
    apply in_map_iff in Hx as (p0 & <- & Hp0).
    exact (proj1 (List.Forall_forall _ _) Hrange p0 Hp0). }
  assert (0 <= 20) as H20 by (apply Qle_bool_imp_le; reflexivity).
  pose proof (fl_sum_range _ 20 H20 Hmap) as Hsum.
  assert (len (List.map predicted_demand (forecasts r)) = days_ahead) as Hl'
    by (unfold len in *; rewrite length_map; exact Hl).
  rewrite Hl' in Hsum.
  apply in_range_num in Hsum as (total & Htotal & Ht0 & Ht1).
  assert (1 <= inject_Z days_ahead) as HNq by (rewrite <- (Zle_Qle 1); lia).
  rewrite Htot, Havg, Htotal. split.
  - apply (in_range_weaken _
             (inject_Z 0 / inject_Z (10 ^ Z.of_nat 1))
             (inject_Z (200 * days_ahead) / inject_Z (10 ^ Z.of_nat 1))).
    + apply py_round_in_range.
      * apply (Qle_trans _ 0); [apply Qle_bool_imp_le; reflexivity | exact Ht0].
      * apply (Qle_trans _ _ _ Ht1). rewrite inject_Z_mult.
        change (inject_Z (10 ^ Z.of_nat 1)) with 10.
        change (inject_Z 200) with 200.
        apply Qle_shift_div_l; [reflexivity|]. lra.
    + apply Qle_bool_imp_le. reflexivity.
    + rewrite inject_Z_mult.
      change (inject_Z (10 ^ Z.of_nat 1)) with 10.
      change (inject_Z 200) with 200.
      apply Qle_shift_div_r; [reflexivity|]. lra.
  - unfold of_Z. rewrite div_num_nonzero by lra.
    assert (0 <= total / inject_Z days_ahead
            /\ total / inject_Z days_ahead <= 20) as [Ha0 Ha1].
    { split; [apply Qle_shift_div_l | apply Qle_shift_div_r]; lra. }
    apply (in_range_weaken _
             (inject_Z 0 / inject_Z (10 ^ Z.of_nat 1))
             (inject_Z 200 / inject_Z (10 ^ Z.of_nat 1))).
    + apply py_round_in_range.
      * apply (Qle_trans _ 0); [apply Qle_bool_imp_le; reflexivity | exact Ha0].
      * apply (Qle_trans _ 20); [exact Ha1|].
        apply Qle_bool_imp_le. reflexivity.
    + apply Qle_bool_imp_le. reflexivity.
    + apply Qle_bool_imp_le. reflexivity.
Qed.

End ForecastAggregateProperties.

Lemma peak_and_low_are_first_extremes_witness :
  exists r pre post,
    forecast_demand (SK := column_sklearn) trained_system
      (Some (scenario_snapshot 8)) 738000 (Some "Excavator"%string) None 5
    = Ok r
    /\ forecasts r = pre ++ peak_demand_day r :: post
    /\ Forall (fun p => (predicted_demand p
                         >? predicted_demand (peak_demand_day r))%fl = false)
              post.
Proof.
  assert (exists r,
             forecast_demand (SK := column_sklearn) trained_system
               (Some (scenario_snapshot 8)) 738000
               (Some "Excavator"%string) None 5 = Ok r) as (r & Hr).
  { vm_compute. eexists. reflexivity. }
  destruct (proj1 (peak_and_low_are_first_extremes (SK := column_sklearn)
                     trained_system (Some (scenario_snapshot 8)) 738000%Z
                     (Some "Excavator"%string) None 5%Z r Hr))
    as (pre & post & Heq & _ & Hpost).
  exists r, pre, post. split; [exact Hr|]. split; [exact Heq | exact Hpost].
Defined.

Lemma forecast_totals_in_range_witness :
  exists r,
    forecast_demand (SK := column_sklearn) trained_system
      (Some (scenario_snapshot 8)) 738000 (Some "Excavator"%string) None 5
    = Ok r
    /\ len (forecasts r) = 5%Z
    /\ in_range (total_predicted_demand r) 0 (20 * inject_Z 5)
    /\ in_range (average_daily_demand r) 0 20.
Proof.
  assert (exists r,
             forecast_demand (SK := column_sklearn) trained_system
               (Some (scenario_snapshot 8)) 738000
               (Some "Excavator"%string) None 5 = Ok r) as (r & Hr).
  { vm_compute. eexists. reflexivity. }
  destruct (forecast_totals_in_range (SK := column_sklearn) trained_system
              (Some (scenario_snapshot 8)) 738000%Z
              (Some "Excavator"%string) None 5%Z r Hr)
    as (_ & Hl & _ & Ht & Ha).
  exists r. split; [exact Hr|]. split; [exact Hl|]. split; [exact Ht | exact Ha].
Defined.

(** ** Labels that the encoders do not know *)

Lemma transform_labels_Forall2 (classes labels : list string)
    (codes : list Z) :
  transform_labels classes labels = Some codes ->
  Forall2 (fun l c => index_of l classes = Some c) labels codes.
Proof.
  revert codes. induction labels as [|l rest IH]; intros codes; cbn.
  - intros [= <-]. constructor.
  - destruct (index_of l classes) as [i|] eqn:Ei; [|discriminate].
    destruct (transform_labels classes rest) as [cs|]; [|discriminate].
    intros [= <-]. constructor; [exact Ei | apply IH; reflexivity].
Qed.

Lemma encode_one_unknown (encoder : LabelEncoder) (label : string) :
  encoder_transform encoder [label] = None ->
  encode_one encoder label = inl ValueError.
Proof. intros H. unfold encode_one. rewrite H. reflexivity. Qed.

Lemma encode_one_error (encoder : LabelEncoder) (label : string) (e : exn) :
  encode_one encoder label = inl e -> e = ValueError.
Proof.
  unfold encode_one, encoder_transform.
  destruct encoder as [classes|]; [|intros [= <-]; reflexivity]. cbn.
  destruct (index_of label classes); [discriminate|].
  intros [= <-]. reflexivity.
Qed.

Section UnknownLabels.

Context {SK : Sklearn}.

(** X5.  A forecast for an equipment type, or for a site, that the fitted
    encoder does not know ends in the error result of a [ValueError], when
    the system is trained, the filtered frame has a row and at least one
    day is asked. *)
Theorem forecast_of_unknown_label_fails (s : SmartMLSystem)
    (query : option (list RawRow)) (now : Z)
    (equipment_type site_id : option string) (days_ahead : Z)
    (source : Frame) :
  models_trained s = true ->
  forecast_source s query = Some source ->
  filter_forecast_data source equipment_type site_id <> [] ->
  (1 <= days_ahead)%Z ->
  (truthy equipment_type = true
   /\ encoder_transform (equipment_encoder s) [text_of equipment_type] = None)
  \/ (truthy site_id = true
      /\ encoder_transform (site_encoder s) [text_of site_id] = None) ->
  forecast_demand s query now equipment_type site_id days_ahead
  = Err (Error_forecasting_demand ValueError).
Proof.
  intros Ht Hsrc Hne HN Hunknown.
  unfold forecast_demand. rewrite Ht, Hsrc. cbn [negb].
  destruct (len_pos_not_nil _ Hne) as [_ ->].
  unfold future_dates_of.
  destruct (Z.to_nat days_ahead) as [|k] eqn:Ek; [lia|].
  cbn [seq List.map forecast_points].
  assert (forall d,
             _prepare_forecast_features s equipment_type site_id d
               (filter_forecast_data source equipment_type site_id)
             = inl ValueError) as Hprep.
  { intros d. unfold _prepare_forecast_features.
    destruct Hunknown as [[Hk Hu] | [Hk Hu]]; rewrite Hk.
    - rewrite (encode_one_unknown _ _ Hu). reflexivity.
    - rewrite (encode_one_unknown _ _ Hu).
      destruct (truthy equipment_type); [|reflexivity].
      destruct (encode_one (equipment_encoder s) (text_of equipment_type))
        as [e|c] eqn:Ee; [|reflexivity].
      rewrite (encode_one_error _ _ _ Ee). reflexivity. }
  unfold forecast_point. rewrite Hprep. reflexivity.
Qed.

End UnknownLabels.

Lemma forecast_of_unknown_label_fails_witness :
  forecast_demand (SK := column_sklearn) trained_system
    (Some (scenario_snapshot 8)) 738000 None (Some "UNASSIGNED"%string) 3
  = Err (Error_forecasting_demand ValueError).
Proof.
  apply (forecast_of_unknown_label_fails (SK := column_sklearn)
           trained_system (Some (scenario_snapshot 8)) 738000%Z None
           (Some "UNASSIGNED"%string) 3%Z scenario_frame).
  - reflexivity.
  - vm_compute. reflexivity.
  - vm_compute. discriminate.
  - lia.
  - right. split; reflexivity.
Defined.

(** ** The codes and the shape of the live frame *)

Lemma map_nth_seq {A B : Type} (f : A -> B) (l : list A) (d : A) :
  List.map (fun i => f (nth i l d)) (seq 0 (length l)) = List.map f l.
Proof.
  induction l as [|x rest IH]; [reflexivity|].
  cbn [length seq List.map nth]. f_equal.
  rewrite <- seq_shift, List.map_map. exact IH.
Qed.

Lemma map_indexed_fst {A B : Type} (g : nat -> B) (l : list A) (k : nat) :
  List.map (fun '(i, _) => g i) (List.combine (seq k (length l)) l)
  = List.map g (seq k (length l)).
Proof.
  revert k. induction l as [|a rest IH]; intros k; [reflexivity|].
  cbn. rewrite IH. reflexivity.
Qed.

Lemma map_indexed_snd {A B : Type} (g : A -> B) (l : list A) (k : nat) :
  List.map (fun '(_, a) => g a) (List.combine (seq k (length l)) l)
  = List.map g l.
Proof.
  revert k. induction l as [|a rest IH]; intros k; [reflexivity|].
  cbn. rewrite IH. reflexivity.
Qed.

Lemma transform_labels_length (classes labels : list string)
    (codes : list Z) :
  transform_labels classes labels = Some codes ->
  length codes = length labels.
Proof.
  intros H. apply transform_labels_Forall2 in H.
  induction H; cbn; congruence.
Qed.

Lemma transform_labels_None (classes labels : list string) :
  transform_labels classes labels = None
  <-> Exists (fun l => index_of l classes = None) labels.
Proof.
  induction labels as [|l rest IH]; cbn.
  - split; [discriminate | intros H; inversion H].
  - destruct (index_of l classes) as [i|] eqn:Ei.
    + destruct (transform_labels classes rest) as [cs|].
      * split; [discriminate|]. intros H.
        apply List.Exists_cons in H as [H | H]; [congruence|].
        apply IH in H. discriminate H.
      * split; [|reflexivity]. intros _. right. apply IH. reflexivity.
    + split; [|reflexivity]. intros _. left. exact Ei.
Qed.

Lemma encode_one_known (classes : list string) (label : string) (c : Z) :
  index_of label classes = Some c ->
  encode_one (Some classes) label = inr (of_Z c).
Proof. intros H. unfold encode_one. cbn. rewrite H. reflexivity. Qed.

Lemma Forall_map_indexed_nth {A B : Type} (F : nat * A -> B)
    (P : B -> Prop) (l : list A) (k : nat) :
  (forall i a, nth_error l i = Some a -> P (F ((k + i)%nat, a))) ->
  Forall P (List.map F (List.combine (seq k (length l)) l)).
Proof.
  revert k. induction l as [|a rest IH]; intros k HF; [constructor|].
  cbn. constructor.
  - specialize (HF 0%nat a eq_refl). rewrite Nat.add_0_r in HF. exact HF.
  - apply IH. intros i b Hb. specialize (HF (S i) b Hb).
    rewrite Nat.add_succ_r in HF. exact HF.
Qed.

Lemma Forall2_nth_error {A B : Type} (R : A -> B -> Prop) (l : list A)
    (k : list B) (i : nat) (a : A) :
  Forall2 R l k -> nth_error l i = Some a ->
  exists b, nth_error k i = Some b /\ R a b.
Proof.
  intros H. revert i. induction H as [|x y l k Hxy Hrest IH]; intros i.
  - destruct i; discriminate.
  - destruct i as [|i]; cbn.
    + intros [= <-]. exists y. auto.
    + apply IH.
Qed.

(** X6.  The type codes of the live frame are all or nothing.  When the
    fitted encoder knows the type of every live row, each row carries the
    code that the encoder gives to its type, the one a forecast will use.
    When it does not know the type of at least one row, or is not fitted,
    every row carries the code 0. *)
Theorem live_type_codes_all_or_nothing (eq_enc site_enc : LabelEncoder)
    (db_data : list BaseRow) :
  (forall classes,
      eq_enc = Some classes ->
      Forall (fun r => index_of (b_Type r) classes <> None) db_data ->
      Forall (fun row => encode_one eq_enc (Type_ row)
                         = inr (equipment_type_encoded row))
             (_add_calculated_columns_to_db_data eq_enc site_enc db_data))
  /\ (eq_enc = None
      \/ (exists classes,
             eq_enc = Some classes
             /\ Exists (fun r => index_of (b_Type r) classes = None) db_data)
      ->
      Forall (fun row => equipment_type_encoded row = Num 0)
             (_add_calculated_columns_to_db_data eq_enc site_enc db_data)).
Proof.
  split.
  - intros classes -> Hknown.
    destruct (transform_labels classes (List.map b_Type db_data))
      as [codes|] eqn:Et.
    + pose proof (transform_labels_Forall2 _ _ _ Et) as HF.
      unfold _add_calculated_columns_to_db_data.
      cbn [encoder_transform]. rewrite Et.
      apply Forall_map_indexed_nth. intros i r Hr.
      cbn [Type_ equipment_type_encoded code_or_zero Nat.add].
      assert (nth_error (List.map b_Type db_data) i = Some (b_Type r)) as Hl
        by (rewrite nth_error_map, Hr; reflexivity).
      destruct (Forall2_nth_error _ _ _ _ _ HF Hl) as (c & Hc & Hidx).
      rewrite (nth_error_nth _ _ 0%Z Hc).
      apply encode_one_known. exact Hidx.
    + exfalso. apply transform_labels_None in Et.
      apply List.Exists_exists in Et as (l & Hin & Hl).
      apply in_map_iff in Hin as (r & <- & Hr).
      exact (proj1 (List.Forall_forall _ _) Hknown r Hr Hl).
  - intros Hunknown.
    assert (encoder_transform eq_enc (List.map b_Type db_data) = None) as Hn.
    { destruct Hunknown as [-> | (classes & -> & Hex)]; [reflexivity|].
      cbn [encoder_transform]. apply transform_labels_None.
      apply List.Exists_exists in Hex as (r & Hr & Hidx).
      apply List.Exists_exists. exists (b_Type r). split; [|exact Hidx].
      apply in_map. exact Hr. }
    unfold _add_calculated_columns_to_db_data. rewrite Hn.
    apply Forall_map_indexed_nth. intros i r _. reflexivity.
Qed.

Lemma live_type_codes_all_or_nothing_witness :
  Forall (fun row => equipment_type_encoded row = Num 0)
    (_add_calculated_columns_to_db_data (Some ["Crane"; "Excavator"]%string)
       None
       [ base_of (live_row "EQ1" "Excavator" "S1" 738886 (Num 6) (Num 2))
                 (Some 738886%Z) None (Num 6) (Num 2);
         base_of (live_row "EQ2" "Grader" "S1" 738886 (Num 6) (Num 2))
                 (Some 738886%Z) None (Num 6) (Num 2) ]).
Proof.
  apply (proj2 (live_type_codes_all_or_nothing _ _ _)).
  right. exists ["Crane"; "Excavator"]%string. split; [reflexivity|].
  right. left. reflexivity.
Defined.

Section LiveFrame.

Context {SK : Sklearn}.

(** X7.  The frame that [_load_database_data] builds from a non-empty
    query result has one row per queried row, in the same order and with
    the same equipment ids and types; no row has a null engine or idle
    hour, utilization, efficiency or rental duration, nor a null site, and
    the three demand columns hold the defaults 1, 2 and 8.  Without a
    query result, or with an empty one, the training frame is returned
    instead. *)
Theorem live_frame_shape (s : SmartMLSystem) (rows : list RawRow) :
  rows <> [] ->
  (exists frame,
      _load_database_data s (Some rows) = Some frame
      /\ List.map Equipment_ID frame = List.map raw_Equipment_ID rows
      /\ List.map Type_ frame = List.map raw_Type rows
      /\ Forall
           (fun row =>
              isna (Engine_Hours_Day row) = false
              /\ isna (Idle_Hours_Day row) = false
              /\ isna (utilization_ratio row) = false
              /\ isna (efficiency_score row) = false
              /\ isna (rental_duration row) = false
              /\ User_ID row <> None
              /\ daily_demand row = Num 1.0
              /\ demand_7d_avg row = Num 2.0
              /\ demand_30d_avg row = Num 8.0)
           frame)
  /\ _load_database_data s None = data s
  /\ _load_database_data s (Some []) = data s.
Proof.
  intros Hne. split; [|split; reflexivity].
  unfold _load_database_data.
  destruct (len_pos_not_nil rows Hne) as [-> _].
  eexists. split; [reflexivity|].
  unfold _add_calculated_columns_to_db_data.
  split; [|split].
  - rewrite List.map_map.
    rewrite (List.map_ext _ (fun '(_, r) => b_Equipment_ID r))
      by (intros [i r]; reflexivity).
    rewrite map_indexed_snd, List.map_map. reflexivity.
  - rewrite List.map_map.
    rewrite (List.map_ext _ (fun '(_, r) => b_Type r))
      by (intros [i r]; reflexivity).
    rewrite map_indexed_snd, List.map_map. reflexivity.
  - apply Forall_map_indexed_nth. intros i b Hb.
    rewrite nth_error_map in Hb.
    destruct (nth_error rows i) as [r|]; [|discriminate].
    injection Hb as <-.
    cbn [Engine_Hours_Day Idle_Hours_Day utilization_ratio efficiency_score
         rental_duration User_ID daily_demand demand_7d_avg demand_30d_avg
         base_of b_Engine_Hours_Day b_Idle_Hours_Day b_User_ID
         b_Check_in_Date b_Check_Out_Date].
    unfold db_efficiency_score, db_utilization_ratio.
    rewrite !fillna_num_notna.
    repeat split; try reflexivity.
    destruct (raw_User_ID r); discriminate.
Qed.

End LiveFrame.

Lemma live_frame_shape_witness :
  exists frame,
    _load_database_data trained_system
      (Some [live_row "EQ1" "Crane" "S1" 738886 NaN NaN])
    = Some frame
    /\ List.map Equipment_ID frame = ["EQ1"%string]
    /\ Forall (fun row => isna (Engine_Hours_Day row) = false
                          /\ isna (utilization_ratio row) = false)
              frame.
Proof.
  assert ([live_row "EQ1" "Crane" "S1" 738886 NaN NaN] <> []) as Hne
    by discriminate.
  destruct (proj1 (live_frame_shape (SK := column_sklearn) trained_system
                     _ Hne)) as (frame & Hf & Hid & _ & HF).
  exists frame. split; [exact Hf|]. split; [exact Hid|].
  apply (List.Forall_impl _ (P := fun row => _)) with (2 := HF).
  intros row (H1 & _ & H3 & _). split; [exact H1 | exact H3].
Defined.

Section SavedModels.

Context {SK : Sklearn}.

Lemma set_models_trained_eta (s : SmartMLSystem) :
  {| data := data s; scaler := scaler s;
     anomaly_detector := anomaly_detector s;
     demand_forecaster := demand_forecaster s;
     site_specific_models := site_specific_models s;
     equipment_encoder := equipment_encoder s;
     site_encoder := site_encoder s;
     models_trained := true |}
  = set_models_trained true s.
Proof. reflexivity. Qed.

Lemma _try_load_models_loaded (s0 : SmartMLSystem) (store : ModelStore)
    (detector : IsolationForest) (forecaster : GradientBoostingRegressor)
    (sc : StandardScaler) (saved_eq_enc saved_site_enc : LabelEncoder) :
  anomaly_detector_pkl store = Some detector ->
  demand_forecaster_pkl store = Some forecaster ->
  scaler_pkl store = Some sc ->
  equipment_encoder_pkl store = Some saved_eq_enc ->
  site_encoder_pkl store = Some saved_site_enc ->
  _try_load_models s0 store
  = ({| data := data s0;
        scaler := sc;
        anomaly_detector := detector;
        demand_forecaster := forecaster;
        site_specific_models :=
          map_imap (fun site _ => Some (site_model_pkl store !! site))
                   (site_specific_models s0);
        equipment_encoder := saved_eq_enc;
        site_encoder := saved_site_enc;
        models_trained := true |}, true).
Proof.
  intros Had Hdf Hsc Hee Hse.
  unfold _try_load_models. rewrite Had, Hdf, Hsc, Hee, Hse. reflexivity.
Qed.

Lemma run_dumps_all_dumped (disk : Disk) (jobs : list dump_job) :
  Forall (fun job => joblib_dump disk (file job) = Dumped) jobs ->
  forall store,
    run_dumps disk jobs store
    = fold_left (fun store job => write job store) jobs store.
Proof.
  induction 1 as [|job rest Hjob Hrest IH]; intros store; [reflexivity|].
  cbn [run_dumps fold_left]. rewrite Hjob. apply IH.
Qed.

Lemma run_dumps_raised (disk : Disk) (pre post : list dump_job)
    (job : dump_job) (file_kept : bool) :
  Forall (fun job => joblib_dump disk (file job) = Dumped) pre ->
  joblib_dump disk (file job) = DumpRaised file_kept ->
  forall store,
    run_dumps disk (pre ++ job :: post) store
    = (if file_kept then fun store => store else spoil job)
        (fold_left (fun store job => write job store) pre store).
Proof.
  intros Hpre Hjob.
  induction Hpre as [|job0 rest Hjob0 Hrest IH]; intros store.
  - cbn [app run_dumps fold_left]. rewrite Hjob.
    destruct file_kept; reflexivity.
  - cbn [app run_dumps fold_left]. rewrite Hjob0. apply IH.
Qed.

(** The directory after the dumps of the site models, when each is
    written. *)
Lemma site_dumps_written (s : SmartMLSystem) (sites : list string) :
  forall store,
    let store' :=
      fold_left (fun store job => write job store)
        (omap
           (fun site =>
              match site_specific_models s !! site with
              | Some model =>
                  Some {| file := ("site_model_" ++ site ++ ".pkl")%string;
                          write := set_site_model_file site model;
                          spoil := set_site_model_file site None |}
              | None => None
              end)
           sites)
        store in
    anomaly_detector_pkl store' = anomaly_detector_pkl store
    /\ demand_forecaster_pkl store' = demand_forecaster_pkl store
    /\ scaler_pkl store' = scaler_pkl store
    /\ equipment_encoder_pkl store' = equipment_encoder_pkl store
    /\ site_encoder_pkl store' = site_encoder_pkl store
    /\ forall site model,
         site_specific_models s !! site = Some model ->
         In site sites \/ site_model_pkl store !! site = model ->
         site_model_pkl store' !! site = model.
Proof.
  induction sites as [|site0 rest IH]; intros store.
  - cbn. split_ands; try reflexivity.
    intros site model _ [[]|H]. exact H.
  - cbn [omap list_omap].
    destruct (site_specific_models s !! site0) as [model0|] eqn:E0.
    + cbn [fold_left write].
      destruct (IH (set_site_model_file site0 model0 store))
        as (H1 & H2 & H3 & H4 & H5 & Hsite).
      cbv zeta. rewrite H1, H2, H3, H4, H5. split_ands; try reflexivity.
      intros site model Hm Hin. apply (Hsite site model Hm).
      destruct (String.eqb_spec site0 site) as [Heq|Hne].
      * right. rewrite Heq in *. rewrite Hm in E0. injection E0 as <-.
        cbn [set_site_model_file site_model_pkl].
        destruct model as [m|];
          [apply lookup_insert_eq | apply lookup_delete_eq].
      * destruct Hin as [[Heq|Hin]|Hold]; [congruence | left; exact Hin|].
        right. cbn [set_site_model_file site_model_pkl].
        destruct model0 as [m|].
        -- rewrite lookup_insert_ne by exact Hne. exact Hold.
        -- rewrite lookup_delete_ne by exact Hne. exact Hold.
    + destruct (IH store) as (H1 & H2 & H3 & H4 & H5 & Hsite).
      cbv zeta. split_ands; try assumption.
      intros site model Hm Hin. apply (Hsite site model Hm).
      destruct Hin as [[Heq|Hin]|Hold]; [congruence | left; exact Hin|].
      right. exact Hold.
Qed.

Lemma save_jobs_dumped (s : SmartMLSystem) (sites : list string)
    (disk : Disk) :
  (forall name, joblib_dump disk name = Dumped) ->
  Forall (fun job => joblib_dump disk (file job) = Dumped)
         (save_jobs s sites).
Proof. intros H. apply List.Forall_forall. intros job _. apply H. Qed.

(** X8.  [save_models] raises only when [os.makedirs] does: a
    [joblib.dump] that raises ends the saving without an error, the
    objects dumped before it written, its own file left as it was or
    unreadable, and no later file written.  When no dump raises, saving
    and loading are inverse to each other: [_try_load_models] then
    succeeds on every system, installs the scaler, the detector, the
    forecaster and the two encoders of the system that was saved and
    leaves the training frame alone; on the system that was saved it
    changes nothing but the trained flag, which it sets, and the site
    models are restored entry by entry. *)
Theorem save_then_load_restores (s s0 : SmartMLSystem)
    (models_dir : option ModelStore) (sites : list string) (disk : Disk) :
  let before :=
    match models_dir with
    | Some store => store
    | None => empty_store
    end in
  (save_models s models_dir sites disk = None
   <-> makedirs_raises disk = true)
  /\ (forall pre job post file_kept,
         makedirs_raises disk = false ->
         save_jobs s sites = pre ++ job :: post ->
         Forall (fun job => joblib_dump disk (file job) = Dumped) pre ->
         joblib_dump disk (file job) = DumpRaised file_kept ->
         save_models s models_dir sites disk
         = Some ((if file_kept then fun store => store else spoil job)
                   (fold_left (fun store job => write job store) pre
                      before)))
  /\ (makedirs_raises disk = false ->
      (forall name, joblib_dump disk name = Dumped) ->
      (forall site, site_specific_models s !! site <> None ->
                    In site sites) ->
      exists store,
        save_models s models_dir sites disk = Some store
        /\ _try_load_models s store = (set_models_trained true s, true)
        /\ snd (_try_load_models s0 store) = true
        /\ (let s1 := fst (_try_load_models s0 store) in
            scaler s1 = scaler s
            /\ anomaly_detector s1 = anomaly_detector s
            /\ demand_forecaster s1 = demand_forecaster s
            /\ equipment_encoder s1 = equipment_encoder s
            /\ site_encoder s1 = site_encoder s
            /\ data s1 = data s0
            /\ models_trained s1 = true
            /\ forall site model,
                 site_specific_models s0 !! site <> None ->
                 site_specific_models s !! site = Some model ->
                 site_specific_models s1 !! site = Some model)).
Proof.
  intros before. unfold save_models. fold before.
  split; [|split].
  - destruct (makedirs_raises disk); split; congruence.
  - intros pre job post file_kept -> Hjobs Hpre Hjob.
    rewrite Hjobs, (run_dumps_raised disk pre post job file_kept Hpre Hjob).
    reflexivity.
  - intros -> Hdumped Hsites.
    rewrite (run_dumps_all_dumped disk _ (save_jobs_dumped s sites disk Hdumped)).
    eexists. split; [reflexivity|].
    unfold save_jobs. rewrite fold_left_app. cbn [fold_left write].
    set (five := set_site_encoder_pkl _ _).
    destruct (site_dumps_written s sites five)
      as (H1 & H2 & H3 & H4 & H5 & Hsite).
    cbv zeta in H1, H2, H3, H4, H5, Hsite.
    set (store := fold_left _ _ five) in *.
    assert (forall s', _try_load_models s' store
                       = ({| data := data s';
                             scaler := scaler s;
                             anomaly_detector := anomaly_detector s;
                             demand_forecaster := demand_forecaster s;
                             site_specific_models :=
                               map_imap
                                 (fun site _ =>
                                    Some (site_model_pkl store !! site))
                                 (site_specific_models s');
                             equipment_encoder := equipment_encoder s;
                             site_encoder := site_encoder s;
                             models_trained := true |}, true)) as Hload.
    { intros s'. apply _try_load_models_loaded; assumption. }
    assert (forall site model,
               site_specific_models s !! site = Some model ->
               site_model_pkl store !! site = model) as Hrestored.
    { intros site model Hm. apply (Hsite site model Hm). left.
      apply Hsites. congruence. }
    split; [|split].
    + rewrite Hload, <- set_models_trained_eta. f_equal. f_equal.
      apply map_eq. intros site. rewrite map_lookup_imap.
      destruct (site_specific_models s !! site) as [model|] eqn:Em;
        [|reflexivity].
      cbn. rewrite (Hrestored site model Em). reflexivity.
    + rewrite Hload. reflexivity.
    + rewrite Hload. cbv zeta.
      cbn [fst scaler anomaly_detector demand_forecaster equipment_encoder
           site_encoder data models_trained site_specific_models].
      do 7 (split; [reflexivity|]).
      intros site model Hkey Hm.
      rewrite map_lookup_imap, (Hrestored site model Hm).
      destruct (site_specific_models s0 !! site) as [old|]; [|congruence].
      reflexivity.
Qed.


Lemma to_datetime_None (col : list date_cell) :
  to_datetime col = None <-> In DateBad col.
Proof.
  induction col as [|c rest IH]; cbn.
  - split; [discriminate | tauto].
  - destruct c.
    + destruct (to_datetime rest).
      * split; [discriminate|]. intros [H|H]; [discriminate|].
        apply IH in H. discriminate.
      * split; [|reflexivity]. intros _. right. apply IH. reflexivity.
    + destruct (to_datetime rest).
      * split; [discriminate|]. intros [H|H]; [discriminate|].
        apply IH in H. discriminate.
      * split; [|reflexivity]. intros _. right. apply IH. reflexivity.
    + split; [|reflexivity]. intros _. left. reflexivity.
Qed.

Lemma _preprocess_data_None (raw : list RawRow) :
  _preprocess_data raw = None
  <-> Exists (fun r => raw_Check_Out_Date r = DateBad
                       \/ raw_Check_in_Date r = DateBad) raw.
Proof.
  unfold _preprocess_data.
  rewrite List.Exists_exists.
  destruct (to_datetime (List.map raw_Check_Out_Date raw)) as [outs|] eqn:Eo.
  - destruct (to_datetime (List.map raw_Check_in_Date raw)) as [ins|] eqn:Ei.
    + split.
      * destruct (encoder_fit_transform _) as [e1 c1].
        destruct (encoder_fit_transform _) as [e2 c2]. discriminate.
      * intros (r & Hin & [Hb|Hb]).
        -- assert (to_datetime (List.map raw_Check_Out_Date raw) = None) as E.
           { apply to_datetime_None. rewrite <- Hb. apply in_map. exact Hin. }
           congruence.
        -- assert (to_datetime (List.map raw_Check_in_Date raw) = None) as E.
           { apply to_datetime_None. rewrite <- Hb. apply in_map. exact Hin. }
           congruence.
    + split; [intros _|reflexivity].
      apply to_datetime_None in Ei. apply in_map_iff in Ei as (r & Hr & Hin).
      exists r. split; [exact Hin | right; exact Hr].
  - split; [intros _|reflexivity].
    apply to_datetime_None in Eo. apply in_map_iff in Eo as (r & Hr & Hin).
    exists r. split; [exact Hin | left; exact Hr].
Qed.

(** X11.  When the [models] directory holds the five model files, the
    constructor does not train: the instance it returns has the frame and
    nothing else from the CSV file, the five objects of the files,
    including the two encoders in place of the ones fitted on the CSV
    file, and is marked trained however few rows the CSV file has.  Its
    [site_specific_models] is empty whatever site files the directory
    holds. *)
Theorem constructor_with_saved_models (w : World) (raw : list RawRow)
    (store : ModelStore) (frame : Frame) (eq_enc site_enc : LabelEncoder)
    (detector : IsolationForest) (forecaster : GradientBoostingRegressor)
    (sc : StandardScaler) (saved_eq_enc saved_site_enc : LabelEncoder) :
  csv w = Some raw ->
  models_dir w = Some store ->
  _preprocess_data raw = Some (frame, eq_enc, site_enc) ->
  anomaly_detector_pkl store = Some detector ->
  demand_forecaster_pkl store = Some forecaster ->
  scaler_pkl store = Some sc ->
  equipment_encoder_pkl store = Some saved_eq_enc ->
  site_encoder_pkl store = Some saved_site_enc ->
  __init__ w
  = Some {| data := Some frame;
            scaler := sc;
            anomaly_detector := detector;
            demand_forecaster := forecaster;
            site_specific_models := ∅;
            equipment_encoder := saved_eq_enc;
            site_encoder := saved_site_enc;
            models_trained := true |}.
Proof.
  intros Hcsv Hdir Hpre Had Hdf Hsc Hee Hse.
  unfold __init__. rewrite Hcsv, Hpre, Hdir.
  unfold _try_load_models. rewrite Had, Hdf, Hsc, Hee, Hse.
  cbn. rewrite map_imap_empty. reflexivity.
Qed.

End SavedModels.

Lemma save_then_load_restores_witness :
  (exists store,
      save_models trained_system (Some empty_store) ["S1"%string]
        working_disk = Some store
      /\ _try_load_models trained_system store = (trained_system, true))
  /\ save_models trained_system None ["S1"%string] scaler_failing_disk
     = Some (@Build_ModelStore column_sklearn
               (Some true) (Some (Some 10%nat)) None None None ∅)
  /\ snd (_try_load_models trained_system
            (@Build_ModelStore column_sklearn
               (Some true) (Some (Some 10%nat)) None None None ∅))
     = false.
Proof.
  split; [|split; [|reflexivity]].
  - destruct (proj2 (proj2 (save_then_load_restores (SK := column_sklearn)
                              trained_system trained_system
                              (Some empty_store) ["S1"%string]
                              working_disk)))
      as (store & Hsave & Hload & _).
    + reflexivity.
    + intros name. reflexivity.
    + intros site Hsite.
      destruct (String.eqb_spec site "S1") as [->|Hne];
        [left; reflexivity|].
      exfalso. apply Hsite. unfold trained_system.
      cbn [site_specific_models]. apply lookup_singleton_ne.
      congruence.
    + exists store. split; [exact Hsave | exact Hload].
  - pose proof (proj1 (proj2 (save_then_load_restores (SK := column_sklearn)
                                trained_system trained_system None
                                ["S1"%string] scaler_failing_disk)))
      as Hraised.
    cbv zeta in Hraised.
    rewrite (Hraised
               (firstn 2 (save_jobs trained_system ["S1"%string]))
               (nth 2 (save_jobs trained_system ["S1"%string])
                    (Build_dump_job EmptyString (fun store => store)
                       (fun store => store)))
               (skipn 3 (save_jobs trained_system ["S1"%string]))
               false).
    + reflexivity.
    + reflexivity.
    + reflexivity.
    + repeat constructor.
    + reflexivity.
Defined.


Lemma constructor_with_saved_models_witness :
  exists frame,
    len frame = 20%Z
    /\ __init__ (saved_models_world 20)
       = Some (@Build_SmartMLSystem column_sklearn
                 (Some frame) true true (Some 10%nat) ∅
                 (Some ["Crane"; "Excavator"]%string)
                 (Some ["S1"; "S2"]%string)
                 true).
Proof.
  assert (exists frame eq_enc site_enc,
             _preprocess_data (rental_rows 1 20)
             = Some (frame, eq_enc, site_enc) /\ len frame = 20%Z)
    as (frame & eq_enc & site_enc & Hpre & Hlen).
  { vm_compute. do 3 eexists. split; reflexivity. }
  exists frame. split; [exact Hlen|].
  apply (constructor_with_saved_models (SK := column_sklearn)
           (saved_models_world 20) (rental_rows 1 20)
           (@Build_ModelStore column_sklearn
              (Some true) (Some (Some 10%nat)) (Some true)
              (Some (Some ["Crane"; "Excavator"]%string))
              (Some (Some ["S1"; "S2"]%string))
              {[ "S1"%string := Some 7%nat ]})
           frame eq_enc site_enc);
    try reflexivity.
  exact Hpre.
Defined.

Section SiteModels.

Context {SK : Sklearn}.

Lemma train_site_model_other (frame : Frame) (site' site : string)
    (models : gmap string (option GradientBoostingRegressor)) :
  site' <> site ->
  train_site_model frame site' models !! site = models !! site.
Proof.
  intros Hne. unfold train_site_model.
  destruct (String.eqb site' "UNASSIGNED"); [reflexivity|].
  destruct (len (filter_User_ID site' frame) <? 10)%Z; [reflexivity|].
  destruct (len (dropna site_feature_columns (filter_User_ID site' frame))
            <? 5)%Z; [reflexivity|].
  destruct (regressor_fit _ _ _); [|reflexivity].
  apply lookup_insert_ne. exact Hne.
Qed.

Lemma train_site_model_lookup (frame : Frame) (site' site : string)
    (models : gmap string (option GradientBoostingRegressor)) :
  train_site_model frame site' models !! site = models !! site
  \/ exists m, train_site_model frame site' models !! site = Some (Some m).
Proof.
  destruct (String.eqb_spec site' site) as [->|Hne].
  - unfold train_site_model.
    destruct (String.eqb site "UNASSIGNED"); [left; reflexivity|].
    destruct (len (filter_User_ID site frame) <? 10)%Z; [left; reflexivity|].
    destruct (len (dropna site_feature_columns (filter_User_ID site frame))
              <? 5)%Z; [left; reflexivity|].
    destruct (regressor_fit _ _ _) as [m|]; [|left; reflexivity].
    right. exists m. apply lookup_insert_eq.
  - left. apply train_site_model_other. exact Hne.
Qed.

Lemma fold_train_site_model_lookup (frame : Frame) (sites : list string)
    (site : string) :
  forall models,
    fold_left (fun models site => train_site_model frame site models)
      sites models !! site = models !! site
    \/ exists m,
         fold_left (fun models site => train_site_model frame site models)
           sites models !! site = Some (Some m).
Proof.
  induction sites as [|x rest IH]; intros models; cbn [fold_left].
  - left. reflexivity.
  - destruct (IH (train_site_model frame x models)) as [E|[m E]].
    + rewrite E. apply train_site_model_lookup.
    + right. exists m. exact E.
Qed.

Lemma In_unique (x : string) (l : list string) : In x (unique l) <-> In x l.
Proof.
  induction l as [|y rest IH]; cbn [unique]; [tauto|].
  cbn [In]. rewrite filter_In, IH.
  destruct (String.eqb_spec x y) as [->|Hne].
  - split; [intros _|]; left; reflexivity.
  - split.
    + intros [E|[H _]]; [left; exact E | right; exact H].
    + intros [E|H]; [left; exact E|]. right. split; [exact H|].
      reflexivity.
Qed.

Lemma site_of_large_group (frame : Frame) (site : string) :
  (0 < len (filter_User_ID site frame))%Z ->
  In site (unique (List.map user_id_text frame)).
Proof.
  intros Hpos. apply In_unique.
  unfold filter_User_ID, len in Hpos.
  destruct (List.filter (fun r => opt_string_eqb (User_ID r) site) frame)
    as [|r rest] eqn:E; [cbn [length] in Hpos; lia|].
  assert (In r (List.filter
                  (fun r => opt_string_eqb (User_ID r) site) frame)) as Hin
    by (rewrite E; left; reflexivity).
  apply filter_In in Hin as [Hin Heq].
  apply in_map_iff. exists r. split; [|exact Hin].
  unfold user_id_text. unfold opt_string_eqb in Heq.
  destruct (User_ID r) as [u|]; [|discriminate].
  apply String.eqb_eq in Heq. exact Heq.
Qed.

(** X12.  [_train_site_specific_models] gives a site a model exactly
    when the site is not ['UNASSIGNED'], has at least 10 rows in the
    training frame, at least 5 of them without a null site feature, and
    the fit on these rows does not raise: the entry of the site is then
    the fitted model.  In every other case the entry of the site is what
    it was, a model of an earlier training included.  The frame and the
    trained flag are not touched. *)
Theorem site_model_trained_iff (s : SmartMLSystem) (frame : Frame)
    (site : string) :
  data s = Some frame ->
  let rows := filter_User_ID site frame in
  let complete := dropna site_feature_columns rows in
  let fitted :=
    regressor_fit (new_regressor 100 4)
      (List.map (select site_feature_columns) complete)
      (List.map daily_demand complete) in
  let s' := _train_site_specific_models s in
  (site <> "UNASSIGNED"%string ->
   (10 <= len rows)%Z ->
   (5 <= len complete)%Z ->
   forall m, fitted = Some m ->
             site_specific_models s' !! site = Some (Some m))
  /\ (site = "UNASSIGNED"%string
      \/ (len rows < 10)%Z
      \/ (len complete < 5)%Z
      \/ fitted = None ->
      site_specific_models s' !! site = site_specific_models s !! site)
  /\ data s' = data s
  /\ models_trained s' = models_trained s.
Proof.
  intros Hd rows complete fitted s'.
  subst s'. unfold _train_site_specific_models. rewrite Hd.
  cbn [site_specific_models set_site_specific_models data models_trained].
  split; [|split; [|split; [exact Hd | reflexivity]]].
  - intros Hne H10 H5 m Hfit.
    assert (Hstep : forall models,
               train_site_model frame site models !! site = Some (Some m)).
    { intros models. unfold train_site_model.
      apply String.eqb_neq in Hne. rewrite Hne.
      apply Z.ltb_ge in H10, H5.
      fold rows. rewrite H10. fold complete. rewrite H5.
      fold fitted. rewrite Hfit. apply lookup_insert_eq. }
    assert (Hin : In site (unique (List.map user_id_text frame))).
    { apply site_of_large_group. fold rows. lia. }
    revert Hin. generalize (site_specific_models s) as models.
    generalize (unique (List.map user_id_text frame)) as sites.
    assert (Hgen : forall sites models,
               In site sites \/ models !! site = Some (Some m) ->
               fold_left (fun models site => train_site_model frame site models)
                 sites models !! site = Some (Some m)).
    { induction sites as [|x rest IH]; intros models [Hin|Hm];
        cbn [fold_left].
      - destruct Hin.
      - exact Hm.
      - apply IH. destruct Hin as [->|Hin]; [right; apply Hstep|].
        left. exact Hin.
      - apply IH. right.
        destruct (String.eqb_spec x site) as [->|Hx]; [apply Hstep|].
        rewrite train_site_model_other by exact Hx. exact Hm. }
    intros sites models Hin. apply Hgen. left. exact Hin.
  - intros Hno.
    assert (Hstep : forall models,
               train_site_model frame site models = models).
    { intros models. unfold train_site_model.
      destruct (String.eqb_spec site "UNASSIGNED") as [E|Hne];
        [reflexivity|].
      fold rows.
      destruct (len rows <? 10)%Z eqn:E10; [reflexivity|].
      fold complete.
      destruct (len complete <? 5)%Z eqn:E5; [reflexivity|].
      fold fitted.
      destruct fitted as [m|] eqn:Ef; [|reflexivity].
      apply Z.ltb_ge in E10, E5.
      destruct Hno as [H|[H|[H|H]]]; [contradiction | lia | lia
                                      | discriminate]. }
    generalize (site_specific_models s) as models.
    generalize (unique (List.map user_id_text frame)) as sites.
    induction sites as [|x rest IH]; intros models; cbn [fold_left].
    + reflexivity.
    + rewrite IH.
      destruct (String.eqb_spec x site) as [->|Hx].
      * rewrite Hstep. reflexivity.
      * apply train_site_model_other. exact Hx.
Qed.

Lemma _train_site_specific_models_keeps (s : SmartMLSystem) :
  data (_train_site_specific_models s) = data s
  /\ equipment_encoder (_train_site_specific_models s) = equipment_encoder s
  /\ site_encoder (_train_site_specific_models s) = site_encoder s
  /\ models_trained (_train_site_specific_models s) = models_trained s
  /\ forall site,
       site_specific_models s !! site <> None ->
       site_specific_models (_train_site_specific_models s) !! site <> None.
Proof.
  unfold _train_site_specific_models.
  destruct (data s) as [frame|] eqn:Hd.
  - cbn. split_ands; try exact Hd; try reflexivity.
    intros site Hsome.
    destruct (fold_train_site_model_lookup frame
                (unique (List.map user_id_text frame)) site
                (site_specific_models s)) as [E|[m E]];
      rewrite E; [exact Hsome | discriminate].
  - split_ands; try exact Hd; try reflexivity. intros site H. exact H.
Qed.

Lemma train_models_body_keeps (s s1 : SmartMLSystem) (clean_data : Frame) :
  train_models_body s clean_data = inl s1
  \/ train_models_body s clean_data = inr s1 ->
  data s1 = data s
  /\ equipment_encoder s1 = equipment_encoder s
  /\ site_encoder s1 = site_encoder s
  /\ forall site,
       site_specific_models s !! site <> None ->
       site_specific_models s1 !! site <> None.
Proof.
  unfold train_models_body.
  destruct (train_test_split _) as [train test].
  destruct (scaler_fit _ _) as [sc|];
    [|intros [[= <-]|[=]]; split_ands; auto].
  destruct (scaler_transform sc (List.map fst train)) as [Xtr|];
    [|intros [[= <-]|[=]]; split_ands; auto].
  destruct (scaler_transform sc (List.map fst test)) as [Xte|];
    [|intros [[= <-]|[=]]; split_ands; auto].
  destruct (regressor_fit _ _ _) as [forecaster|];
    [|intros [[= <-]|[=]]; split_ands; auto].
  destruct (regressor_predict _ _) as [y_pred|];
    [|intros [[= <-]|[=]]; split_ands; auto].
  set (s2 := set_demand_forecaster forecaster (set_scaler sc s)).
  destruct (_train_site_specific_models_keeps s2) as (Kd & Ke & Ks & _ & Km).
  change (data s2) with (data s) in Kd.
  change (equipment_encoder s2) with (equipment_encoder s) in Ke.
  change (site_encoder s2) with (site_encoder s) in Ks.
  change (site_specific_models s2) with (site_specific_models s) in Km.
  destruct (0 <? len (dropna anomaly_features clean_data))%Z.
  - destruct (isolation_forest_fit _ _) as [detector|];
      intros [[= <-]|[= <-]]; cbn; split_ands; auto.
  - intros [[=]|[= <-]]. split_ands; auto.
Qed.

(** X13.  Training never changes the training frame nor the two label
    encoders, and never removes a site from [site_specific_models].  A
    system is trained after [_train_models] only if it was trained
    before, or if the frame has at least 50 rows of which at least 30
    have no null feature. *)
Theorem train_models_invariants (s : SmartMLSystem) :
  data (_train_models s) = data s
  /\ equipment_encoder (_train_models s) = equipment_encoder s
  /\ site_encoder (_train_models s) = site_encoder s
  /\ (forall site,
         site_specific_models s !! site <> None ->
         site_specific_models (_train_models s) !! site <> None)
  /\ (models_trained (_train_models s) = true ->
      models_trained s = true
      \/ exists frame,
           data s = Some frame
           /\ (50 <= len frame)%Z
           /\ (30 <= len (dropna feature_columns frame))%Z).
Proof.
  unfold _train_models.
  destruct (data s) as [frame|] eqn:Hd;
    [|rewrite Hd; split_ands; auto].
  destruct (len frame <? 50)%Z eqn:E50;
    [rewrite Hd; split_ands; auto|].
  destruct (len (dropna feature_columns frame) <? 30)%Z eqn:E30;
    [rewrite Hd; split_ands; auto|].
  apply Z.ltb_ge in E50, E30.
  destruct (train_models_body s (dropna feature_columns frame))
    as [s1|s1] eqn:Eb.
  - destruct (train_models_body_keeps s s1 _ (or_introl Eb))
      as (Kd & Ke & Ks & Km).
    cbn. rewrite Kd, Ke, Ks, Hd. split_ands; auto. discriminate.
  - destruct (train_models_body_keeps s s1 _ (or_intror Eb))
      as (Kd & Ke & Ks & Km).
    cbn. rewrite Kd, Ke, Ks, Hd. split_ands; auto.
    intros _. right. exists frame. auto.
Qed.

End SiteModels.

(** ** What makes the constructor raise *)

Section ConstructorOutcomes.

Context {SK : Sklearn}.

Lemma _try_load_models_result (s : SmartMLSystem) (store : ModelStore) :
  data (fst (_try_load_models s store)) = data s
  /\ (snd (_try_load_models s store) = true ->
      anomaly_detector_pkl store <> None
      /\ demand_forecaster_pkl store <> None
      /\ scaler_pkl store <> None
      /\ equipment_encoder_pkl store <> None
      /\ site_encoder_pkl store <> None)
  /\ (snd (_try_load_models s store) = false ->
      models_trained (fst (_try_load_models s store)) = models_trained s).
Proof.
  unfold _try_load_models.
  destruct (anomaly_detector_pkl store);
    [|cbn; split_ands; auto; discriminate].
  destruct (demand_forecaster_pkl store);
    [|cbn; split_ands; auto; discriminate].
  destruct (scaler_pkl store); [|cbn; split_ands; auto; discriminate].
  destruct (equipment_encoder_pkl store);
    [|cbn; split_ands; auto; discriminate].
  destruct (site_encoder_pkl store); [|cbn; split_ands; auto; discriminate].
  cbn. split_ands; auto; discriminate.
Qed.

Lemma _train_models_result (s : SmartMLSystem) :
  data (_train_models s) = data s
  /\ (models_trained (_train_models s) = true ->
      models_trained s = true
      \/ exists frame,
           data s = Some frame
           /\ (50 <= len frame)%Z
           /\ (30 <= len (dropna feature_columns frame))%Z).
Proof.
  unfold _train_models.
  destruct (data s) as [frame|] eqn:Hd; [|rewrite Hd; auto].
  destruct (len frame <? 50)%Z eqn:E50; [rewrite Hd; auto|].
  destruct (len (dropna feature_columns frame) <? 30)%Z eqn:E30;
    [rewrite Hd; auto|].
  apply Z.ltb_ge in E50, E30.
  destruct (train_models_body s (dropna feature_columns frame))
    as [s1|s1] eqn:Eb.
  - destruct (train_models_body_keeps s s1 _ (or_introl Eb)) as (Kd & _).
    cbn. rewrite Kd, Hd. split; [reflexivity | discriminate].
  - destruct (train_models_body_keeps s s1 _ (or_intror Eb)) as (Kd & _).
    cbn. rewrite Kd, Hd. split; [reflexivity|].
    intros _. right. exists frame. auto.
Qed.

(** X10.  A check-out or check-in date of the CSV file that does not
    parse makes the constructor raise, whatever the [models] directory
    holds.  A CSV file that cannot be read does not: the constructor then
    returns the instance with no frame and the unfitted objects.  And once
    [_preprocess_data] has returned, nothing makes the constructor raise:
    with model files missing or unreadable, or a training that fails, it
    returns an instance that holds the preprocessed frame, and that is
    marked trained only if the five model files were loaded or the frame
    has at least 50 rows of which at least 30 have no null feature. *)
Theorem constructor_raises_on_bad_date (w : World) :
  (forall raw,
      csv w = Some raw ->
      Exists (fun r => raw_Check_Out_Date r = DateBad
                       \/ raw_Check_in_Date r = DateBad) raw ->
      __init__ w = None)
  /\ (csv w = None -> __init__ w = Some fresh_system)
  /\ (forall raw frame eq_enc site_enc,
         csv w = Some raw ->
         _preprocess_data raw = Some (frame, eq_enc, site_enc) ->
         exists s,
           __init__ w = Some s
           /\ data s = Some frame
           /\ (models_trained s = true ->
               (exists store,
                   models_dir w = Some store
                   /\ anomaly_detector_pkl store <> None
                   /\ demand_forecaster_pkl store <> None
                   /\ scaler_pkl store <> None
                   /\ equipment_encoder_pkl store <> None
                   /\ site_encoder_pkl store <> None)
               \/ ((50 <= len frame)%Z
                   /\ (30 <= len (dropna feature_columns frame))%Z))).
Proof.
  split; [|split].
  - intros raw Hcsv Hbad. unfold __init__. rewrite Hcsv.
    apply _preprocess_data_None in Hbad. rewrite Hbad. reflexivity.
  - intros Hcsv. unfold __init__. rewrite Hcsv. reflexivity.
  - intros raw frame eq_enc site_enc Hcsv Hpre.
    unfold __init__. rewrite Hcsv, Hpre.
    set (s0 := set_encoders eq_enc site_enc
                 (set_data (Some frame) fresh_system)).
    assert (Htrain : forall s1,
               data s1 = Some frame ->
               models_trained s1 = false ->
               data (_train_models s1) = Some frame
               /\ (models_trained (_train_models s1) = true ->
                   (50 <= len frame)%Z
                   /\ (30 <= len (dropna feature_columns frame))%Z)).
    { intros s1 Hd Ht. destruct (_train_models_result s1) as [Kd Kt].
      split; [congruence|]. intros Htrained.
      destruct (Kt Htrained) as [Hwas|(frame' & Hd' & Hsize)];
        [congruence|].
      assert (frame' = frame) as -> by congruence. exact Hsize. }
    destruct (models_dir w) as [store|].
    + destruct (_try_load_models_result s0 store) as (Ld & Lfiles & Lt).
      destruct (_try_load_models s0 store) as [s1 loaded].
      cbn [fst snd] in Ld, Lfiles, Lt. destruct loaded.
      * exists s1. split; [reflexivity|]. split; [exact Ld|].
        intros _. left. exists store. split; [reflexivity|].
        apply Lfiles. reflexivity.
      * destruct (Htrain s1 Ld (Lt eq_refl)) as [Kd Kt].
        exists (_train_models s1). split; [reflexivity|].
        split; [exact Kd|]. intros Htrained. right. apply Kt. exact Htrained.
    + destruct (Htrain s0 eq_refl eq_refl) as [Kd Kt].
      exists (_train_models s0). split; [reflexivity|].
      split; [exact Kd|]. intros Htrained. right. apply Kt. exact Htrained.
Qed.

End ConstructorOutcomes.

Lemma constructor_raises_on_bad_date_witness :
  __init__ (bad_date_world (SK := column_sklearn)) = None
  /\ __init__ (unreadable_world (SK := column_sklearn)) = Some fresh_system
  /\ exists s frame,
       __init__ (csv_world (SK := column_sklearn) 20) = Some s
       /\ data s = Some frame
       /\ len frame = 20%Z
       /\ models_trained s = false.
Proof.
  pose proof (constructor_raises_on_bad_date (SK := column_sklearn)
                bad_date_world) as (Hbad & _ & _).
  pose proof (constructor_raises_on_bad_date (SK := column_sklearn)
                unreadable_world) as (_ & Hnone & _).
  pose proof (constructor_raises_on_bad_date (SK := column_sklearn)
                (csv_world 20)) as (_ & _ & Hsome).
  split; [|split].
  - eapply Hbad; [reflexivity|]. constructor. left. reflexivity.
  - apply Hnone. reflexivity.
  - assert (exists frame eq_enc site_enc,
               _preprocess_data (rental_rows 1 20)
               = Some (frame, eq_enc, site_enc)
               /\ len frame = 20%Z) as (frame & e1 & e2 & Hpre & Hlen).
    { vm_compute. do 3 eexists. split; reflexivity. }
    destruct (Hsome _ frame e1 e2 eq_refl Hpre) as (s & Hs & Hd & Ht).
    exists s, frame. split; [exact Hs|]. split; [exact Hd|].
    split; [exact Hlen|].
    destruct (models_trained s); [|reflexivity].
    destruct (Ht eq_refl) as [(store & Hdir & _)|[H50 _]].
    + discriminate Hdir.
    + rewrite Hlen in H50. lia.
Defined.

Lemma site_model_trained_iff_witness :
  site_specific_models (_train_site_specific_models (loaded_system 20))
  !! "S1"%string
  = Some (Some (Some 0%nat))
  /\ site_specific_models (_train_site_specific_models (loaded_system 20))
     !! "UNASSIGNED"%string
     = None.
Proof.
  assert (exists frame,
             data (loaded_system 20) = Some frame
             /\ (10 <= len (filter_User_ID "S1" frame))%Z
             /\ (5 <= len (dropna site_feature_columns
                             (filter_User_ID "S1" frame)))%Z)
    as (frame & Hd & H10 & H5).
  { vm_compute. eexists. split; [reflexivity|].
    split; vm_compute; discriminate. }
  split.
  - apply (proj1 (site_model_trained_iff (SK := column_sklearn)
                    (loaded_system 20) frame "S1" Hd));
      [discriminate | exact H10 | exact H5 | reflexivity].
  - rewrite (proj1 (proj2 (site_model_trained_iff (SK := column_sklearn)
                             (loaded_system 20) frame "UNASSIGNED" Hd)));
      [reflexivity | left; reflexivity].
Defined.

Lemma train_models_invariants_witness :
  models_trained (_train_models (loaded_system 50)) = true
  /\ models_trained (loaded_system 50) = false
  /\ data (_train_models (loaded_system 50)) = data (loaded_system 50)
  /\ exists frame,
       data (loaded_system 50) = Some frame
       /\ (50 <= len frame)%Z
       /\ (30 <= len (dropna feature_columns frame))%Z.
Proof.
  assert (models_trained (_train_models (loaded_system 50)) = true) as Ht
    by (vm_compute; reflexivity).
  assert (models_trained (loaded_system 50) = false) as Hu
    by (vm_compute; reflexivity).
  destruct (train_models_invariants (SK := column_sklearn) (loaded_system 50))
    as (Hd & _ & _ & _ & Hwhy).
  split; [exact Ht|]. split; [exact Hu|]. split; [exact Hd|].
  destruct (Hwhy Ht) as [Hb|Hframe]; [congruence | exact Hframe].
Defined.

(** ** The training frame *)

Lemma to_datetime_cells (col : list date_cell) (ds : list (option Z)) :
  to_datetime col = Some ds -> ds = List.map to_datetime_coerce col.
Proof.
  revert ds. induction col as [|c rest IH]; intros ds; cbn.
  - intros [= <-]. reflexivity.
  - destruct c; try discriminate;
      (destruct (to_datetime rest) as [ds'|]; [|discriminate]);
      intros [= <-]; rewrite (IH ds' eq_refl); reflexivity.
Qed.

Lemma combine_map_r {A B : Type} (g : A -> B) (l : list A) :
  List.combine l (List.map g l) = List.map (fun x => (x, g x)) l.
Proof. induction l as [|x rest IH]; cbn; [|rewrite IH]; reflexivity. Qed.

Lemma combine_map_both {A B C : Type} (f : A -> B) (g : A -> C)
    (l : list A) :
  List.combine (List.map f l) (List.map g l)
  = List.map (fun x => (f x, g x)) l.
Proof. induction l as [|x rest IH]; cbn; [|rewrite IH]; reflexivity. Qed.








(** ** The trend of a forecast *)

Lemma fold_left_Qplus_acc (l : list Q) (a : Q) :
  fold_left Qplus l a == a + Qsum l.
Proof.
  unfold Qsum. revert a. induction l as [|x rest IH]; intros a; cbn.
  - ring.
  - rewrite (IH (a + x)), (IH (0 + x)). ring.
Qed.

Lemma Qsum_cons (x : Q) (l : list Q) : Qsum (x :: l) == x + Qsum l.
Proof.
  unfold Qsum at 1. cbn [fold_left]. rewrite fold_left_Qplus_acc. ring.
Qed.

Lemma Qsum_map_ext {A : Type} (f g : A -> Q) (l : list A) :
  (forall a, In a l -> f a == g a) ->
  Qsum (List.map f l) == Qsum (List.map g l).
Proof.
  induction l as [|a rest IH]; intros H; cbn [List.map].
  - reflexivity.
  - rewrite !Qsum_cons, IH, (H a).
    + reflexivity.
    + left. reflexivity.
    + intros b Hb. apply H. right. exact Hb.
Qed.

Lemma Qsum_nonneg {A : Type} (f : A -> Q) (l : list A) :
  (forall a, 0 <= f a) -> 0 <= Qsum (List.map f l).
Proof.
  intros H. induction l as [|a rest IH]; cbn [List.map].
  - unfold Qsum. cbn. lra.
  - rewrite Qsum_cons. specialize (H a). lra.
Qed.

Lemma Qsum_ge_elt {A : Type} (f : A -> Q) (l : list A) (a : A) :
  (forall a, 0 <= f a) -> In a l -> f a <= Qsum (List.map f l).
Proof.
  intros H. induction l as [|b rest IH]; intros Hin; [destruct Hin|].
  cbn [List.map]. rewrite Qsum_cons.
  pose proof (Qsum_nonneg f rest H) as Hr. pose proof (H b) as Hb.
  destruct Hin as [->|Hin]; [lra|]. specialize (IH Hin). lra.
Qed.

Lemma Qsum_expand {A : Type} (u v : A -> Q) (beta : Q) (l : list A) :
  Qsum (List.map (fun a => (u a - beta * v a) * (u a - beta * v a)) l)
  == Qsum (List.map (fun a => u a * u a) l)
     - 2 * beta * Qsum (List.map (fun a => v a * u a) l)
     + beta * beta * Qsum (List.map (fun a => v a * v a) l).
Proof.
  induction l as [|a rest IH]; cbn [List.map].
  - unfold Qsum. cbn [fold_left]. ring.
  - rewrite !Qsum_cons, IH. ring.
Qed.

Lemma fl_fold_Num {A : Type} (g : A -> Q) (l : list A) (acc : Q) :
  fold_left Float.add (List.map (fun a => Num (g a)) l) (Num acc)
  = Num (fold_left Qplus (List.map g l) acc).
Proof.
  revert acc. induction l as [|a rest IH]; intros acc; [reflexivity|].
  cbn [List.map fold_left]. apply IH.
Qed.

Lemma fl_sum_Num {A : Type} (g : A -> Q) (l : list A) :
  fl_sum (List.map (fun a => Num (g a)) l) = Num (Qsum (List.map g l)).
Proof. apply fl_fold_Num. Qed.

Lemma fl_mean_Num {A : Type} (g : A -> Q) (l : list A) :
  l <> [] ->
  fl_mean (List.map (fun a => Num (g a)) l)
  = Num (Qsum (List.map g l) / inject_Z (len l)).
Proof.
  intros Hne. unfold fl_mean. rewrite fl_sum_Num.
  unfold len. rewrite length_map. unfold of_Z. cbn [Float.div].
  rewrite Qeq_bool_false; [reflexivity|].
  intros E. destruct l as [|a rest]; [congruence|].
  cbn [length] in E.
  unfold Qeq in E. cbn [Qnum Qden inject_Z] in E. lia.
Qed.

Lemma polyfit1_Num {A : Type} (v u : A -> Q) (l : list A) :
  l <> [] ->
  let mx := Qsum (List.map v l) / inject_Z (len l) in
  let my := Qsum (List.map u l) / inject_Z (len l) in
  let sxy := Qsum (List.map (fun a => (v a - mx) * (u a - my)) l) in
  let sxx := Qsum (List.map (fun a => (v a - mx) * (v a - mx)) l) in
  ~ sxx == 0 ->
  polyfit1 (List.map (fun a => Num (v a)) l) (List.map (fun a => Num (u a)) l)
  = (Num (sxy / sxx), Num (my - sxy / sxx * mx)).
Proof.
  intros Hne mx my sxy sxx Hsxx.
  unfold polyfit1. cbv zeta.
  rewrite !fl_mean_Num by exact Hne.
  fold mx my.
  rewrite combine_map_both, !List.map_map.
  assert (fl_sum (List.map (fun x => let '(a, b) := (Num (v x), Num (u x)) in
                                     ((a - Num mx) * (b - Num my))%fl) l)
          = Num sxy) as E1
    by exact (fl_sum_Num (fun a => (v a - mx) * (u a - my)) l).
  assert (fl_sum (List.map (fun x => ((Num (v x) - Num mx)
                                      * (Num (v x) - Num mx))%fl) l)
          = Num sxx) as E2
    by exact (fl_sum_Num (fun a => (v a - mx) * (v a - mx)) l).
  rewrite E1, E2. cbn [Float.div].
  rewrite (Qeq_bool_false _ _ Hsxx). reflexivity.
Qed.

Lemma Qsquare_nonneg (a : Q) : 0 <= a * a.
Proof.
  destruct (Qlt_le_dec a 0) as [H|H].
  - assert (a * a == (- a) * (- a)) as -> by ring.
    apply Qmult_le_0_compat; lra.
  - apply Qmult_le_0_compat; exact H.
Qed.

Lemma residual_le_total {A : Type} (v u : A -> Q) (mx my : Q) (l : list A) :
  let sxy := Qsum (List.map (fun a => (v a - mx) * (u a - my)) l) in
  let sxx := Qsum (List.map (fun a => (v a - mx) * (v a - mx)) l) in
  let slope := sxy / sxx in
  let intercept := my - slope * mx in
  let ss_res :=
    Qsum (List.map (fun a => (u a - (slope * v a + intercept))
                             * (u a - (slope * v a + intercept))) l) in
  let ss_tot := Qsum (List.map (fun a => (u a - my) * (u a - my)) l) in
  ~ sxx == 0 -> 0 <= ss_res /\ ss_res <= ss_tot.
Proof.
  intros sxy sxx slope intercept ss_res ss_tot Hsxx.
  split.
  - apply (Qsum_nonneg
             (fun a => (u a - (slope * v a + intercept))
                       * (u a - (slope * v a + intercept)))).
    intros a. apply Qsquare_nonneg.
  - assert (0 <= sxx) as Hnn.
    { apply (Qsum_nonneg (fun a => (v a - mx) * (v a - mx))).
      intros a. apply Qsquare_nonneg. }
    assert (0 < sxx) as Hpos.
    { destruct (Qlt_le_dec 0 sxx) as [H|H]; [exact H|].
      exfalso. apply Hsxx. lra. }
    assert (ss_res == ss_tot - sxy * sxy / sxx) as Hid.
    { unfold ss_res.
      rewrite (Qsum_map_ext _
                 (fun a => ((u a - my) - slope * (v a - mx))
                           * ((u a - my) - slope * (v a - mx)))).
      - rewrite (Qsum_expand (fun a => u a - my) (fun a => v a - mx) slope l).
        fold ss_tot sxx sxy. unfold slope. field. exact Hsxx.
      - intros a _. unfold intercept. ring. }
    rewrite Hid.
    assert (0 <= sxy * sxy / sxx) as Hq.
    { apply Qle_shift_div_l; [exact Hpos|].
      rewrite Qmult_0_l. apply Qsquare_nonneg. }
    lra.
Qed.

Lemma in_range_unit_round (q : Q) :
  0 <= q -> q <= 1 -> in_range (py_round (Num q) 3) 0 1.
Proof.
  intros H0 H1.
  apply (in_range_weaken _ (inject_Z 0 / inject_Z (10 ^ Z.of_nat 3))
           (inject_Z 1000 / inject_Z (10 ^ Z.of_nat 3))).
  - apply py_round_in_range.
    + apply (Qle_trans _ 0); [apply Qle_bool_imp_le; reflexivity | exact H0].
    + apply (Qle_trans _ 1); [exact H1 | apply Qle_bool_imp_le; reflexivity].
  - apply Qle_bool_imp_le. reflexivity.
  - apply Qle_bool_imp_le. reflexivity.
Qed.

Lemma trend_label_cases (slope : fl) :
  In (if (fl_abs slope <? Num 0.1)%fl then "stable"%string
      else if (slope >? Num 0)%fl then "increasing"%string
           else "decreasing"%string)
     ["stable"; "increasing"; "decreasing"]%string.
Proof.
  destruct (fl_abs slope <? Num 0.1)%fl; [left; reflexivity|].
  destruct (slope >? Num 0)%fl; [right; left | right; right; left];
    reflexivity.
Qed.

Lemma index_spread_nonzero {A : Type} (p0 p1 : A) (rest : list A) (mx : Q) :
  ~ Qsum (List.map (fun a : nat * A =>
                      (inject_Z (Z.of_nat (fst a)) - mx)
                      * (inject_Z (Z.of_nat (fst a)) - mx))
            (List.combine (seq 0 (length (p0 :: p1 :: rest)))
               (p0 :: p1 :: rest)))
    == 0.
Proof.
  intros E.
  set (f := fun a : nat * A =>
              (inject_Z (Z.of_nat (fst a)) - mx)
              * (inject_Z (Z.of_nat (fst a)) - mx)) in E.
  assert (forall a, 0 <= f a) as Hnn by (intros a; apply Qsquare_nonneg).
  set (l := List.combine (seq 0 (length (p0 :: p1 :: rest)))
              (p0 :: p1 :: rest)) in E.
  pose proof (Qsum_ge_elt f l (0%nat, p0) Hnn) as H0.
  pose proof (Qsum_ge_elt f l (1%nat, p1) Hnn) as H1.
  rewrite E in H0, H1.
  specialize (H0 (or_introl eq_refl)).
  specialize (H1 (or_intror (or_introl eq_refl))).
  unfold f in H0, H1. cbn [fst] in H0, H1.
  change (inject_Z (Z.of_nat 0)) with 0 in H0.
  change (inject_Z (Z.of_nat 1)) with 1 in H1.
  pose proof (Qsquare_nonneg (0 - mx)) as G0.
  pose proof (Qsquare_nonneg (1 - mx)) as G1.
  assert ((0 - mx) * (0 - mx) == 0) as Z0 by lra.
  assert ((1 - mx) * (1 - mx) == 0) as Z1 by lra.
  apply Qmult_integral in Z0, Z1.
  destruct Z0 as [Z0|Z0], Z1 as [Z1|Z1]; lra.
Qed.

Lemma trend_strength_range (forecasts : list ForecastPoint) :
  Forall (fun p => finite (predicted_demand p)) forecasts ->
  in_range (snd (_calculate_demand_trend forecasts)) 0 1
  /\ In (fst (_calculate_demand_trend forecasts))
        ["stable"; "increasing"; "decreasing"]%string.
Proof.
  intros Hfin. unfold _calculate_demand_trend.
  destruct (len forecasts <? 2)%Z eqn:E2.
  { cbn [fst snd in_range]. split; [split; lra | left; reflexivity]. }
  destruct (all_same (List.map predicted_demand forecasts)).
  { cbn [fst snd in_range]. split; [split; lra | left; reflexivity]. }
  destruct forecasts as [|p0 [|p1 rest]];
    [cbn in E2; discriminate | cbn in E2; discriminate |].
  clear E2.
  set (ps := p0 :: p1 :: rest) in *.
  set (L := List.combine (seq 0 (length ps)) ps).
  set (v := fun a : nat * ForecastPoint => inject_Z (Z.of_nat (fst a))).
  set (u := fun a : nat * ForecastPoint => num_of (predicted_demand (snd a))).
  assert (Hx : List.map (fun i => of_Z (Z.of_nat i))
                 (seq 0 (length (List.map predicted_demand ps)))
               = List.map (fun a => Num (v a)) L).
  { rewrite length_map. subst L.
    rewrite <- (map_indexed_fst (fun i => of_Z (Z.of_nat i)) ps 0).
    apply List.map_ext. intros [i p]. reflexivity. }
  assert (Hy : List.map predicted_demand ps = List.map (fun a => Num (u a)) L).
  { subst L. rewrite <- (map_indexed_snd predicted_demand ps 0).
    apply List.map_ext_in. intros [i p] Hin. apply in_combine_r in Hin.
    rewrite List.Forall_forall in Hfin. destruct (Hfin p Hin) as [q Hq].
    unfold u. cbn [snd]. rewrite Hq. reflexivity. }
  rewrite Hx, Hy.
  assert (HL : L <> []) by (subst L ps; discriminate).
  set (mx := Qsum (List.map v L) / inject_Z (len L)).
  set (my := Qsum (List.map u L) / inject_Z (len L)).
  assert (Hsxx : ~ Qsum (List.map (fun a => (v a - mx) * (v a - mx)) L) == 0).
  { subst L ps v. apply index_spread_nonzero. }
  rewrite (polyfit1_Num v u L HL Hsxx).
  fold mx my.
  set (sxy := Qsum (List.map (fun a => (v a - mx) * (u a - my)) L)).
  set (sxx := Qsum (List.map (fun a => (v a - mx) * (v a - mx)) L)).
  set (slope := sxy / sxx).
  set (intercept := my - slope * mx).
  cbv zeta. cbn [fst snd].
  split; [|apply trend_label_cases].
  destruct (residual_le_total v u mx my L Hsxx) as [Hres0 Hres].
  fold sxy sxx slope intercept in Hres0, Hres.
  set (ss_res := Qsum (List.map (fun a => (u a - (slope * v a + intercept))
                                          * (u a - (slope * v a + intercept)))
                         L)) in *.
  set (ss_tot := Qsum (List.map (fun a => (u a - my) * (u a - my)) L)) in *.
  rewrite (fl_mean_Num u L HL). fold my.
  rewrite !List.map_map, combine_map_both, List.map_map.
  match goal with
  | |- context [fl_sum ?l1] =>
      replace (fl_sum l1) with (Num ss_res)
        by (symmetry;
            exact (fl_sum_Num (fun a => (u a - (slope * v a + intercept))
                                        * (u a - (slope * v a + intercept)))
                     L))
  end.
  match goal with
  | |- context [fl_sum ?l1] =>
      replace (fl_sum l1) with (Num ss_tot)
        by (symmetry;
            exact (fl_sum_Num (fun a => (u a - my) * (u a - my)) L))
  end.
  cbn [Float.eqb].
  destruct (Qeq_bool ss_tot 0) eqn:Et.
  - apply in_range_unit_round; lra.
  - cbn [Float.div]. rewrite Et. cbn [Float.sub Float.opp Float.add].
    assert (0 <= ss_tot) as Hnn.
    { apply (Qsum_nonneg (fun a => (u a - my) * (u a - my))).
      intros a. apply Qsquare_nonneg. }
    assert (0 < ss_tot) as Hpos.
    { destruct (Qlt_le_dec 0 ss_tot) as [H|H]; [exact H|].
      assert (ss_tot == 0) as Hz by lra.
      apply Qeq_bool_true in Hz. congruence. }
    assert (0 <= ss_res / ss_tot) as Hr0.
    { apply Qle_shift_div_l; [exact Hpos | lra]. }
    assert (ss_res / ss_tot <= 1) as Hr1.
    { apply Qle_shift_div_r; [exact Hpos | lra]. }
    apply in_range_unit_round; lra.
Qed.

Section ForecastTrend.

Context {SK : Sklearn}.

(** X15.  In every forecast that [forecast_demand] returns, the trend is
    one of ["stable"], ["increasing"] and ["decreasing"], and the trend
    strength, the rounded R-squared of the least-squares line through the
    daily predictions, lies between 0 and 1.  A forecast of one day is
    stable with strength 0. *)
Theorem forecast_trend_in_range (s : SmartMLSystem)
    (query : option (list RawRow)) (now : Z)
    (equipment_type site_id : option string) (days_ahead : Z)
    (r : ForecastResult) :
  forecast_demand s query now equipment_type site_id days_ahead = Ok r ->
  in_range (trend_strength r) 0 1
  /\ In (trend r) ["stable"; "increasing"; "decreasing"]%string
  /\ (days_ahead = 1%Z ->
      trend r = "stable"%string /\ trend_strength r = Num 0.0).
Proof.
  intros Hr.
  destruct (forecast_demand_Ok_fields s query now equipment_type site_id
              days_ahead r Hr)
    as (Hrange & Hlen & _ & _ & _ & Htrend & _).
  assert (Forall (fun p => finite (predicted_demand p)) (forecasts r)) as Hfin.
  { apply (List.Forall_impl _ (P := fun p => in_range (predicted_demand p) 0 20));
      [|exact Hrange].
    intros p Hp. apply (in_range_finite _ _ _ Hp). }
  destruct (trend_strength_range (forecasts r) Hfin) as [Hs Ht].
  rewrite <- Htrend in Hs, Ht. cbn [fst snd] in Hs, Ht.
  split; [exact Hs|]. split; [exact Ht|].
  intros ->.
  unfold _calculate_demand_trend in Htrend.
  assert ((len (forecasts r) <? 2)%Z = true) as E.
  { unfold len. rewrite Hlen. reflexivity. }
  rewrite E in Htrend. injection Htrend as -> ->. split; reflexivity.
Qed.

End ForecastTrend.

Lemma forecast_trend_in_range_witness :
  exists r,
    forecast_demand (SK := column_sklearn) trained_system
      (Some (scenario_snapshot 8)) 738000 (Some "Excavator"%string) None 5
    = Ok r
    /\ in_range (trend_strength r) 0 1
    /\ In (trend r) ["stable"; "increasing"; "decreasing"]%string.
Proof.
  assert (exists r,
             forecast_demand (SK := column_sklearn) trained_system
               (Some (scenario_snapshot 8)) 738000
               (Some "Excavator"%string) None 5 = Ok r) as (r & Hr).
  { vm_compute. eexists. reflexivity. }
  destruct (forecast_trend_in_range (SK := column_sklearn) trained_system
              (Some (scenario_snapshot 8)) 738000%Z
              (Some "Excavator"%string) None 5%Z r Hr)
    as (Hs & Ht & _).
  exists r. split; [exact Hr|]. split; [exact Hs | exact Ht].
Defined.

(** ** The REST service *)

(** Induction on a value through its lists and dictionaries. *)
Lemma json_nested_ind (P : json -> Prop) :
  P JNull ->
  (forall b, P (JBool b)) ->
  (forall n, P (JInt n)) ->
  (forall s, P (JString s)) ->
  (forall x, P (JFloat x)) ->
  (forall items, Forall P items -> P (JList items)) ->
  (forall entries, Forall (fun kv => P (snd kv)) entries ->
                   P (JDict entries)) ->
  forall obj, P obj.
Proof.
  intros Hnull Hbool Hint Hstr Hfloat Hlist Hdict.
  fix IH 1. intros [| b | n | s | x | items | entries].
  - exact Hnull.
  - apply Hbool.
  - apply Hint.
  - apply Hstr.
  - apply Hfloat.
  - apply Hlist. induction items as [|item rest IHr]; constructor.
    + apply IH.
    + exact IHr.
  - apply Hdict. induction entries as [|[k v] rest IHr]; constructor.
    + apply IH.
    + exact IHr.
Qed.

Lemma map_fixes {A : Type} (f : A -> A) (l : list A) :
  Forall (fun a => f a = a) l -> List.map f l = l.
Proof.
  induction 1 as [|a rest Ha Hrest IH]; cbn; [|rewrite Ha, IH]; reflexivity.
Qed.

Lemma forallb_of_map {A B : Type} (f : B -> bool) (g : A -> B)
    (l : list A) :
  List.forallb f (List.map g l) = List.forallb (fun a => f (g a)) l.
Proof.
  induction l as [|a rest IH]; cbn; [|rewrite IH]; reflexivity.
Qed.

Lemma clean_nan_values_finite (obj : json) :
  json_finite (clean_nan_values obj) = true.
Proof.
  induction obj as [| b | n | s | x | items IH | entries IH]
    using json_nested_ind; try reflexivity.
  - destruct x; reflexivity.
  - cbn [clean_nan_values json_finite]. rewrite forallb_of_map.
    apply forallb_forall. intros item Hin.
    rewrite List.Forall_forall in IH. apply (IH item Hin).
  - cbn [clean_nan_values json_finite]. rewrite forallb_of_map.
    apply forallb_forall. intros kv Hin.
    rewrite List.Forall_forall in IH. apply (IH kv Hin).
Qed.

Lemma clean_nan_values_shape (obj : json) :
  json_shape (clean_nan_values obj) = json_shape obj.
Proof.
  induction obj as [| b | n | s | x | items IH | entries IH]
    using json_nested_ind; try reflexivity.
  - destruct x; reflexivity.
  - cbn [clean_nan_values json_shape]. rewrite List.map_map.
    f_equal. apply List.map_ext_in. intros item Hin.
    rewrite List.Forall_forall in IH. apply (IH item Hin).
  - cbn [clean_nan_values json_shape]. rewrite List.map_map.
    f_equal. apply List.map_ext_in. intros kv Hin. cbn [fst snd].
    rewrite List.Forall_forall in IH. f_equal. apply (IH kv Hin).
Qed.

Lemma clean_nan_values_fixes (obj : json) :
  json_finite obj = true -> clean_nan_values obj = obj.
Proof.
  induction obj as [| b | n | s | x | items IH | entries IH]
    using json_nested_ind; try reflexivity.
  - destruct x; try discriminate. reflexivity.
  - cbn [clean_nan_values json_finite]. intros Hfin.
    f_equal. apply map_fixes.
    rewrite forallb_forall in Hfin.
    rewrite List.Forall_forall in IH |- *.
    intros item Hin. apply (IH item Hin). apply Hfin. exact Hin.
  - cbn [clean_nan_values json_finite]. intros Hfin.
    f_equal. apply map_fixes.
    rewrite forallb_forall in Hfin.
    rewrite List.Forall_forall in IH |- *.
    intros [k v] Hin. cbn [fst snd]. f_equal.
    apply (IH (k, v) Hin). apply (Hfin (k, v)). exact Hin.
Qed.



Lemma service_factor_finite (equipment_type : string) :
  exists f, equipment_factor equipment_type = Num f /\ 0 < f.
Proof.
  unfold equipment_factor. case_ifs; eexists; split; reflexivity.
Qed.

Lemma trend_options_cases (equipment_type : string) :
  In (fst (trend_options equipment_type))
     ["stable"; "increasing"; "decreasing"]%string
  /\ in_range (snd (trend_options equipment_type)) 0 1.
Proof.
  unfold trend_options.
  case_ifs; cbn [fst snd In in_range]; (split; [tauto|]); split;
    apply Qle_bool_imp_le; reflexivity.
Qed.

Lemma adjust_day_floor (equipment_type : string) (i : nat)
    (day : ForecastPoint) :
  finite (predicted_demand day) ->
  exists q, predicted_demand (adjust_day equipment_type i day) = Num q
            /\ 0.5 <= q.
Proof.
  intros [d Hd]. unfold adjust_day. cbn [predicted_demand]. rewrite Hd.
  destruct (service_factor_finite equipment_type) as (f & -> & _).
  assert (forall x : Q, exists q, py_max (Num 0.5) (py_round (Num x) 1) = Num q
                                  /\ 0.5 <= q) as Hfloor.
  { intros x. cbn [py_round].
    destruct (py_max_num 0.5 (inject_Z (round_half_even
                                          (x * inject_Z (10 ^ Z.of_nat 1)))
                              / inject_Z (10 ^ Z.of_nat 1)))
      as (c & Hc & Hle & _).
    exists c. split; [exact Hc | exact Hle]. }
  destruct (String.eqb (fst (trend_options equipment_type)) "increasing");
    [|destruct (String.eqb (fst (trend_options equipment_type))
                           "decreasing")];
    destruct ((fp_weekday day =? 5)%Z || (fp_weekday day =? 6)%Z);
    apply Hfloor.
Qed.

Lemma adjust_forecast_fields (equipment_type : string)
    (forecast : ForecastResult) :
  forecasts forecast <> [] ->
  forecasts (adjust_forecast equipment_type forecast)
  = List.map (fun '(i, day) => adjust_day equipment_type i day)
      (List.combine (seq 0 (length (forecasts forecast)))
                    (forecasts forecast))
  /\ trend (adjust_forecast equipment_type forecast)
     = fst (trend_options equipment_type)
  /\ trend_strength (adjust_forecast equipment_type forecast)
     = snd (trend_options equipment_type)
  /\ forecast_days (adjust_forecast equipment_type forecast)
     = forecast_days forecast.
Proof.
  intros Hne. unfold adjust_forecast.
  destruct (forecasts forecast) as [|p ps] eqn:E; [congruence|].
  cbn. auto.
Qed.

Section EndpointProperties.

Context {SK : Sklearn}.

(** X17.  The ways [POST /ml/demand-forecast] can end.  It raises 503
    exactly when no system is installed or the installed one is not
    trained, and 400, with the error text of the engine, exactly when
    [forecast_demand] returns an error, which is then never
    ["Models not trained"].  A body is returned only for a request of at
    least one day, [horizon_days] taking precedence over [days_ahead]; it
    has one point per day asked, on the days of the engine's forecast, and
    is the engine's forecast itself when no equipment type is given. *)
Theorem demand_forecast_outcomes (g : Service)
    (query : option (list RawRow)) (now : Z) (request : ForecastRequest) :
  let days :=
    match req_horizon_days request with
    | Some horizon_days => horizon_days
    | None => req_days_ahead request
    end in
  match demand_forecast g query now request with
  | HTTPException status_code detail =>
      (status_code = 503%Z
       /\ (ml_system g = None
           \/ exists s, ml_system g = Some s /\ models_trained s = false))
      \/ (status_code = 400%Z
          /\ exists s e,
              ml_system g = Some s
              /\ models_trained s = true
              /\ forecast_demand s query now (req_equipment_type request)
                   (req_site_id request) days = Err e
              /\ e <> Models_not_trained
              /\ detail = error_text e)
  | Returned body =>
      exists s forecast,
        ml_system g = Some s
        /\ models_trained s = true
        /\ forecast_demand s query now (req_equipment_type request)
             (req_site_id request) days = Ok forecast
        /\ (1 <= days)%Z
        /\ len (forecasts body) = days
        /\ forecast_days body = days
        /\ List.map fp_date (forecasts body)
           = List.map fp_date (forecasts forecast)
        /\ (truthy (req_equipment_type request) = false -> body = forecast)
  end.
Proof.
  intros days. unfold demand_forecast. fold days.
  destruct (ml_system g) as [s|]; [|left; split; [reflexivity | left; reflexivity]].
  destruct (models_trained s) eqn:Ht; cbn [negb];
    [|left; split; [reflexivity | right; exists s; auto]].
  destruct (forecast_demand s query now (req_equipment_type request)
              (req_site_id request) days) as [e|forecast] eqn:Ef.
  - right. split; [reflexivity|]. exists s, e. split_ands; auto.
    apply (forecast_demand_trained_error _ _ _ _ _ _ _ Ht Ef).
  - destruct (forecast_demand_Ok_fields _ _ _ _ _ _ _ Ef)
      as (_ & Hlen & (p & ps & Hps & _) & _ & _ & _ & Hdays & _).
    assert (1 <= days)%Z as Hpos.
    { rewrite Hps in Hlen. cbn [length] in Hlen. lia. }
    assert (len (forecasts forecast) = days) as Hl
      by (unfold len; rewrite Hlen; lia).
    destruct (truthy (req_equipment_type request)) eqn:Etype.
    + assert (forecasts forecast <> []) as Hne by (rewrite Hps; discriminate).
      destruct (adjust_forecast_fields
                  (text_of (req_equipment_type request)) forecast Hne)
        as (Hf & _ & _ & Hd).
      exists s, forecast. split_ands; auto.
      * rewrite Hf. unfold len in *.
        rewrite length_map, length_combine, length_seq, Nat.min_id.
        exact Hl.
      * rewrite Hd. exact Hdays.
      * rewrite Hf, List.map_map.
        rewrite (List.map_ext _ (fun '(_, day) => fp_date day))
          by (intros [i day]; reflexivity).
        apply map_indexed_snd.
      * discriminate.
    + exists s, forecast. split_ands; auto.
Qed.

(** X18.  When an equipment type is given, every day of the body that
    [POST /ml/demand-forecast] returns has a predicted demand that is a
    number not below 0.5, and the trend and its strength are the ones
    the table of the endpoint lists for the type, whatever the engine
    computed: a trend among ["stable"], ["increasing"] and
    ["decreasing"] and a strength between 0 and 1. *)
Theorem served_forecast_is_adjusted (g : Service)
    (query : option (list RawRow)) (now : Z) (request : ForecastRequest)
    (body : ForecastResult) :
  demand_forecast g query now request = Returned body ->
  truthy (req_equipment_type request) = true ->
  Forall (fun day => exists q, predicted_demand day = Num q /\ 0.5 <= q)
         (forecasts body)
  /\ (trend body, trend_strength body)
     = trend_options (text_of (req_equipment_type request))
  /\ In (trend body) ["stable"; "increasing"; "decreasing"]%string
  /\ in_range (trend_strength body) 0 1.
Proof.
  intros Hbody Htype. unfold demand_forecast in Hbody.
  destruct (ml_system g) as [s|]; [|discriminate].
  destruct (models_trained s); cbn [negb] in Hbody; [|discriminate].
  destruct (forecast_demand s query now _ _ _) as [e|forecast] eqn:Ef;
    [discriminate|].
  rewrite Htype in Hbody. injection Hbody as <-.
  destruct (forecast_demand_Ok_fields _ _ _ _ _ _ _ Ef)
    as (Hrange & _ & (p & ps & Hps & _) & _).
  assert (forecasts forecast <> []) as Hne by (rewrite Hps; discriminate).
  destruct (adjust_forecast_fields
              (text_of (req_equipment_type request)) forecast Hne)
    as (Hf & Htrend & Hstrength & _).
  destruct (trend_options_cases (text_of (req_equipment_type request)))
    as [Hin Hr].
  rewrite Hf, Htrend, Hstrength. split_ands; auto.
  - apply Forall_map_indexed_nth. intros i day Hday.
    apply adjust_day_floor.
    apply nth_error_In in Hday.
    rewrite List.Forall_forall in Hrange.
    apply (in_range_finite _ _ _ (Hrange day Hday)).
  - symmetry. apply surjective_pairing.
Qed.

(** X19.  [POST /ml/anomaly-detection] never serves a NaN or an infinity.
    Without a trained system it answers with the fixed mock report, not
    with an error; with one, it raises 400 with the error text of the
    engine exactly when [detect_anomalies] returns an error, which is then
    never ["Models not trained"], and otherwise returns the report of the
    engine with each NaN and infinity replaced by 0 and nothing else
    changed. *)
Theorem anomaly_detection_outcomes (g : Service) (count : option Z)
    (query : option (list RawRow)) (generated_at : string)
    (equipment_id : option string) :
  match anomaly_detection g count query generated_at equipment_id with
  | HTTPException status_code detail =>
      status_code = 400%Z
      /\ exists s e,
          ml_system g = Some s
          /\ models_trained s = true
          /\ detect_anomalies s count query equipment_id = Err e
          /\ e <> Models_not_trained
          /\ detail = error_text e
  | Returned body =>
      json_finite body = true
      /\ ((body = mock_anomalies
           /\ (ml_system g = None
               \/ exists s, ml_system g = Some s /\ models_trained s = false))
          \/ exists s r,
               ml_system g = Some s
               /\ models_trained s = true
               /\ detect_anomalies s count query equipment_id = Ok r
               /\ body = clean_nan_values (anomaly_result_json generated_at r)
               /\ json_shape body
                  = json_shape (anomaly_result_json generated_at r)
               /\ (json_finite (anomaly_result_json generated_at r) = true ->
                   body = anomaly_result_json generated_at r))
  end.
Proof.
  unfold anomaly_detection.
  destruct (ml_system g) as [s|];
    [|split; [reflexivity | left; split; [reflexivity | left; reflexivity]]].
  destruct (models_trained s) eqn:Ht; cbn [negb];
    [|split; [reflexivity | left; split; [reflexivity|]; right; exists s; auto]].
  destruct (detect_anomalies s count query equipment_id) as [e|r] eqn:Ed.
  - split; [reflexivity|]. exists s, e. split_ands; auto.
    apply (detect_anomalies_trained_error _ _ _ _ _ Ht Ed).
  - split; [apply clean_nan_values_finite|]. right. exists s, r.
    split_ands; auto.
    + apply clean_nan_values_shape.
    + apply clean_nan_values_fixes.
Qed.

(** X20.  [POST /ml/models/retrain] trains the installed system in place.
    It answers with success exactly when the system is trained after
    [_train_models], and with 500 otherwise, after which every forecast
    request is refused with 503.  On a frame too small to train on,
    fewer than 50 rows or fewer than 30 complete ones, the system is left
    as it is, so that the answer is success exactly when it was trained
    before. *)
Theorem retrain_models_outcomes (g : Service) :
  match retrain_models g with
  | (g', HTTPException status_code detail) =>
      (status_code = 503%Z /\ ml_system g = None /\ g' = g)
      \/ (status_code = 500%Z
          /\ (exists s, ml_system g = Some s
                        /\ ml_system g' = Some (_train_models s)
                        /\ models_trained (_train_models s) = false)
          /\ forall query now request,
               demand_forecast g' query now request
               = HTTPException 503 "ML models are not trained")
  | (g', Returned trained) =>
      trained = true
      /\ exists s, ml_system g = Some s
                   /\ ml_system g' = Some (_train_models s)
                   /\ models_trained (_train_models s) = true
  end
  /\ (forall s frame,
         ml_system g = Some s ->
         data s = Some frame ->
         (len frame < 50 \/ len (dropna feature_columns frame) < 30)%Z ->
         ml_system (fst (retrain_models g)) = Some s
         /\ (snd (retrain_models g) = Returned true
             <-> models_trained s = true)).
Proof.
  unfold retrain_models. split.
  - destruct (ml_system g) as [s|]; [|left; auto].
    destruct (models_trained (_train_models s)) eqn:Ht; cbn [negb].
    + split; [reflexivity|]. exists s. auto.
    + right. split; [reflexivity|]. split; [exists s; auto|].
      intros query now request. unfold demand_forecast.
      cbn [ml_system]. rewrite Ht. reflexivity.
  - intros s frame Hs Hd Hsmall. rewrite Hs.
    rewrite (_train_models_skipped s frame Hd Hsmall).
    destruct (models_trained s); cbn [negb fst snd ml_system].
    + split; [reflexivity|]. split; reflexivity.
    + split; [reflexivity|]. split; discriminate.
Qed.

End EndpointProperties.

Lemma demand_forecast_outcomes_witness :
  exists body forecast,
    demand_forecast trained_service (Some (scenario_snapshot 8)) 738000
      (forecast_request None 5)
    = Returned body
    /\ forecast_demand trained_system (Some (scenario_snapshot 8)) 738000
         None None 5
       = Ok forecast
    /\ body = forecast
    /\ len (forecasts body) = 5%Z.
Proof.
  pose proof (demand_forecast_outcomes (SK := column_sklearn) trained_service
                (Some (scenario_snapshot 8)) 738000%Z
                (forecast_request None 5)) as H.
  cbv zeta in H.
  destruct (demand_forecast trained_service (Some (scenario_snapshot 8))
              738000 (forecast_request None 5)) as [code detail|body] eqn:E;
    [vm_compute in E; discriminate E|].
  destruct H as (s & forecast & Hs & _ & Hf & _ & Hlen & _ & _ & Hsame).
  injection Hs as <-.
  exists body, forecast. split; [reflexivity|]. split; [exact Hf|].
  split; [apply Hsame; reflexivity | exact Hlen].
Defined.

Lemma served_forecast_is_adjusted_witness :
  exists body,
    demand_forecast trained_service (Some (scenario_snapshot 8)) 738000
      (forecast_request (Some "Excavator"%string) 5)
    = Returned body
    /\ Forall (fun day => exists q, predicted_demand day = Num q /\ 0.5 <= q)
              (forecasts body)
    /\ trend body = "increasing"%string
    /\ trend_strength body = Num 0.13.
Proof.
  assert (exists body,
             demand_forecast trained_service (Some (scenario_snapshot 8))
               738000 (forecast_request (Some "Excavator"%string) 5)
             = Returned body) as (body & Hbody).
  { vm_compute. eexists. reflexivity. }
  destruct (served_forecast_is_adjusted (SK := column_sklearn)
              trained_service (Some (scenario_snapshot 8)) 738000%Z
              (forecast_request (Some "Excavator"%string) 5) body Hbody
              eq_refl) as (Hfloor & Htrend & _).
  exists body. split; [exact Hbody|]. split; [exact Hfloor|].
  injection Htrend as -> ->. split; reflexivity.
Defined.

Lemma anomaly_detection_outcomes_witness :
  exists body r,
    anomaly_detection trained_service None (Some (scenario_snapshot 8))
      "2024-01-01T00:00:00" None
    = Returned body
    /\ detect_anomalies trained_system None (Some (scenario_snapshot 8)) None
       = Ok r
    /\ json_finite body = true
    /\ body = anomaly_result_json "2024-01-01T00:00:00" r.
Proof.
  pose proof (anomaly_detection_outcomes (SK := column_sklearn)
                trained_service None (Some (scenario_snapshot 8))
                "2024-01-01T00:00:00" None) as H.
  destruct (anomaly_detection trained_service None
              (Some (scenario_snapshot 8)) "2024-01-01T00:00:00" None)
    as [code detail|body] eqn:E; [vm_compute in E; discriminate E|].
  destruct H as (Hfin & [(_ & [Hnone|(s & Hs & Hu)])
                         |(s & r & Hs & _ & Hr & Hbody & _ & Hid)]).
  - discriminate Hnone.
  - injection Hs as <-. discriminate Hu.
  - injection Hs as <-.
    exists body, r. split; [reflexivity|]. split; [exact Hr|].
    split; [exact Hfin|].
    apply Hid. clear - Hr.
    vm_compute in Hr. injection Hr as <-. vm_compute. reflexivity.
Defined.

Lemma retrain_models_outcomes_witness :
  exists frame,
    data reloaded_system = Some frame
    /\ len frame = 20%Z
    /\ ml_system (fst (retrain_models saved_models_service))
       = Some reloaded_system
    /\ snd (retrain_models saved_models_service) = Returned true.
Proof.
  assert (exists frame, data small_system = Some frame /\ len frame = 20%Z)
    as (frame & Hd & Hl).
  { vm_compute. eexists. split; reflexivity. }
  assert (len frame < 50 \/ len (dropna feature_columns frame) < 30)%Z
    as Hsmall by (left; rewrite Hl; reflexivity).
  destruct (proj2 (retrain_models_outcomes (SK := column_sklearn)
                     saved_models_service)
              reloaded_system frame eq_refl Hd Hsmall)
    as [Hkept Hanswer].
  exists frame. split; [exact Hd|]. split; [exact Hl|].
  split; [exact Hkept|]. apply Hanswer. reflexivity.
Defined.

(** ** The database watcher *)

Lemma on_modified_debounce_time (h : DatabaseChangeHandler)
    (event : FileSystemEvent) (t : Q) :
  debounce_time (fst (on_modified h event t)) = debounce_time h
  /\ callback (fst (on_modified h event t)) = callback h.
Proof.
  unfold on_modified.
  destruct (is_directory event); [auto|].
  destruct (endswith _ _ || endswith _ _); [|auto].
  destruct (last_modified h !! src_path event) as [last|];
    [destruct (Qltb _ _)|]; auto.
Qed.

(** After an event, the time recorded for a file is not before the one
    recorded earlier, and a callback is started only for a database file
    whose recorded time is then the time of the event, at least
    [debounce_time] after the earlier one. *)
Lemma on_modified_step (h : DatabaseChangeHandler) (event : FileSystemEvent)
    (t : Q) (path : string) (last : Q) :
  last_modified h !! path = Some last ->
  exists last',
    last_modified (fst (on_modified h event t)) !! path = Some last'
    /\ (last' = last \/ (last' = t /\ debounce_time h <= t - last)).
Proof.
  intros Hlast. unfold on_modified.
  destruct (is_directory event); [eauto|].
  destruct (endswith _ _ || endswith _ _); [|eauto].
  destruct (last_modified h !! src_path event) as [last0|] eqn:E0.
  - destruct (Qltb (t - last0) (debounce_time h)) eqn:Ed; [eauto|].
    cbn [fst last_modified].
    destruct (String.eqb_spec (src_path event) path) as [Heq|Hne].
    + rewrite Heq in *. rewrite lookup_insert_eq.
      exists t. split; [reflexivity|]. right.
      split; [reflexivity|]. apply Qltb_ge in Ed.
      rewrite Hlast in E0. injection E0 as <-. exact Ed.
    + rewrite lookup_insert_ne by exact Hne. eauto.
  - cbn [fst last_modified].
    destruct (String.eqb_spec (src_path event) path) as [Heq|Hne].
    + rewrite Heq in E0. congruence.
    + rewrite lookup_insert_ne by exact Hne. eauto.
Qed.

Lemma on_modified_started (h : DatabaseChangeHandler)
    (event : FileSystemEvent) (t : Q) :
  snd (on_modified h event t) = true ->
  is_directory event = false
  /\ endswith (src_path event) "rental.db"
     || endswith (src_path event) "dev.db" = true
  /\ callback h = true
  /\ last_modified (fst (on_modified h event t)) !! src_path event = Some t
  /\ forall last, last_modified h !! src_path event = Some last ->
                  debounce_time h <= t - last.
Proof.
  unfold on_modified.
  destruct (is_directory event); [discriminate|].
  destruct (endswith _ _ || endswith _ _); [|discriminate].
  destruct (last_modified h !! src_path event) as [last0|] eqn:E0.
  - destruct (Qltb (t - last0) (debounce_time h)) eqn:Ed; [discriminate|].
    cbn [fst snd last_modified]. intros Hc. split_ands; auto.
    + apply lookup_insert_eq.
    + intros last [= <-]. apply Qltb_ge in Ed. exact Ed.
  - cbn [fst snd last_modified]. intros Hc. split_ands; auto.
    + apply lookup_insert_eq.
    + discriminate.
Qed.

Lemma started_callbacks_after (events : list (Q * FileSystemEvent)) :
  forall (h : DatabaseChangeHandler) (t : Q) (path : string) (last : Q),
    0 <= debounce_time h ->
    last_modified h !! path = Some last ->
    In (t, path) (started_callbacks h events) ->
    debounce_time h <= t - last.
Proof.
  induction events as [|[t0 event] rest IH]; intros h t path last Hd Hlast Hin;
    [destruct Hin|].
  cbn [started_callbacks] in Hin.
  destruct (on_modified h event t0) as [h' started] eqn:Estep.
  pose proof (on_modified_debounce_time h event t0) as [Hdt _].
  pose proof (on_modified_step h event t0 path last Hlast)
    as (last' & Hlast' & Hcase).
  pose proof (on_modified_started h event t0) as Hstart.
  rewrite Estep in Hdt, Hlast', Hstart. cbn [fst snd] in Hdt, Hlast', Hstart.
  assert (In (t, path) (started_callbacks h' rest) ->
          debounce_time h <= t - last) as Hrest.
  { intros Hin'. rewrite <- Hdt in Hd |- *.
    pose proof (IH h' t path last' Hd Hlast' Hin') as Hgap.
    destruct Hcase as [->|[-> Hstep]]; [exact Hgap|].
    rewrite Hdt in *. lra. }
  destruct started; [|exact (Hrest Hin)].
  destruct Hin as [[= <- <-]|Hin]; [|exact (Hrest Hin)].
  destruct (Hstart eq_refl) as (_ & _ & _ & _ & Hgap).
  apply Hgap. exact Hlast.
Qed.

Lemma started_callbacks_app (pre post : list (Q * FileSystemEvent)) :
  forall h : DatabaseChangeHandler,
    started_callbacks h (pre ++ post)
    = (started_callbacks h pre
       ++ started_callbacks (handler_after h pre) post)%list.
Proof.
  induction pre as [|[t event] rest IH]; intros h; [reflexivity|].
  cbn [app started_callbacks handler_after].
  destruct (on_modified h event t) as [h' started] eqn:Estep.
  cbn [fst]. rewrite IH. destruct started; reflexivity.
Qed.

Lemma handler_after_fields (events : list (Q * FileSystemEvent)) :
  forall h : DatabaseChangeHandler,
    debounce_time (handler_after h events) = debounce_time h
    /\ callback (handler_after h events) = callback h.
Proof.
  induction events as [|[t event] rest IH]; intros h; [auto|].
  cbn [handler_after].
  destruct (IH (fst (on_modified h event t))) as [Hd Hc].
  destruct (on_modified_debounce_time h event t) as [Hd' Hc'].
  split; congruence.
Qed.

(** With a callback, the time that a handler records for a file is the
    time of the last callback started for it. *)
Lemma last_modified_after (path : string)
    (events : list (Q * FileSystemEvent)) :
  forall h : DatabaseChangeHandler,
    callback h = true ->
    last_modified (handler_after h events) !! path
    = fold_left
        (fun last a => if String.eqb (snd a) path then Some (fst a) else last)
        (started_callbacks h events) (last_modified h !! path).
Proof.
  induction events as [|[t event] rest IH]; intros h Hc; [reflexivity|].
  cbn [handler_after started_callbacks].
  pose proof (on_modified_debounce_time h event t) as [_ Hc'].
  rewrite Hc in Hc'. rewrite (IH _ Hc').
  assert (Hstep :
    last_modified (fst (on_modified h event t)) !! path
    = fold_left
        (fun last a => if String.eqb (snd a) path then Some (fst a) else last)
        (if snd (on_modified h event t) then [(t, src_path event)] else [])
        (last_modified h !! path)).
  { unfold on_modified.
    destruct (is_directory event); [reflexivity|].
    destruct (endswith _ _ || endswith _ _); [|reflexivity].
    destruct (match last_modified h !! src_path event with
              | Some last => Qltb (t - last) (debounce_time h)
              | None => false
              end); [reflexivity|].
    cbn [fst snd last_modified]. rewrite Hc. cbn [fold_left fst snd].
    destruct (String.eqb_spec (src_path event) path) as [Heq|Hne].
    - rewrite Heq. apply lookup_insert_eq.
    - apply lookup_insert_ne. exact Hne. }
  rewrite Hstep.
  destruct (on_modified h event t) as [h' started]. cbn [fst snd].
  destruct started; reflexivity.
Qed.

Lemma started_callbacks_paths (events : list (Q * FileSystemEvent)) :
  forall (h : DatabaseChangeHandler) (a : Q * string),
    In a (started_callbacks h events) ->
    exists event, In (fst a, event) events /\ src_path event = snd a.
Proof.
  induction events as [|[t event] rest IH]; intros h a Hin; [destruct Hin|].
  cbn [started_callbacks] in Hin.
  destruct (on_modified h event t) as [h' started].
  assert (In a (started_callbacks h' rest) ->
          exists event0, In (fst a, event0) ((t, event) :: rest)
                         /\ src_path event0 = snd a) as Hrest.
  { intros Hin'. destruct (IH h' a Hin') as (event0 & Hin0 & Hp).
    exists event0. split; [right; exact Hin0 | exact Hp]. }
  destruct started; [|exact (Hrest Hin)].
  destruct Hin as [<-|Hin]; [|exact (Hrest Hin)].
  exists event. split; [left; reflexivity | reflexivity].
Qed.

Lemma last_started_None (path : string) (started : list (Q * string)) :
  Forall (fun a => snd a <> path) started ->
  last_started path started = None.
Proof.
  unfold last_started. generalize (@None Q).
  induction started as [|a rest IH]; intros acc Hall; [reflexivity|].
  inversion Hall as [|? ? Ha Hrest]; subst. cbn [fold_left].
  destruct (String.eqb_spec (snd a) path) as [Heq|Hne]; [contradiction|].
  apply IH. exact Hrest.
Qed.

(** X21.  The callbacks that a [DatabaseChangeHandler] starts are
    debounced per file: any two callbacks started for the same path are at
    least 3 seconds apart, whatever the order and the times of the events.
    Callbacks are started only for files whose path ends in [rental.db] or
    [dev.db], and none without a callback.  With a callback, the first
    change of such a file starts one, whatever events of other paths came
    before it; and every event starts a callback exactly when it is a
    change of such a file and no callback was started for the same path
    less than 3 seconds before it: the times kept for other paths play no
    part. *)
Theorem callbacks_are_debounced (has_callback : bool)
    (events : list (Q * FileSystemEvent)) :
  ForallOrdPairs (fun a b => snd a = snd b -> 3 <= fst b - fst a)
    (started_callbacks (new_handler has_callback) events)
  /\ Forall (fun a => endswith (snd a) "rental.db"
                      || endswith (snd a) "dev.db" = true)
            (started_callbacks (new_handler has_callback) events)
  /\ (has_callback = false ->
      started_callbacks (new_handler has_callback) events = [])
  /\ (forall pre t path post,
         has_callback = true ->
         endswith path "rental.db" || endswith path "dev.db" = true ->
         events = (pre ++ (t, file_modified path) :: post)%list ->
         Forall (fun e => src_path (snd e) <> path) pre ->
         exists later,
           started_callbacks (new_handler has_callback) events
           = (started_callbacks (new_handler has_callback) pre
              ++ (t, path) :: later)%list)
  /\ (forall pre t event post,
         has_callback = true ->
         events = (pre ++ (t, event) :: post)%list ->
         started_callbacks (new_handler has_callback) (pre ++ [(t, event)])
         = (started_callbacks (new_handler has_callback) pre
            ++ (if negb (is_directory event)
                   && (endswith (src_path event) "rental.db"
                       || endswith (src_path event) "dev.db")
                   && match last_started (src_path event)
                              (started_callbacks (new_handler has_callback)
                                 pre) with
                      | Some last => negb (Qltb (t - last) 3)
                      | None => true
                      end
                then [(t, src_path event)] else []))%list).
Proof.
  assert (Hgen : forall evs h,
             debounce_time h = 3 ->
             ForallOrdPairs (fun a b => snd a = snd b -> 3 <= fst b - fst a)
               (started_callbacks h evs)
             /\ Forall (fun a => endswith (snd a) "rental.db"
                                 || endswith (snd a) "dev.db" = true)
                       (started_callbacks h evs)
             /\ (callback h = false -> started_callbacks h evs = [])).
  { induction evs as [|[t0 event] rest IH]; intros h Hd.
    - cbn. split; [constructor|]. split; [constructor | reflexivity].
    - cbn [started_callbacks].
      destruct (on_modified h event t0) as [h' started] eqn:Estep.
      pose proof (on_modified_debounce_time h event t0) as [Hdt Hcb].
      pose proof (on_modified_started h event t0) as Hstart.
      rewrite Estep in Hdt, Hcb, Hstart. cbn [fst snd] in Hdt, Hcb, Hstart.
      assert (debounce_time h' = 3) as Hd' by congruence.
      destruct (IH h' Hd') as (Hpairs & Hdb & Hnone).
      destruct started.
      + destruct (Hstart eq_refl) as (_ & Hfile & Hc & Hrec & _).
        split; [|split].
        * constructor; [|exact Hpairs].
          apply List.Forall_forall. intros [t path] Hin. cbn [fst snd].
          intros <-.
          assert (0 <= debounce_time h') as Hnn by (rewrite Hd'; lra).
          pose proof (started_callbacks_after rest h' t (src_path event) t0
                        Hnn Hrec Hin) as Hgap.
          rewrite Hd' in Hgap. exact Hgap.
        * constructor; [exact Hfile | exact Hdb].
        * congruence.
      + split; [exact Hpairs|]. split; [exact Hdb|].
        intros Hc. apply Hnone. congruence. }
  assert (Hsnoc : forall pre t event,
             started_callbacks (new_handler true) (pre ++ [(t, event)])
             = (started_callbacks (new_handler true) pre
                ++ (if negb (is_directory event)
                       && (endswith (src_path event) "rental.db"
                           || endswith (src_path event) "dev.db")
                       && match last_started (src_path event)
                                  (started_callbacks (new_handler true) pre)
                          with
                          | Some last => negb (Qltb (t - last) 3)
                          | None => true
                          end
                    then [(t, src_path event)] else []))%list).
  { intros pre t event. rewrite started_callbacks_app. f_equal.
    destruct (handler_after_fields pre (new_handler true)) as [Hd Hc].
    pose proof (last_modified_after (src_path event) pre (new_handler true)
                  eq_refl) as Hlast.
    cbn [new_handler last_modified debounce_time callback] in Hd, Hc, Hlast.
    rewrite lookup_empty in Hlast. fold (last_started (src_path event)
      (started_callbacks (new_handler true) pre)) in Hlast.
    cbn [started_callbacks]. unfold on_modified.
    rewrite Hlast, Hd, Hc.
    destruct (is_directory event); [reflexivity|].
    destruct (endswith _ _ || endswith _ _); [|reflexivity].
    cbn [negb andb].
    destruct (last_started (src_path event)
                (started_callbacks (new_handler true) pre)) as [last|];
      [destruct (Qltb (t - last) 3)|]; reflexivity. }
  destruct (Hgen events (new_handler has_callback) eq_refl)
    as (Hpairs & Hdb & Hnone).
  split; [exact Hpairs|]. split; [exact Hdb|]. split; [exact Hnone|].
  split.
  - intros pre t path post -> Hfile -> Hother.
    change (pre ++ (t, file_modified path) :: post)%list
      with (pre ++ [(t, file_modified path)] ++ post)%list.
    rewrite app_assoc, started_callbacks_app, Hsnoc.
    cbn [is_directory file_modified src_path negb andb]. rewrite Hfile.
    rewrite last_started_None.
    + cbn [andb]. rewrite <- app_assoc. cbn [app]. eexists. reflexivity.
    + apply List.Forall_forall. intros a Hin Hp.
      destruct (started_callbacks_paths _ _ _ Hin) as (event & Hev & Hsrc).
      rewrite List.Forall_forall in Hother.
      apply (Hother _ Hev). cbn [snd]. congruence.
  - intros pre t event post -> _. apply Hsnoc.
Qed.

Lemma callbacks_are_debounced_witness :
  started_callbacks (new_handler true)
    [ (0, file_modified "/data/rental.db");
      (1, file_modified "/data/rental.db");
      (2, file_modified "/prisma/dev.db");
      (2.5, file_modified "/data/rental.db-journal");
      (4, file_modified "/data/rental.db") ]
  = [ (0, "/data/rental.db"%string);
      (2, "/prisma/dev.db"%string);
      (4, "/data/rental.db"%string) ]
  /\ ForallOrdPairs (fun a b => snd a = snd b -> 3 <= fst b - fst a)
       (started_callbacks (new_handler true)
          [ (0, file_modified "/data/rental.db");
            (1, file_modified "/data/rental.db");
            (2, file_modified "/prisma/dev.db");
            (2.5, file_modified "/data/rental.db-journal");
            (4, file_modified "/data/rental.db") ])
  /\ (exists later,
        started_callbacks (new_handler true)
          [ (0, file_modified "/data/rental.db");
            (1, file_modified "/data/rental.db");
            (2, file_modified "/prisma/dev.db");
            (2.5, file_modified "/data/rental.db-journal");
            (4, file_modified "/data/rental.db") ]
        = (started_callbacks (new_handler true)
             [ (0, file_modified "/data/rental.db");
               (1, file_modified "/data/rental.db") ]
           ++ (2, "/prisma/dev.db"%string) :: later)%list).
Proof.
  split; [vm_compute; reflexivity|].
  pose proof (callbacks_are_debounced true
    [ (0, file_modified "/data/rental.db");
      (1, file_modified "/data/rental.db");
      (2, file_modified "/prisma/dev.db");
      (2.5, file_modified "/data/rental.db-journal");
      (4, file_modified "/data/rental.db") ]) as (Hpairs & _ & _ & Hfirst & _).
  split; [exact Hpairs|].
  apply (Hfirst [ (0, file_modified "/data/rental.db");
                  (1, file_modified "/data/rental.db") ]
           2 "/prisma/dev.db"%string
           [ (2.5, file_modified "/data/rental.db-journal");
             (4, file_modified "/data/rental.db") ]);
    [reflexivity | vm_compute; reflexivity | reflexivity |].
  repeat constructor; cbn; discriminate.
Defined.

(** ** The demand columns of the training frame *)

Lemma In_firstn {A : Type} (x : A) (n : nat) (l : list A) :
  In x (firstn n l) -> In x l.
Proof.
  intros H. rewrite <- (firstn_skipn n l). apply in_or_app. left. exact H.
Qed.

Lemma In_skipn_list {A : Type} (x : A) (n : nat) (l : list A) :
  In x (skipn n l) -> In x l.
Proof.
  intros H. rewrite <- (firstn_skipn n l). apply in_or_app. right. exact H.
Qed.

Lemma In_insert_date (x d : Z) (dates : list Z) :
  In x (insert_date d dates) <-> x = d \/ In x dates.
Proof.
  induction dates as [|y rest IH]; cbn.
  - intuition.
  - destruct (d ?= y)%Z eqn:E; cbn.
    + apply Z.compare_eq in E. subst y. intuition.
    + intuition.
    + rewrite IH. intuition.
Qed.

Lemma In_group_dates (rows : list BaseRow) (site : option string)
    (type_ : string) (d : Z) :
  In d (group_dates rows site type_)
  <-> exists r, In r rows /\ in_group site type_ r = true
                /\ b_Check_Out_Date r = Some d.
Proof.
  unfold group_dates. induction rows as [|r rest IH]; cbn [fold_right].
  - split; [intros [] | intros (r & [] & _)].
  - destruct (b_Check_Out_Date r) as [d0|] eqn:Ed.
    + destruct (in_group site type_ r) eqn:Eg.
      * rewrite In_insert_date, IH. split.
        -- intros [->|(r' & Hin & Hg & Hd)].
           ++ exists r. split; [left; reflexivity | auto].
           ++ exists r'. split; [right; exact Hin | auto].
        -- intros (r' & [<-|Hin] & Hg & Hd).
           ++ left. congruence.
           ++ right. exists r'. auto.
      * rewrite IH. split.
        -- intros (r' & Hin & Hg & Hd). exists r'.
           split; [right; exact Hin | auto].
        -- intros (r' & [<-|Hin] & Hg & Hd); [congruence|].
           exists r'. auto.
    + rewrite IH. split.
      * intros (r' & Hin & Hg & Hd). exists r'.
        split; [right; exact Hin | auto].
      * intros (r' & [<-|Hin] & Hg & Hd); [congruence|].
        exists r'. auto.
Qed.

Lemma group_size_pos (rows : list BaseRow) (site : option string)
    (type_ : string) (d : Z) :
  In d (group_dates rows site type_) ->
  (1 <= group_size rows site type_ d)%Z.
Proof.
  intros Hin. apply In_group_dates in Hin as (r & Hin & Hg & Hd).
  unfold group_size, len.
  assert (In r (List.filter
                  (fun r => in_group site type_ r
                            && match b_Check_Out_Date r with
                               | Some d' => (d' =? d)%Z
                               | None => false
                               end) rows)) as Hf.
  { apply filter_In. split; [exact Hin|]. rewrite Hg, Hd, Z.eqb_refl.
    reflexivity. }
  destruct (List.filter _ rows); [destruct Hf | cbn [length]; lia].
Qed.

Lemma position_of_lt (d : Z) (dates : list Z) :
  In d dates -> (position_of d dates < length dates)%nat.
Proof.
  induction dates as [|x rest IH]; cbn; [tauto|].
  destruct (x =? d)%Z eqn:E; [lia|].
  intros [->|Hin]; [rewrite Z.eqb_refl in E; discriminate|].
  specialize (IH Hin). lia.
Qed.

Lemma Qsum_ge_length (qs : list Q) :
  (forall q, In q qs -> 1 <= q) ->
  inject_Z (Z.of_nat (length qs)) <= Qsum qs.
Proof.
  induction qs as [|q rest IH]; intros H.
  - apply Qle_refl.
  - rewrite Qsum_cons. cbn [length].
    rewrite Nat2Z.inj_succ, <- Z.add_1_l, inject_Z_plus.
    pose proof (H q (or_introl eq_refl)) as Hq.
    assert (inject_Z (Z.of_nat (length rest)) <= Qsum rest) as Hr
      by (apply IH; intros x Hx; apply H; right; exact Hx).
    change (inject_Z 1) with 1. lra.
Qed.

Lemma fold_add_Num (qs : list Q) (acc : Q) :
  fold_left Float.add (List.map Num qs) (Num acc)
  = Num (fold_left Qplus qs acc).
Proof.
  revert acc. induction qs as [|q rest IH]; intros acc; [reflexivity|].
  cbn [List.map fold_left]. apply IH.
Qed.

Lemma series_mean_ge_one (qs : list Q) :
  qs <> [] ->
  (forall q, In q qs -> 1 <= q) ->
  exists m, series_mean (List.map Num qs) = Num m /\ 1 <= m.
Proof.
  intros Hne Hge. unfold series_mean.
  assert (notna_cells (List.map Num qs) = List.map Num qs) as ->.
  { unfold notna_cells. clear. induction qs as [|q rest IH]; cbn;
      [|rewrite IH]; reflexivity. }
  destruct (List.map Num qs) as [|c cells] eqn:Ec.
  { destruct qs; [congruence | discriminate]. }
  rewrite <- Ec, fold_add_Num, length_map. fold (Qsum qs).
  pose proof (Qsum_ge_length qs Hge) as Hsum.
  assert (0 < inject_Z (Z.of_nat (length qs))) as Hpos.
  { rewrite <- (Zlt_Qlt 0). destruct qs; [congruence | cbn [length]; lia]. }
  unfold of_Z. cbn [Float.div].
  rewrite Qeq_bool_false by lra.
  eexists. split; [reflexivity|].
  apply Qle_shift_div_l; [exact Hpos | lra].
Qed.

Lemma rolling_mean_ge_one (window : nat) (qs : list Q) (idx : nat) :
  (1 <= window)%nat ->
  (idx < length qs)%nat ->
  (forall q, In q qs -> 1 <= q) ->
  exists m, rolling_mean window (List.map Num qs) idx = Num m /\ 1 <= m.
Proof.
  intros Hw Hidx Hge. unfold rolling_mean.
  rewrite firstn_map, skipn_map.
  apply series_mean_ge_one.
  - intros E. apply (f_equal (@length Q)) in E.
    rewrite length_skipn, length_firstn in E. cbn [length] in E. lia.
  - intros q Hq. apply Hge.
    apply In_skipn_list in Hq. apply In_firstn in Hq. exact Hq.
Qed.

Lemma demand_features_spec (rows : list BaseRow) (r : BaseRow) :
  In r rows ->
  b_User_ID r <> None ->
  match b_Check_Out_Date r with
  | None => demand_features rows r = (Num 0, Num 0, Num 0)
  | Some _ =>
      exists dd d7 d30 : Q,
        demand_features rows r = (Num dd, Num d7, Num d30)
        /\ 1 <= dd /\ 1 <= d7 /\ 1 <= d30
  end.
Proof.
  intros Hin Hsite. unfold demand_features.
  destruct (b_Check_Out_Date r) as [d|] eqn:Ed; [|reflexivity].
  set (dates := group_dates rows (b_User_ID r) (b_Type r)).
  assert (In d dates) as Hd.
  { apply In_group_dates. exists r. split; [exact Hin|].
    split; [|exact Ed]. unfold in_group, same_site.
    destruct (b_User_ID r) as [u|]; [|congruence].
    rewrite !String.eqb_refl. reflexivity. }
  set (qs := List.map
               (fun d' => inject_Z (group_size rows (b_User_ID r) (b_Type r) d'))
               dates).
  assert (List.map
            (fun d' => of_Z (group_size rows (b_User_ID r) (b_Type r) d'))
            dates = List.map Num qs) as ->.
  { unfold qs. rewrite List.map_map. reflexivity. }
  assert (forall q, In q qs -> 1 <= q) as Hge.
  { intros q Hq. unfold qs in Hq.
    apply in_map_iff in Hq as (d' & <- & Hd').
    rewrite <- (Zle_Qle 1). apply group_size_pos. exact Hd'. }
  assert (position_of d dates < length qs)%nat as Hidx.
  { unfold qs. rewrite length_map. apply position_of_lt. exact Hd. }
  destruct (rolling_mean_ge_one 7 qs (position_of d dates)) as (m7 & E7 & H7);
    [lia | exact Hidx | exact Hge |].
  destruct (rolling_mean_ge_one 30 qs (position_of d dates))
    as (m30 & E30 & H30); [lia | exact Hidx | exact Hge |].
  rewrite E7, E30.
  exists (inject_Z (group_size rows (b_User_ID r) (b_Type r) d)), m7, m30.
  split; [reflexivity|].
  split; [|split; [exact H7 | exact H30]].
  rewrite <- (Zle_Qle 1). apply group_size_pos. exact Hd.
Qed.

(** X22.  In the training frame every row with a check-out date has a
    daily demand of at least 1, the row counting in its own group, and
    7-day and 30-day averages of at least 1; a row without a check-out
    date has 0 in the three columns. *)
Theorem training_demand_at_least_one (raw : list RawRow) (frame : Frame)
    (eq_enc site_enc : LabelEncoder) :
  _preprocess_data raw = Some (frame, eq_enc, site_enc) ->
  Forall
    (fun row =>
       match Check_Out_Date row with
       | None =>
           daily_demand row = Num 0
           /\ demand_7d_avg row = Num 0
           /\ demand_30d_avg row = Num 0
       | Some _ =>
           exists dd d7 d30 : Q,
             daily_demand row = Num dd
             /\ demand_7d_avg row = Num d7
             /\ demand_30d_avg row = Num d30
             /\ 1 <= dd /\ 1 <= d7 /\ 1 <= d30
       end)
    frame.
Proof.
  unfold _preprocess_data.
  destruct (to_datetime (List.map raw_Check_Out_Date raw)) as [outs|] eqn:Eo;
    [|discriminate].
  destruct (to_datetime (List.map raw_Check_in_Date raw)) as [ins|] eqn:Ei;
    [|discriminate].
  apply to_datetime_cells in Eo, Ei. subst outs ins.
  rewrite (List.map_map raw_Check_Out_Date), (List.map_map raw_Check_in_Date).
  rewrite combine_map_both, combine_map_r.
  rewrite (List.map_map
             (fun x : RawRow =>
                (x, (to_datetime_coerce (raw_Check_Out_Date x),
                     to_datetime_coerce (raw_Check_in_Date x))))).
  cbv beta iota.
  set (rows :=
         List.map
           (fun x : RawRow =>
              base_of x (to_datetime_coerce (raw_Check_Out_Date x))
                (to_datetime_coerce (raw_Check_in_Date x))
                (raw_Engine_Hours_Day x) (raw_Idle_Hours_Day x))
           raw).
  set (fill := fun r : BaseRow =>
                 {| b_Equipment_ID := b_Equipment_ID r;
                    b_Type := b_Type r;
                    b_User_ID := fill_unassigned (b_User_ID r);
                    b_Check_Out_Date := b_Check_Out_Date r;
                    b_Check_in_Date := b_Check_in_Date r;
                    b_Engine_Hours_Day := b_Engine_Hours_Day r;
                    b_Idle_Hours_Day := b_Idle_Hours_Day r |}).
  rewrite (surjective_pairing (encoder_fit_transform (List.map b_Type rows))).
  match goal with
  | |- context [encoder_fit_transform ?l] =>
      lazymatch l with
      | List.map b_Type rows => fail
      | _ => rewrite (surjective_pairing (encoder_fit_transform l))
      end
  end.
  intros [= <- _ _].
  rewrite combine_map_r.
  rewrite <- (length_map (fun r => (r, fill r)) rows).
  apply Forall_map_indexed_nth. intros i [r rf] Hnth.
  rewrite nth_error_map in Hnth.
  destruct (nth_error rows i) as [r'|] eqn:Hr; [|discriminate].
  injection Hnth as <- <-.
  assert (In (fill r') (List.map fill rows)) as Hin
    by (apply in_map; eapply nth_error_In; exact Hr).
  assert (b_User_ID (fill r') <> None) as Hsite
    by (unfold fill; cbn [b_User_ID]; destruct (b_User_ID r'); discriminate).
  pose proof (demand_features_spec (List.map fill rows) (fill r') Hin Hsite)
    as Hspec.
  change (b_Check_Out_Date (fill r')) with (b_Check_Out_Date r') in Hspec.
  destruct (demand_features (List.map fill rows) (fill r'))
    as [[dd d7] d30].
  cbn [Check_Out_Date daily_demand demand_7d_avg demand_30d_avg].
  destruct (b_Check_Out_Date r') as [d|].
  - destruct Hspec as (qd & q7 & q30 & [= -> -> ->] & H1 & H7 & H30).
    exists qd, q7, q30. split_ands; try reflexivity; assumption.
  - injection Hspec as -> -> ->. split_ands; reflexivity.
Qed.

Lemma training_demand_at_least_one_witness :
  exists frame eq_enc site_enc,
    _preprocess_data (rental_rows 0 20) = Some (frame, eq_enc, site_enc)
    /\ Forall (fun row => exists dd : Q, daily_demand row = Num dd /\ 1 <= dd)
              frame.
Proof.
  assert (exists frame eq_enc site_enc,
             _preprocess_data (rental_rows 0 20)
             = Some (frame, eq_enc, site_enc)
             /\ forallb (fun row => match Check_Out_Date row with
                                    | Some _ => true
                                    | None => false
                                    end) frame = true)
    as (frame & eq_enc & site_enc & Hpre & Hdated).
  { vm_compute. do 3 eexists. split; reflexivity. }
  exists frame, eq_enc, site_enc. split; [exact Hpre|].
  pose proof (training_demand_at_least_one (rental_rows 0 20) frame eq_enc
                site_enc Hpre) as HF.
  rewrite forallb_forall in Hdated.
  rewrite List.Forall_forall in HF |- *.
  intros row Hrow. specialize (HF row Hrow). specialize (Hdated row Hrow).
  destruct (Check_Out_Date row); [|discriminate].
  destruct HF as (dd & _ & _ & Hdd & _ & _ & H1 & _).
  exists dd. split; [exact Hdd | exact H1].
Defined.

(** ** The calendar features at training time and at forecast time *)

Lemma of_Z_eqb (a b : Z) : (of_Z a =? of_Z b)%fl = (a =? b)%Z.
Proof.
  unfold of_Z. cbn [Float.eqb].
  destruct (Z.eqb_spec a b) as [->|Hne].
  - apply Qeq_bool_true. reflexivity.
  - apply Qeq_bool_false. intros E. unfold Qeq in E.
    cbn [Qnum Qden inject_Z] in E. lia.
Qed.

Lemma seasonal_factor_of_chain (k : Z) :
  seasonal_factor_of (of_Z k)
  = if List.existsb (fun v => of_Z k =? of_Z v)%fl [6; 7; 8]%Z
    then Num 1.3
    else if List.existsb (fun v => of_Z k =? of_Z v)%fl [12; 1; 2]%Z
    then Num 0.7
    else if List.existsb (fun v => of_Z k =? of_Z v)%fl [3; 4; 5]%Z
    then Num 1.1
    else Num 1.0.
Proof.
  unfold seasonal_factor_of. cbn [List.existsb]. rewrite !of_Z_eqb.
  destruct (Z.eqb_spec k 6) as [->|H6]; [reflexivity|].
  destruct (Z.eqb_spec k 7) as [->|H7]; [reflexivity|].
  destruct (Z.eqb_spec k 8) as [->|H8]; [reflexivity|].
  cbn [orb].
  destruct (Z.eqb_spec k 12) as [->|H12]; [reflexivity|].
  destruct (Z.eqb_spec k 1) as [->|H1]; [reflexivity|].
  destruct (Z.eqb_spec k 2) as [->|H2]; [reflexivity|].
  cbn [orb]. reflexivity.
Qed.

Lemma weekend_flag_agrees (n : Z) :
  (if (of_Z (Calendar.weekday n) >=? Num 5)%fl then Num 1 else Num 0)
  = isin_int (of_Z (Calendar.weekday n)) [5; 6]%Z.
Proof.
  unfold isin_int, Calendar.weekday. cbn [List.existsb].
  rewrite !of_Z_eqb.
  pose proof (Z.mod_pos_bound (n + 6) 7 eq_refl) as Hw.
  set (w := ((n + 6) mod 7)%Z) in *.
  unfold Float.geb, of_Z. cbn [Float.leb].
  destruct (Qle_bool 5 (inject_Z w)) eqn:E.
  - apply Qle_bool_iff in E. rewrite <- (Zle_Qle 5) in E.
    destruct (Z.eqb_spec w 5); [reflexivity|].
    destruct (Z.eqb_spec w 6); [reflexivity|]. lia.
  - destruct (Z.eqb_spec w 5) as [E5|_].
    + rewrite E5 in E. discriminate E.
    + destruct (Z.eqb_spec w 6) as [E6|_]; [|reflexivity].
      rewrite E6 in E. discriminate E.
Qed.

Section CalendarParity.

Context {SK : Sklearn}.

Lemma forecast_calendar_features (s : SmartMLSystem)
    (equipment_type site_id : option string) (n : Z) (fd : Frame)
    (features : list fl) :
  _prepare_forecast_features s equipment_type site_id (PdTimestamp n) fd
  = inr features ->
  length features = 14%nat
  /\ firstn 5 (skipn 2 features)
     = [ of_Z (Calendar.month n);
         of_Z (Calendar.weekday n);
         of_Z (Calendar.quarter n);
         isin_int (of_Z (Calendar.weekday n)) [5; 6]%Z;
         seasonal_factor_of (of_Z (Calendar.month n)) ].
Proof.
  unfold _prepare_forecast_features.
  destruct (if truthy equipment_type then _ else _) as [e|c1];
    [discriminate|].
  destruct (if truthy site_id then _ else _) as [e|c2]; [discriminate|].
  intros [= <-]. split; [reflexivity|].
  cbn [skipn firstn]. rewrite seasonal_factor_of_chain. reflexivity.
Qed.

(** X23.  The calendar features agree between training, live data and
    forecast.  The feature vector that [_prepare_forecast_features] builds
    for a day has 14 entries, and its month, day of week, quarter, weekend
    flag and seasonal factor are the values that [_preprocess_data] gives
    to a training row checked out on that day, and that
    [_add_calculated_columns_to_db_data] gives to such a live row. *)
Theorem calendar_features_agree (s : SmartMLSystem)
    (equipment_type site_id : option string) (n : Z) (fd : Frame)
    (features : list fl) :
  _prepare_forecast_features s equipment_type site_id (PdTimestamp n) fd
  = inr features ->
  length features = length feature_columns
  /\ (forall raw frame eq_enc site_enc,
         _preprocess_data raw = Some (frame, eq_enc, site_enc) ->
         Forall (fun row =>
                   Check_Out_Date row = Some n ->
                   firstn 5 (skipn 2 features)
                   = [month row; day_of_week row; quarter row;
                      is_weekend row; seasonal_factor row])
                frame)
  /\ (forall eq_enc site_enc db_data,
         Forall (fun row =>
                   Check_Out_Date row = Some n ->
                   firstn 5 (skipn 2 features)
                   = [month row; day_of_week row; quarter row;
                      is_weekend row; seasonal_factor row])
                (_add_calculated_columns_to_db_data eq_enc site_enc
                   db_data)).
Proof.
  intros Hf.
  destruct (forecast_calendar_features _ _ _ _ _ _ Hf) as [Hlen Hcal].
  split; [exact Hlen|]. split.
  - intros raw frame eq_enc site_enc. unfold _preprocess_data.
    destruct (to_datetime (List.map raw_Check_Out_Date raw)) as [outs|];
      [|discriminate].
    destruct (to_datetime (List.map raw_Check_in_Date raw)) as [ins|];
      [|discriminate].
    destruct (encoder_fit_transform _) as [e1 c1].
    destruct (encoder_fit_transform _) as [e2 c2].
    intros [= <- _ _].
    apply Forall_map_indexed. intros i [r rf].
    destruct (demand_features _ rf) as [[dd d7] d30].
    cbn [Check_Out_Date month day_of_week quarter is_weekend seasonal_factor].
    intros ->. rewrite Hcal. reflexivity.
  - intros eq_enc site_enc db_data.
    unfold _add_calculated_columns_to_db_data.
    apply Forall_map_indexed. intros i r.
    cbn [Check_Out_Date month day_of_week quarter is_weekend seasonal_factor].
    intros ->. rewrite Hcal. cbn [dt fillna isna of_Z].
    rewrite <- weekend_flag_agrees. reflexivity.
Qed.

End CalendarParity.

Lemma calendar_features_agree_witness :
  exists features,
    _prepare_forecast_features trained_system (Some "Excavator"%string)
      (Some "S1"%string) (PdTimestamp 738887) site_forecast_frame
    = inr features
    /\ length features = 14%nat
    /\ firstn 5 (skipn 2 features)
       = [Num 1; Num 1; Num 1; Num 0; Num 0.7].
Proof.
  assert (exists features,
             _prepare_forecast_features trained_system
               (Some "Excavator"%string) (Some "S1"%string)
               (PdTimestamp 738887) site_forecast_frame
             = inr features
             /\ firstn 5 (skipn 2 features)
                = [Num 1; Num 1; Num 1; Num 0; Num 0.7])
    as (features & Hf & Hcal).
  { vm_compute. eexists. split; reflexivity. }
  exists features. split; [exact Hf|].
  split; [|exact Hcal].
  apply (calendar_features_agree (SK := column_sklearn) trained_system
           (Some "Excavator"%string) (Some "S1"%string) 738887%Z
           site_forecast_frame features Hf).
Defined.

(** ** The ways a forecast can end *)

Section ForecastOutcomes.

Context {SK : Sklearn}.

Lemma forecast_source_None (s : SmartMLSystem)
    (query : option (list RawRow)) :
  forecast_source s query = None ->
  data s = None
  /\ (_load_database_data s query = None
      \/ _load_database_data s query = Some []).
Proof.
  unfold forecast_source.
  destruct (_load_database_data s query) as [db_data|]; [|auto].
  destruct db_data as [|row rest]; [auto | discriminate].
Qed.

(** X24.  The ways [forecast_demand] can end.  It answers
    ["Models not trained"] exactly for an untrained system;
    ["No data available"] when there is neither a live nor a training
    frame; ["No data found"] when no row of the frame passes the filters;
    and with a caught exception when the request is for no day (a
    division by zero), for a negative number of days (the maximum of no
    forecast), or when the features or the prediction of one of the days
    raise.  Otherwise it succeeds, for at least one day.  It never
    answers with an error of the anomaly detection. *)
Theorem forecast_demand_outcomes (s : SmartMLSystem)
    (query : option (list RawRow)) (now : Z)
    (equipment_type site_id : option string) (days_ahead : Z) :
  match forecast_demand s query now equipment_type site_id days_ahead with
  | Err Models_not_trained => models_trained s = false
  | Err No_data_available =>
      models_trained s = true
      /\ data s = None
      /\ (_load_database_data s query = None
          \/ _load_database_data s query = Some [])
  | Err No_data_found =>
      models_trained s = true
      /\ exists source,
          forecast_source s query = Some source
          /\ filter_forecast_data source equipment_type site_id = []
  | Err (Error_forecasting_demand e) =>
      models_trained s = true
      /\ exists source,
          forecast_source s query = Some source
          /\ filter_forecast_data source equipment_type site_id <> []
          /\ ((days_ahead = 0%Z /\ e = ZeroDivisionError)
              \/ ((days_ahead < 0)%Z /\ e = ValueError)
              \/ ((1 <= days_ahead)%Z
                  /\ forecast_points s equipment_type site_id
                       (filter_forecast_data source equipment_type site_id)
                       (future_dates_of
                          (last_date_of
                             (filter_forecast_data source equipment_type
                                site_id) now)
                          days_ahead)
                     = inl e))
  | Err _ => False
  | Ok r =>
      models_trained s = true
      /\ (1 <= days_ahead)%Z
      /\ exists source,
          forecast_source s query = Some source
          /\ forecast_points s equipment_type site_id
               (filter_forecast_data source equipment_type site_id)
               (future_dates_of
                  (last_date_of
                     (filter_forecast_data source equipment_type site_id)
                     now)
                  days_ahead)
             = inr (forecasts r)
  end.
Proof.
  unfold forecast_demand.
  destruct (models_trained s) eqn:Ht; cbn [negb]; [|reflexivity].
  destruct (forecast_source s query) as [source|] eqn:Es.
  2:{ split; [reflexivity|]. apply forecast_source_None. exact Es. }
  destruct (filter_forecast_data source equipment_type site_id)
    as [|row fd'] eqn:Efd.
  { change (len (@nil Row) =? 0)%Z with true. cbv iota.
    split; [reflexivity|]. exists source. split; [reflexivity | exact Efd]. }
  set (fd := row :: fd') in *.
  assert (fd <> []) as Hne by discriminate.
  change (len fd =? 0)%Z with false. cbv iota.
  destruct (Z.le_gt_cases 1 days_ahead) as [Hpos|Hnone].
  - destruct (forecast_points s equipment_type site_id fd _)
      as [e|ps] eqn:Eps.
    { split; [reflexivity|]. exists source. rewrite Efd.
      split; [reflexivity|]. split; [exact Hne|].
      right. right. split; [exact Hpos | exact Eps]. }
    destruct (_calculate_demand_trend ps) as [tr st].
    destruct (days_ahead =? 0)%Z eqn:E0; [apply Z.eqb_eq in E0; lia|].
    destruct ps as [|p ps'].
    + apply forecast_points_demand_range in Eps as [_ Hlen].
      unfold future_dates_of in Hlen.
      rewrite length_map, length_seq in Hlen. cbn [length] in Hlen. lia.
    + cbn [forecasts]. split; [reflexivity|]. split; [exact Hpos|].
      exists source. rewrite Efd. split; [reflexivity | exact Eps].
  - assert (future_dates_of (last_date_of fd now) days_ahead = []) as ->.
    { unfold future_dates_of.
      replace (Z.to_nat days_ahead) with 0%nat by lia. reflexivity. }
    cbn [forecast_points].
    destruct (_calculate_demand_trend []) as [tr st].
    destruct (days_ahead =? 0)%Z eqn:E0.
    + apply Z.eqb_eq in E0. split; [reflexivity|]. exists source.
      rewrite Efd. split; [reflexivity|]. split; [exact Hne|].
      left. split; [exact E0 | reflexivity].
    + apply Z.eqb_neq in E0. split; [reflexivity|]. exists source.
      rewrite Efd. split; [reflexivity|]. split; [exact Hne|].
      right. left. split; [lia | reflexivity].
Qed.

End ForecastOutcomes.

Lemma forecast_demand_outcomes_witness :
  forecast_demand (SK := column_sklearn) trained_system
    (Some (scenario_snapshot 8)) 738000 (Some "Excavator"%string) None 0
  = Err (Error_forecasting_demand ZeroDivisionError)
  /\ forecast_demand (SK := column_sklearn) trained_system
       (Some (scenario_snapshot 8)) 738000 (Some "Grader"%string) None 5
     = Err No_data_found
  /\ exists source,
       forecast_source trained_system (Some (scenario_snapshot 8))
       = Some source
       /\ filter_forecast_data source (Some "Grader"%string) None = [].
Proof.
  split; [vm_compute; reflexivity|].
  assert (forecast_demand (SK := column_sklearn) trained_system
            (Some (scenario_snapshot 8)) 738000 (Some "Grader"%string) None 5
          = Err No_data_found) as E by (vm_compute; reflexivity).
  split; [exact E|].
  pose proof (forecast_demand_outcomes (SK := column_sklearn) trained_system
                (Some (scenario_snapshot 8)) 738000%Z
                (Some "Grader"%string) None 5%Z) as H.
  rewrite E in H. exact (proj2 H).
Defined.

(** ** The fallback to the current time *)

Lemma dates_max_undated (col : list (option Z)) :
  Forall (fun d => d = None) col -> dates_max col = None.
Proof.
  induction 1 as [|d rest Hd Hrest IH]; [reflexivity|].
  subst d. exact IH.
Qed.

Lemma encode_one_inr (encoder : LabelEncoder) (label : string) :
  encoder_transform encoder [label] <> None ->
  exists code, encode_one encoder label = inr code.
Proof.
  unfold encode_one. intros Hknown.
  destruct (encoder_transform encoder [label]) as [[|code codes]|] eqn:E.
  - destruct encoder as [classes|]; [|discriminate].
    apply transform_labels_length in E. discriminate E.
  - eauto.
  - congruence.
Qed.

Section CurrentTimeFallback.

Context {SK : Sklearn}.

Lemma features_of_datetime (s : SmartMLSystem)
    (equipment_type site_id : option string) (n : Z) (fd : Frame) :
  exists e,
    _prepare_forecast_features s equipment_type site_id (PyDatetime n) fd
    = inl e
    /\ (e = AttributeError \/ e = ValueError)
    /\ ((truthy equipment_type = true ->
         encoder_transform (equipment_encoder s) [text_of equipment_type]
         <> None) ->
        (truthy site_id = true ->
         encoder_transform (site_encoder s) [text_of site_id] <> None) ->
        e = AttributeError).
Proof.
  unfold _prepare_forecast_features.
  destruct (truthy equipment_type) eqn:Et.
  - destruct (encode_one (equipment_encoder s) (text_of equipment_type))
      as [e|c1] eqn:E1.
    + exists e. split; [reflexivity|].
      apply encode_one_error in E1 as Hv. split; [right; exact Hv|].
      intros Hk _. destruct (encode_one_inr _ _ (Hk eq_refl)) as [c Hc].
      congruence.
    + destruct (truthy site_id) eqn:Es.
      * destruct (encode_one (site_encoder s) (text_of site_id))
          as [e|c2] eqn:E2.
        -- exists e. split; [reflexivity|].
           apply encode_one_error in E2 as Hv. split; [right; exact Hv|].
           intros _ Hk. destruct (encode_one_inr _ _ (Hk eq_refl)) as [c Hc].
           congruence.
        -- exists AttributeError. split; [reflexivity|]. auto.
      * exists AttributeError. split; [reflexivity|]. auto.
  - destruct (truthy site_id) eqn:Es.
    + destruct (encode_one (site_encoder s) (text_of site_id))
        as [e|c2] eqn:E2.
      * exists e. split; [reflexivity|].
        apply encode_one_error in E2 as Hv. split; [right; exact Hv|].
        intros _ Hk. destruct (encode_one_inr _ _ (Hk eq_refl)) as [c Hc].
        congruence.
      * exists AttributeError. split; [reflexivity|]. auto.
    + exists AttributeError. split; [reflexivity|]. auto.
Qed.

(** X25.  The fallback of [forecast_demand] to the current time never
    yields a forecast.  When no row that passes the filters has a
    check-out date, a request of at least one day to a trained system ends
    in the error result of a caught exception: the [AttributeError] of a
    [datetime] without [dayofweek], or, when the equipment type or the
    site is unknown to its encoder, the [ValueError] of the encoder. *)
Theorem undated_frame_is_not_forecast (s : SmartMLSystem)
    (query : option (list RawRow)) (now : Z)
    (equipment_type site_id : option string) (days_ahead : Z)
    (source : Frame) :
  models_trained s = true ->
  forecast_source s query = Some source ->
  filter_forecast_data source equipment_type site_id <> [] ->
  Forall (fun row => Check_Out_Date row = None)
         (filter_forecast_data source equipment_type site_id) ->
  (1 <= days_ahead)%Z ->
  exists e,
    forecast_demand s query now equipment_type site_id days_ahead
    = Err (Error_forecasting_demand e)
    /\ (e = AttributeError \/ e = ValueError)
    /\ ((truthy equipment_type = true ->
         encoder_transform (equipment_encoder s) [text_of equipment_type]
         <> None) ->
        (truthy site_id = true ->
         encoder_transform (site_encoder s) [text_of site_id] <> None) ->
        e = AttributeError).
Proof.
  intros Ht Hs Hne Hundated Hdays.
  unfold forecast_demand. rewrite Ht, Hs. cbn [negb].
  set (fd := filter_forecast_data source equipment_type site_id) in *.
  assert ((len fd =? 0)%Z = false) as ->.
  { apply Z.eqb_neq. unfold len. destruct fd; [congruence|].
    cbn [length]. lia. }
  assert (last_date_of fd now = PyDatetime now) as ->.
  { unfold last_date_of. rewrite dates_max_undated; [reflexivity|].
    apply List.Forall_forall. intros d Hd.
    apply in_map_iff in Hd as (row & <- & Hrow).
    rewrite List.Forall_forall in Hundated. apply Hundated. exact Hrow. }
  unfold future_dates_of.
  destruct (Z.to_nat days_ahead) as [|k] eqn:Ek; [lia|].
  cbn [seq List.map forecast_points add_days]. unfold forecast_point.
  destruct (features_of_datetime s equipment_type site_id
              (now + (Z.of_nat 0 + 1)) fd) as (e & -> & Hcases).
  exists e. split; [reflexivity | exact Hcases].
Qed.

End CurrentTimeFallback.

Lemma undated_frame_is_not_forecast_witness :
  forecast_demand (SK := column_sklearn) trained_system
    (Some [ {| raw_Equipment_ID := "EQ1";
               raw_Type := "Crane";
               raw_User_ID := Some "S1"%string;
               raw_Check_Out_Date := DateEmpty;
               raw_Check_in_Date := DateEmpty;
               raw_Engine_Hours_Day := Num 6;
               raw_Idle_Hours_Day := Num 2 |} ])
    738000 (Some "Crane"%string) None 3
  = Err (Error_forecasting_demand AttributeError).
Proof.
  set (query := Some [ {| raw_Equipment_ID := "EQ1"%string;
                          raw_Type := "Crane"%string;
                          raw_User_ID := Some "S1"%string;
                          raw_Check_Out_Date := DateEmpty;
                          raw_Check_in_Date := DateEmpty;
                          raw_Engine_Hours_Day := Num 6;
                          raw_Idle_Hours_Day := Num 2 |} ]).
  assert (exists source,
             forecast_source trained_system query = Some source
             /\ filter_forecast_data source (Some "Crane"%string) None <> []
             /\ forallb (fun row => match Check_Out_Date row with
                                    | None => true
                                    | Some _ => false
                                    end)
                  (filter_forecast_data source (Some "Crane"%string) None)
                = true)
    as (source & Hs & Hne & Hund).
  { vm_compute. eexists. split; [reflexivity|].
    split; [discriminate | reflexivity]. }
  assert (Forall (fun row => Check_Out_Date row = None)
            (filter_forecast_data source (Some "Crane"%string) None))
    as Hundated.
  { apply List.Forall_forall. intros row Hrow.
    rewrite forallb_forall in Hund. specialize (Hund row Hrow).
    destruct (Check_Out_Date row); [discriminate | reflexivity]. }
  destruct (undated_frame_is_not_forecast (SK := column_sklearn)
              trained_system query 738000%Z (Some "Crane"%string) None 3%Z
              source eq_refl Hs Hne Hundated)
    as (e & He & _ & Hattr); [lia|].
  rewrite He. rewrite Hattr; [reflexivity| |].
  - intros _. vm_compute. discriminate.
  - intros Hsite. discriminate Hsite.
Defined.

(** ** The statistics override script *)

Lemma existsb_of_map {A B : Type} (f : B -> bool) (g : A -> B)
    (l : list A) :
  List.existsb f (List.map g l) = List.existsb (fun a => f (g a)) l.
Proof.
  induction l as [|a rest IH]; cbn; [|rewrite IH]; reflexivity.
Qed.

Lemma existsb_none {A : Type} (f : A -> bool) (l : list A) :
  (forall a, In a l -> f a = false) -> List.existsb f l = false.
Proof.
  induction l as [|a rest IH]; intros H; [reflexivity|].
  cbn. rewrite (H a (or_introl eq_refl)), IH; [reflexivity|].
  intros b Hb. apply H. right. exact Hb.
Qed.

(** X26.  The cleaner of the override script leaves no NaN and no
    infinity in a dictionary or a list, so that the check [has_nan] that
    follows it never finds one; cleaning twice is cleaning once; and on a
    dictionary or list without [None] it returns what [clean_nan_values]
    of the service returns. *)
Theorem script_cleaner_spec (obj : json) :
  is_container obj = true ->
  FixEquipmentStats.has_nan (FixEquipmentStats.clean_nan_values obj) = false
  /\ FixEquipmentStats.clean_nan_values
       (FixEquipmentStats.clean_nan_values obj)
     = FixEquipmentStats.clean_nan_values obj
  /\ (json_no_null obj = true ->
      FixEquipmentStats.clean_nan_values obj = clean_nan_values obj).
Proof.
  induction obj as [| b | n | s | x | items IH | entries IH]
    using json_nested_ind; try discriminate; intros _.
  - cbn [FixEquipmentStats.clean_nan_values FixEquipmentStats.has_nan
         clean_nan_values json_no_null].
    rewrite existsb_of_map, List.map_map.
    rewrite List.Forall_forall in IH.
    split; [|split].
    + apply existsb_none. intros item Hin. specialize (IH item Hin).
      destruct item as [| b | n | s | x | items' | entries'];
        try reflexivity.
      * destruct x; reflexivity.
      * apply (IH eq_refl).
      * apply (IH eq_refl).
    + f_equal. apply List.map_ext_in. intros item Hin.
      specialize (IH item Hin).
      destruct item as [| b | n | s | x | items' | entries'];
        try reflexivity.
      * destruct x; reflexivity.
      * apply (IH eq_refl).
      * apply (IH eq_refl).
    + intros Hnn. f_equal. apply List.map_ext_in. intros item Hin.
      specialize (IH item Hin).
      rewrite forallb_forall in Hnn. specialize (Hnn item Hin).
      destruct item as [| b | n | s | x | items' | entries'];
        try reflexivity; apply (IH eq_refl); exact Hnn.
  - cbn [FixEquipmentStats.clean_nan_values FixEquipmentStats.has_nan
         clean_nan_values json_no_null].
    rewrite existsb_of_map, List.map_map. cbn [fst snd].
    rewrite List.Forall_forall in IH.
    split; [|split].
    + apply existsb_none. intros [k v] Hin. specialize (IH (k, v) Hin).
      cbn [fst snd] in *.
      destruct v as [| b | n | s | x | items' | entries'];
        try reflexivity.
      * destruct (FixEquipmentStats.float_key k); reflexivity.
      * destruct x; reflexivity.
      * apply (IH eq_refl).
      * apply (IH eq_refl).
    + f_equal. apply List.map_ext_in. intros [k v] Hin.
      specialize (IH (k, v) Hin). cbn [fst snd] in *. f_equal.
      destruct v as [| b | n | s | x | items' | entries'];
        try reflexivity.
      * destruct (FixEquipmentStats.float_key k); reflexivity.
      * destruct x; reflexivity.
      * apply (IH eq_refl).
      * apply (IH eq_refl).
    + intros Hnn. f_equal. apply List.map_ext_in. intros [k v] Hin.
      specialize (IH (k, v) Hin).
      rewrite forallb_forall in Hnn. specialize (Hnn (k, v) Hin).
      cbn [fst snd] in *. f_equal.
      destruct v as [| b | n | s | x | items' | entries'];
        try reflexivity; try discriminate Hnn;
        apply (IH eq_refl); exact Hnn.
Qed.

Lemma script_cleaner_spec_witness :
  FixEquipmentStats.clean_nan_values
    (JDict [ ("avg_engine_hours"%string, JFloat NaN);
             ("count"%string, JNull);
             ("total_idle_hours"%string, JNull);
             ("sites"%string, JList [JFloat PInf; JNull]) ])
  = JDict [ ("avg_engine_hours"%string, JFloat (Num 0.0));
            ("count"%string, JInt 0);
            ("total_idle_hours"%string, JFloat (Num 0.0));
            ("sites"%string, JList [JFloat (Num 0.0); JNull]) ]
  /\ FixEquipmentStats.has_nan
       (FixEquipmentStats.clean_nan_values
          (JDict [ ("avg_engine_hours"%string, JFloat NaN);
                   ("count"%string, JNull);
                   ("total_idle_hours"%string, JNull);
                   ("sites"%string, JList [JFloat PInf; JNull]) ]))
     = false.
Proof.
  split; [reflexivity|].
  apply (script_cleaner_spec
           (JDict [ ("avg_engine_hours"%string, JFloat NaN);
                    ("count"%string, JNull);
                    ("total_idle_hours"%string, JNull);
                    ("sites"%string, JList [JFloat PInf; JNull]) ])).
  reflexivity.
Defined.

(** ** The placeholder service *)




(** ** Reloads as the endpoints see them *)

Section ReloadAndEndpoints.

Context {SK : Sklearn}.

(** X28.  What a reload does to the endpoints.  After a reload during
    which the CSV file cannot be read, every forecast request is refused
    with 503 and every anomaly request is answered with the mock report,
    whatever was installed before.  After a reload whose constructor
    raises, on a date of the CSV file that does not parse, or that is
    skipped because another one is in progress, both endpoints answer
    every request as they did before. *)
Theorem reload_as_seen_by_endpoints (g : Service) (w : World)
    (current_time : Z) :
  (is_reloading g = false ->
   csv w = None ->
   (forall query now request,
       demand_forecast (on_database_change g w current_time) query now
         request
       = HTTPException 503 "ML models are not trained")
   /\ (forall count query generated_at equipment_id,
          anomaly_detection (on_database_change g w current_time) count
            query generated_at equipment_id
          = Returned mock_anomalies))
  /\ (is_reloading g = true
      \/ (exists raw,
             csv w = Some raw
             /\ Exists (fun r => raw_Check_Out_Date r = DateBad
                                 \/ raw_Check_in_Date r = DateBad) raw) ->
      (forall query now request,
          demand_forecast (on_database_change g w current_time) query now
            request
          = demand_forecast g query now request)
      /\ (forall count query generated_at equipment_id,
             anomaly_detection (on_database_change g w current_time) count
               query generated_at equipment_id
             = anomaly_detection g count query generated_at equipment_id)).
Proof.
  split.
  - intros Hre Hcsv.
    assert (ml_system (on_database_change g w current_time)
            = Some fresh_system) as Hnew.
    { unfold on_database_change, __init__. rewrite Hre, Hcsv. reflexivity. }
    split; intros; [unfold demand_forecast | unfold anomaly_detection];
      rewrite Hnew; reflexivity.
  - intros Hkeep.
    assert (ml_system (on_database_change g w current_time) = ml_system g)
      as Hsame.
    { unfold on_database_change.
      destruct (is_reloading g) eqn:Hre; [reflexivity|].
      destruct Hkeep as [Hbusy|Hbad]; [discriminate|].
      assert (__init__ w = None) as ->; [|reflexivity].
      unfold __init__. destruct Hbad as (raw & -> & Hbad).
      apply _preprocess_data_None in Hbad. rewrite Hbad. reflexivity. }
    split; intros; [unfold demand_forecast | unfold anomaly_detection];
      rewrite Hsame; reflexivity.
Qed.

End ReloadAndEndpoints.

Lemma reload_as_seen_by_endpoints_witness :
  demand_forecast (on_database_change trained_service unreadable_world 1)
    (Some (scenario_snapshot 8)) 738000 (forecast_request None 5)
  = HTTPException 503 "ML models are not trained"
  /\ demand_forecast (on_database_change trained_service bad_date_world 1)
       (Some (scenario_snapshot 8)) 738000 (forecast_request None 5)
     = demand_forecast trained_service (Some (scenario_snapshot 8)) 738000
         (forecast_request None 5).
Proof.
  pose proof (reload_as_seen_by_endpoints (SK := column_sklearn)
                trained_service unreadable_world 1%Z) as [Hoff _].
  pose proof (reload_as_seen_by_endpoints (SK := column_sklearn)
                trained_service bad_date_world 1%Z) as [_ Hkeep].
  split.
  - apply (proj1 (Hoff eq_refl eq_refl)).
  - assert (exists raw,
               csv (bad_date_world (SK := column_sklearn)) = Some raw
               /\ Exists (fun r => raw_Check_Out_Date r = DateBad
                                   \/ raw_Check_in_Date r = DateBad) raw)
      as Hbad.
    { eexists. split; [reflexivity|]. constructor. left. reflexivity. }
    apply (proj1 (Hkeep (or_intror Hbad))).
Defined.
